(** * medcarbon: the stores, the leaderboard aggregation engine and the
    views of [app.py]

    A shallow embedding of the functions of [app.py]: the loaders
    ([load_users], [load_emissions], [load_market_data]), the stores
    ([add_user], [find_user_by_email], [update_user_type], [add_emission]),
    the aggregation ([compute_totals_for_user], [_iter_items],
    [build_leaderboards_from_data], [build_leaderboards_from_emissions]) and
    the views ([login], [signup], [identify], [set_identity], [dashboard],
    [add_emission_route], [marketplace], [logout]), with the properties its
    specification states about them and further properties of the code.

    Modelling choices.
    - The persisted stores hold JSON; the functions work on whatever
      [json.load] returned, so values are modelled by the type [json] and
      every Python operation that can raise ([d[k]], [x.get], [float(x)],
      [x.lower()], iteration, hashing) returns a [result].
    - The aggregation is embedded twice.  In the first embedding the numbers
      are exact rationals [Q] and [round(x, 1)] is round-half-to-even on the
      exact value: it carries the rules of the units, of the totals, of the
      subsidy and of the stores, which hold of the floats up to their
      rounding error.  The second embedding, the module [B64], has the
      numbers of Python, unbounded integers and binary64 floats with their
      infinities and NaN: it carries the properties that an overflow or a
      NaN can break, the sign of [emissions_kg], the order of the
      leaderboards and the relative reduction.
    - JSON objects and Python dicts are association lists in insertion
      order; strings hold the UTF-8 bytes of a Python [str].  [lower] and
      [strip] are [str.lower] and [str.strip] on ASCII strings; the views
      and the module [B64] take the two methods of the interpreter as
      arguments.
    - A write to a file is a new value of the stores; the clock, the hash
      of a new password and the two library functions [check_password_hash]
      and [flash] are arguments; a view returns an abstract response. *)

From Stdlib Require Import QArith Qround ZArith List String Ascii Bool.
From Stdlib Require Import Lia Lqa Permutation Sorted Floats.
Import ListNotations.

Open Scope string_scope.
Open Scope list_scope.
Open Scope Q_scope.

(** ** Values, exceptions and the error monad *)

#[local] Set Warnings "-register-all,-inexact-float".

Inductive json : Type :=
| JNull
| JBool (b : bool)
| JNum (q : Q)
| JStr (s : string)
| JArr (l : list json)
| JObj (kv : list (string * json)).

Inductive exn : Type :=
| KeyError
| TypeError
| ValueError
| AttributeError
| OverflowError
| JSONDecodeError.

Inductive result (A : Type) : Type :=
| OK (a : A)
| Raise (e : exn).

Arguments OK {A} a.
Arguments Raise {A} e.

Definition bind {A B : Type} (m : result A) (k : A -> result B) : result B :=
  match m with
  | OK a => k a
  | Raise e => Raise e
  end.

Notation "x <- m ;; k" := (bind m (fun x => k))
  (at level 61, m at next level, right associativity).

(** A [for] loop whose body may raise: the first exception ends the loop. *)
Fixpoint foldM {A B : Type} (f : A -> B -> result A) (l : list B) (a : A)
  : result A :=
  match l with
  | [] => OK a
  | x :: r => a' <- f a x ;; foldM f r a'
  end.

(** ** Python operations on JSON values *)

Definition Qltb (x y : Q) : bool := negb (Qle_bool y x).

(** [bool(x)] *)
Definition truthy (x : json) : bool :=
  match x with
  | JNull => false
  | JBool b => b
  | JNum q => negb (Qeq_bool q 0)
  | JStr s => negb (s =? "")%string
  | JArr l => match l with [] => false | _ => true end
  | JObj kv => match kv with [] => false | _ => true end
  end.

(** [x or y] *)
Definition py_or (x y : json) : json := if truthy x then x else y.

Fixpoint lookup {V : Type} (k : string) (kv : list (string * V)) : option V :=
  match kv with
  | [] => None
  | (k', v) :: r => if (k =? k')%string then Some v else lookup k r
  end.

(** [a == b]: numbers and booleans compare by value, strings and lists
    structurally, dicts regardless of the order of their keys. *)
Fixpoint py_eq (a b : json) : bool :=
  match a, b with
  | JNull, JNull => true
  | JBool x, JBool y => Bool.eqb x y
  | JBool x, JNum q => Qeq_bool (if x then 1 else 0) q
  | JNum q, JBool y => Qeq_bool q (if y then 1 else 0)
  | JNum p, JNum q => Qeq_bool p q
  | JStr s, JStr t => (s =? t)%string
  | JArr l1, JArr l2 =>
      (fix go (xs ys : list json) : bool :=
         match xs, ys with
         | [], [] => true
         | x :: xs', y :: ys' => py_eq x y && go xs' ys'
         | _, _ => false
         end) l1 l2
  | JObj d1, JObj d2 =>
      (List.length d1 =? List.length d2)%nat &&
      (fix go (xs : list (string * json)) : bool :=
         match xs with
         | [] => true
         | (k, v) :: xs' =>
             match lookup k d2 with
             | Some w => py_eq v w
             | None => false
             end && go xs'
         end) d1
  | _, _ => false
  end.

(** [d.get(k, default)]; only dicts have [get]. *)
Definition py_get (d : json) (k : string) (default : json) : result json :=
  match d with
  | JObj kv => OK (match lookup k kv with Some v => v | None => default end)
  | _ => Raise AttributeError
  end.

(** [d[k]] for a string key [k]. *)
Definition py_subscript (d : json) (k : string) : result json :=
  match d with
  | JObj kv => match lookup k kv with Some v => OK v | None => Raise KeyError end
  | _ => Raise TypeError
  end.

Fixpoint chars (s : string) : list json :=
  match s with
  | EmptyString => []
  | String c r => JStr (String c EmptyString) :: chars r
  end.

(** What a [for] loop over [x] visits: the elements of a list, the keys of a
    dict, the characters of a string. *)
Definition py_iter (x : json) : result (list json) :=
  match x with
  | JArr l => OK l
  | JObj kv => OK (map (fun p => JStr (fst p)) kv)
  | JStr s => OK (chars s)
  | _ => Raise TypeError
  end.

(** [d.values()] *)
Definition py_values (d : json) : result (list json) :=
  match d with
  | JObj kv => OK (map snd kv)
  | _ => Raise AttributeError
  end.

(** [k in d] and [d.setdefault(k, ...)] hash [k]; lists and dicts are
    unhashable. *)
Definition hashable (k : json) : bool :=
  match k with
  | JArr _ | JObj _ => false
  | _ => true
  end.

(** [str.lower] and [str.strip] on ASCII strings: the letters A-Z are
    mapped and the ASCII white space is stripped; the other bytes are
    kept, so on other strings these are not the methods of Python. *)
Definition lower_ascii (c : ascii) : ascii :=
  let n := nat_of_ascii c in
  if ((65 <=? n) && (n <=? 90))%nat then ascii_of_nat (n + 32) else c.

Fixpoint lower (s : string) : string :=
  match s with
  | EmptyString => EmptyString
  | String c r => String (lower_ascii c) (lower r)
  end.

Definition is_space (c : ascii) : bool :=
  let n := nat_of_ascii c in
  ((n =? 32) || ((9 <=? n) && (n <=? 13)) || ((28 <=? n) && (n <=? 31)))%nat.

Fixpoint lstrip (s : string) : string :=
  match s with
  | EmptyString => EmptyString
  | String c r => if is_space c then lstrip r else s
  end.

Fixpoint rstrip (s : string) : string :=
  match s with
  | EmptyString => EmptyString
  | String c r =>
      let r' := rstrip r in
      if is_space c && (r' =? "")%string then EmptyString else String c r'
  end.

Definition strip (s : string) : string := rstrip (lstrip s).

(** [x.lower()] *)
Definition py_lower (x : json) : result string :=
  match x with
  | JStr s => OK (lower s)
  | _ => Raise AttributeError
  end.

(** [round(x, 1)]: the nearest multiple of one tenth, ties to the even one. *)
Definition round_half_even (n : Q) : Z :=
  let f := Qfloor n in
  match Qcompare (n - inject_Z f) (1 # 2) with
  | Lt => f
  | Gt => (f + 1)%Z
  | Eq => if Z.even f then f else (f + 1)%Z
  end.

Definition round1 (x : Q) : Q := inject_Z (round_half_even (x * 10)) / 10.

(** Two-argument [min] and [max]: the first argument unless the second is
    strictly smaller (greater). *)
Definition py_min (a b : Q) : Q := if Qltb b a then b else a.
Definition py_max (a b : Q) : Q := if Qltb a b then b else a.

(** ** The persisted stores *)

(** A file is missing, holds something [json.load] rejects, or holds JSON. *)
Inductive file : Type :=
| Missing
| Malformed
| Parsed (j : json).

Record stores : Type := {
  users_file : file;
  emissions_file : file;
  data_file : file
}.

Fixpoint is_prefix (p s : string) : bool :=
  match p, s with
  | EmptyString, _ => true
  | String a p', String b s' => Ascii.eqb a b && is_prefix p' s'
  | String _ _, EmptyString => false
  end.

Fixpoint is_substring (p s : string) : bool :=
  is_prefix p s ||
  match s with
  | EmptyString => false
  | String _ s' => is_substring p s'
  end.

(** [k in x] for a string [k] *)
Definition py_contains (k : string) (x : json) : result bool :=
  match x with
  | JObj kv => OK (match lookup k kv with Some _ => true | None => false end)
  | JArr l => OK (existsb (py_eq (JStr k)) l)
  | JStr s => OK (is_substring k s)
  | _ => Raise TypeError
  end.

Definition empty_users : json := JObj [("users", JArr [])].
Definition empty_emissions : json := JObj [("emissions", JArr [])].

Definition load_users (fs : stores) : json :=
  match users_file fs with
  | Missing => empty_users
  | Malformed => empty_users
  | Parsed data =>
      match py_contains "users" data with
      | OK true => data
      | OK false => empty_users
      | Raise _ => empty_users
      end
  end.

Definition load_emissions (fs : stores) : json :=
  match emissions_file fs with
  | Missing => empty_emissions
  | Malformed => empty_emissions
  | Parsed data => data
  end.

Definition load_market_data (fs : stores) : result json :=
  match data_file fs with
  | Missing => OK JNull
  | Malformed => Raise JSONDecodeError
  | Parsed data => OK data
  end.

(** ** Entries of a leaderboard *)

Record entry : Type := {
  name : json;
  emissions_kg : Q;
  reduction_pct : Q;
  subsidy_pct : Q;
  icon : string
}.

Definition medal : string := "üèÖ".

(** [entries.sort(key=lambda x: x["emissions_kg"])]: a stable sort. *)
Fixpoint insert_by_kg (x : entry) (l : list entry) : list entry :=
  match l with
  | [] => [x]
  | y :: r =>
      if Qltb (emissions_kg y) (emissions_kg x)
      then y :: insert_by_kg x r
      else x :: l
  end.

Definition sort_by_kg (l : list entry) : list entry :=
  fold_right insert_by_kg [] l.

(** A parser for [float(s)] that rejects every string; in the examples no
    amount is a string. *)
Definition no_float : string -> option Q := fun _ => None.

(** A parser for the examples that reads the string "5" and nothing else. *)
Definition five_float : string -> option Q :=
  fun s => if (s =? "5")%string then Some 5 else None.

(** ** The aggregation engine on binary64 floats *)

(** The same functions once more, on the values [json.load] returns with
    their numbers as Python has them: an integer literal is an [int] of any
    size, every other number is a binary64 [float], [NaN] and the infinities
    included.  The arithmetic is IEEE 754 with rounding to nearest, overflow
    to an infinity and NaN; the comparisons are false on NaN. *)
Module B64.

Inductive value : Type :=
| VNull
| VBool (b : bool)
| VInt (z : Z)
| VFloat (x : float)
| VStr (s : string)
| VArr (l : list value)
| VObj (kv : list (string * value)).

(** What the model takes from the interpreter as it is: the parser of
    [float(s)] on a string ([None] stands for [ValueError]) and the two
    methods [str.lower] and [str.strip], which act on Unicode strings. *)
Record builtins : Type := {
  float_of_str : string -> option float;
  str_lower : string -> string;
  str_strip : string -> string
}.

Definition Z_of_bool (b : bool) : Z := if b then 1%Z else 0%Z.

(** [z == x] for an [int] and a [float]: the exact values are compared. *)
Definition int_eq_float (z : Z) (x : float) : bool :=
  match Prim2SF x with
  | S754_zero _ => (z =? 0)%Z
  | S754_finite s m e =>
      let v := if s then Zneg m else Zpos m in
      if (0 <=? e)%Z then (z =? v * 2 ^ e)%Z else (z * 2 ^ (- e) =? v)%Z
  | _ => false
  end.

(** [bool(x)] *)
Definition truthy (x : value) : bool :=
  match x with
  | VNull => false
  | VBool b => b
  | VInt z => negb (z =? 0)%Z
  | VFloat f => negb (f =? 0)%float
  | VStr s => negb (s =? "")%string
  | VArr l => match l with [] => false | _ => true end
  | VObj kv => match kv with [] => false | _ => true end
  end.

(** [x or y] *)
Definition py_or (x y : value) : value := if truthy x then x else y.

(** [a is b or a == b], the test of dict keys and of the elements of two
    lists or dicts that are compared.  Every NaN of a loaded document is the
    one object the decoder keeps for the literal [NaN], so NaN is the same
    as NaN here although it is not equal to it. *)
Fixpoint same (a b : value) : bool :=
  match a, b with
  | VNull, VNull => true
  | VBool x, VBool y => Bool.eqb x y
  | VBool x, VInt z => (Z_of_bool x =? z)%Z
  | VInt z, VBool y => (z =? Z_of_bool y)%Z
  | VBool x, VFloat f => int_eq_float (Z_of_bool x) f
  | VFloat f, VBool y => int_eq_float (Z_of_bool y) f
  | VInt x, VInt y => (x =? y)%Z
  | VInt z, VFloat f => int_eq_float z f
  | VFloat f, VInt z => int_eq_float z f
  | VFloat f, VFloat g => (f =? g)%float || (is_nan f && is_nan g)
  | VStr s, VStr t => (s =? t)%string
  | VArr l1, VArr l2 =>
      (fix go (xs ys : list value) : bool :=
         match xs, ys with
         | [], [] => true
         | x :: xs', y :: ys' => same x y && go xs' ys'
         | _, _ => false
         end) l1 l2
  | VObj d1, VObj d2 =>
      (List.length d1 =? List.length d2)%nat &&
      (fix go (xs : list (string * value)) : bool :=
         match xs with
         | [] => true
         | (k, v) :: xs' =>
             match lookup k d2 with
             | Some w => same v w
             | None => false
             end && go xs'
         end) d1
  | _, _ => false
  end.

(** [a == b] *)
Definition py_eq (a b : value) : bool :=
  match a, b with
  | VFloat f, VFloat g => (f =? g)%float
  | _, _ => same a b
  end.

(** [d.get(k, default)]; only dicts have [get]. *)
Definition py_get (d : value) (k : string) (default : value) : result value :=
  match d with
  | VObj kv => OK (match lookup k kv with Some v => v | None => default end)
  | _ => Raise AttributeError
  end.

(** [d[k]] for a string key [k]. *)
Definition py_subscript (d : value) (k : string) : result value :=
  match d with
  | VObj kv => match lookup k kv with Some v => OK v | None => Raise KeyError end
  | _ => Raise TypeError
  end.

(** The characters of a string, which holds the UTF-8 bytes of a Python
    [str]: a character is a byte that is no continuation byte, with the
    continuation bytes that follow it. *)
Definition is_continuation (c : ascii) : bool :=
  let n := nat_of_ascii c in ((128 <=? n) && (n <? 192))%nat.

Definition continues (s : string) : bool :=
  match s with
  | String d _ => is_continuation d
  | EmptyString => false
  end.

Fixpoint code_points (s : string) : list string :=
  match s with
  | EmptyString => []
  | String c r =>
      match code_points r with
      | p :: ps =>
          if continues r then String c p :: ps
          else String c EmptyString :: p :: ps
      | [] => [String c EmptyString]
      end
  end.

(** What a [for] loop over [x] visits: the elements of a list, the keys of a
    dict, the characters of a string. *)
Definition py_iter (x : value) : result (list value) :=
  match x with
  | VArr l => OK l
  | VObj kv => OK (map (fun p => VStr (fst p)) kv)
  | VStr s => OK (map VStr (code_points s))
  | _ => Raise TypeError
  end.

(** [d.values()] *)
Definition py_values (d : value) : result (list value) :=
  match d with
  | VObj kv => OK (map snd kv)
  | _ => Raise AttributeError
  end.

(** Lists and dicts are unhashable. *)
Definition hashable (k : value) : bool :=
  match k with
  | VArr _ | VObj _ => false
  | _ => true
  end.

(** [k in x] for a string [k] *)
Definition py_contains (k : string) (x : value) : result bool :=
  match x with
  | VObj kv => OK (match lookup k kv with Some _ => true | None => false end)
  | VArr l => OK (existsb (same (VStr k)) l)
  | VStr s => OK (is_substring k s)
  | _ => Raise TypeError
  end.

(** [float(z)] for an [int]: the nearest float, ties to even, and
    [OverflowError] when that is beyond the greatest float. *)
Definition float_of_int (z : Z) : result float :=
  let x := SF2Prim (binary_normalize prec emax z 0 false) in
  if is_infinity x then Raise OverflowError else OK x.

(** [round_half_even_div n d] is the integer nearest to [n / d], ties to
    even, for [0 <= n] and [0 < d]. *)
Definition round_half_even_div (n d : Z) : Z :=
  let q := (n / d)%Z in
  match (2 * (n mod d) ?= d)%Z with
  | Lt => q
  | Gt => (q + 1)%Z
  | Eq => if Z.even q then q else (q + 1)%Z
  end.

(** [round(x, 1)]: the float nearest to the decimal with one digit that is
    nearest to the exact value of [x], ties to the even digit; NaN, the
    infinities and the integers are their own rounding. *)
Definition round1 (x : float) : float :=
  match Prim2SF x with
  | S754_finite s m e =>
      if (0 <=? e)%Z then x
      else
        match round_half_even_div (Zpos m * 10) (2 ^ (- e)) with
        | Zpos n =>
            SF2Prim (SFdiv prec emax (S754_finite s n 0) (S754_finite false 10 0))
        | _ => SF2Prim (S754_zero s)
        end
  | _ => x
  end.

(** Two-argument [min] and [max]: the first argument unless the second is
    strictly smaller (greater); a comparison with NaN is false. *)
Definition py_min (a b : float) : float := if (b <? a)%float then b else a.
Definition py_max (a b : float) : float := if (a <? b)%float then b else a.

(** ** The persisted stores *)

Inductive file : Type :=
| Missing
| Malformed
| Parsed (j : value).

Record stores : Type := {
  users_file : file;
  emissions_file : file
}.

Definition empty_users : value := VObj [("users", VArr [])].
Definition empty_emissions : value := VObj [("emissions", VArr [])].

Definition load_users (fs : stores) : value :=
  match users_file fs with
  | Missing => empty_users
  | Malformed => empty_users
  | Parsed data =>
      match py_contains "users" data with
      | OK true => data
      | OK false => empty_users
      | Raise _ => empty_users
      end
  end.

Definition load_emissions (fs : stores) : value :=
  match emissions_file fs with
  | Missing => empty_emissions
  | Malformed => empty_emissions
  | Parsed data => data
  end.

(** ** Entries of a leaderboard *)

Record entry : Type := {
  name : value;
  emissions_kg : float;
  reduction_pct : float;
  subsidy_pct : float;
  icon : string
}.

(** [entries.sort(key=lambda x: x["emissions_kg"])].  The sort is stable and
    compares the keys with [<]: when no key is NaN this insertion sort
    returns what [list.sort] returns, the one stable ascending arrangement.
    When a key is NaN no arrangement is ascending, and which permutation
    [list.sort] returns depends on its merge strategy; nothing below rests
    on the order of such a list. *)
Fixpoint insert_by_kg (x : entry) (l : list entry) : list entry :=
  match l with
  | [] => [x]
  | y :: r =>
      if (emissions_kg y <? emissions_kg x)%float
      then y :: insert_by_kg x r
      else x :: l
  end.

Definition sort_by_kg (l : list entry) : list entry :=
  fold_right insert_by_kg [] l.

Section Engine.

Variable py : builtins.

(** [x.lower()] *)
Definition py_lower (x : value) : result string :=
  match x with
  | VStr s => OK (str_lower py s)
  | _ => Raise AttributeError
  end.

(** [float(x)] *)
Definition py_float (x : value) : result float :=
  match x with
  | VFloat f => OK f
  | VInt z => float_of_int z
  | VBool b => OK (if b then 1 else 0)%float
  | VStr s =>
      match float_of_str py s with
      | Some f => OK f
      | None => Raise ValueError
      end
  | _ => Raise TypeError
  end.

(** ** User Emission Aggregator *)

Definition totals : Type := list (string * float).

Definition in_str_tuple (s : string) (t : list string) : bool :=
  existsb (String.eqb s) t.

(** [etype in totals] *)
Definition in_totals (etype : value) (t : totals) : result (option string) :=
  match etype with
  | VStr s => OK (if in_str_tuple s (map fst t) then Some s else None)
  | VArr _ | VObj _ => Raise TypeError
  | _ => OK None
  end.

(** [totals[k] += x] for a key [k] of [t] *)
Fixpoint add_to (k : string) (x : float) (t : totals) : totals :=
  match t with
  | [] => []
  | (k', v) :: r =>
      if (k =? k')%string then (k', (v + x)%float) :: r
      else (k', v) :: add_to k x r
  end.

(** Lines 125-134: the amount of a record in kilograms. *)
Definition normalize (amount_field unit_field : value) : result float :=
  amount <- py_float amount_field ;;
  unit <- py_lower (py_or unit_field (VStr "")) ;;
  if in_str_tuple unit ["tonne"; "tonnes"; "t"] then OK (amount * 1000)%float
  else if in_str_tuple unit ["g"; "gram"; "grams"] then OK (amount / 1000)%float
  else OK amount.

(** The body of the loop of [compute_totals_for_user]. *)
Definition accumulate (user_id : value) (t : totals) (e : value)
  : result totals :=
  uid <- py_subscript e "user_id" ;;
  if negb (py_eq uid user_id) then OK t
  else
    etype <- py_get e "type" VNull ;;
    tracked <- in_totals etype t ;;
    match tracked with
    | None => OK t
    | Some k =>
        a <- py_get e "amount" (VFloat 0) ;;
        u <- py_get e "unit" VNull ;;
        amount_kg <- normalize a u ;;
        OK (add_to k amount_kg t)
    end.

Definition compute_totals_for_user (fs : stores) (user_id : value)
  : result totals :=
  let data := load_emissions fs in
  let t0 : totals := [("co2", 0%float); ("no2", 0%float); ("ch4", 0%float)] in
  es <- py_subscript data "emissions" ;;
  es <- py_iter es ;;
  foldM (accumulate user_id) es t0.

(** ** Dataset Leaderboard Builder *)

(** [for item in _iter_items(data): acc = body(acc, item)]; the generator
    is consumed lazily. *)
Definition for_iter_items {A : Type} (body : A -> value -> result A)
  (data : value) (acc : A) : result A :=
  levers <- py_get data "levers" (VObj []) ;;
  ls <- py_values levers ;;
  foldM (fun acc lever =>
    subs <- py_get lever "sub_levers" (VObj []) ;;
    ss <- py_values subs ;;
    foldM (fun acc sub =>
      items <- py_get sub "items" (VObj []) ;;
      its <- py_values items ;;
      foldM body its acc) ss acc) ls acc.

(** Everything [_iter_items(data)] yields when it is run to its end. *)
Definition _iter_items (data : value) : result (list value) :=
  for_iter_items (fun acc item => OK (acc ++ [item])) data [].

(** The three numbers both loops read off an item. *)
Definition item_amounts (item : value) : result (float * float * float) :=
  carbon <- py_get item "carbon" (VObj []) ;;
  costing <- py_get item "costing" (VObj []) ;;
  t <- py_get carbon "annual_co2e_tonnes" (VFloat 0) ;;
  tonnes <- py_float t ;;
  c <- py_get costing "annual_cost_rupees" (VFloat 0) ;;
  cost_cur <- py_float c ;;
  a <- py_get costing "annual_alternative_cost_rupees" (VFloat 0) ;;
  cost_alt <- py_float a ;;
  OK (tonnes, cost_cur, cost_alt).

(** Lines 193-196 and 230-233: the cost-based reduction. *)
Definition cost_reduction_pct (cost_cur cost_alt : float) : float :=
  if (0 <? cost_cur)%float then ((cost_cur - cost_alt) / cost_cur * 100)%float
  else 0%float.

(** The accumulator of a manufacturer. *)
Record agg : Type := {
  tonnes : float;
  cost_cur : float;
  cost_alt : float
}.

(** [m = manufacturers.setdefault(supplier, zeros)] followed by the three
    [+=]; a new supplier goes to the end of the dict. *)
Fixpoint add_supplier (supplier : value) (t c a : float)
  (ms : list (value * agg)) : list (value * agg) :=
  match ms with
  | [] => [(supplier, {| tonnes := 0 + t; cost_cur := 0 + c;
                         cost_alt := 0 + a |}%float)]
  | (k, g) :: r =>
      if same k supplier
      then (k, {| tonnes := tonnes g + t;
                  cost_cur := cost_cur g + c;
                  cost_alt := cost_alt g + a |}%float) :: r
      else (k, g) :: add_supplier supplier t c a r
  end.

Definition hospital_body (acc : float * float * float) (item : value)
  : result (float * float * float) :=
  let '(total_tonnes, total_cost_current, total_cost_alt) := acc in
  x <- item_amounts item ;;
  let '(t, c, a) := x in
  OK (total_tonnes + t, total_cost_current + c, total_cost_alt + a)%float.

Definition manufacturer_body (manufacturers : list (value * agg)) (item : value)
  : result (list (value * agg)) :=
  x <- item_amounts item ;;
  let '(t, c, a) := x in
  sourcing <- py_get item "sourcing" (VObj []) ;;
  sup <- py_get sourcing "suppliers" (VArr []) ;;
  suppliers <- py_iter sup ;;
  foldM (fun ms supplier =>
    if hashable supplier then OK (add_supplier supplier t c a ms)
    else Raise TypeError) suppliers manufacturers.

Definition subsidy_of (reduction : float) : float :=
  py_max 0 (py_min 40 (round1 reduction)).

Definition manufacturer_entry (p : value * agg) : entry :=
  let red_pct := cost_reduction_pct (cost_cur (snd p)) (cost_alt (snd p)) in
  {| name := fst p;
     emissions_kg := (tonnes (snd p) * 1000)%float;
     reduction_pct := red_pct;
     subsidy_pct := subsidy_of red_pct;
     icon := medal |}.

Definition build_leaderboards_from_data (data : value)
  : result (list entry * list entry) :=
  if negb (truthy data) then OK ([], [])
  else
    profile <- py_get data "hospital_profile" (VObj []) ;;
    hospital_name <- py_get profile "name" (VStr "Unknown Hospital") ;;
    sums <- for_iter_items hospital_body data (0, 0, 0)%float ;;
    let '(total_tonnes, total_cost_current, total_cost_alt) := sums in
    let reduction := cost_reduction_pct total_cost_current total_cost_alt in
    let leaders_hospitals :=
      [ {| name := hospital_name;
           emissions_kg := (total_tonnes * 1000)%float;
           reduction_pct := reduction;
           subsidy_pct := subsidy_of reduction;
           icon := medal |} ] in
    manufacturers <- for_iter_items manufacturer_body data [] ;;
    let leaders_manufacturers := map manufacturer_entry manufacturers in
    OK (sort_by_kg leaders_hospitals, sort_by_kg leaders_manufacturers).

(** ** Logged-Emissions Leaderboard Builder *)

(** [float(totals.get(k, 0.0))] *)
Definition totals_get (k : string) (t : totals) : float :=
  match lookup k t with
  | Some v => v
  | None => 0%float
  end.

Definition total_kg_of (t : totals) : float :=
  (totals_get "co2" t + totals_get "no2" t + totals_get "ch4" t)%float.

(** The body of the loop over the users (lines 270-294). *)
Definition user_body (fs : stores) (groups : list entry * list entry)
  (u : value) : result (list entry * list entry) :=
  let '(hospital_entries, manufacturer_entries) := groups in
  ut <- py_get u "user_type" VNull ;;
  low <- py_lower (py_or ut (VStr "")) ;;
  let raw_type := str_strip py low in
  uid <- py_subscript u "id" ;;
  t <- compute_totals_for_user fs uid ;;
  let total_kg := total_kg_of t in
  if (total_kg <=? 0)%float then OK groups
  else
    let raw_type :=
      if negb (in_str_tuple raw_type ["hospital"; "manufacturer"])
      then "hospital" else raw_type in
    n <- py_get u "name" VNull ;;
    e <- py_get u "email" VNull ;;
    let en :=
      {| name := py_or n e;
         emissions_kg := total_kg;
         reduction_pct := 0%float;
         subsidy_pct := 0%float;
         icon := medal |} in
    if (raw_type =? "hospital")%string
    then OK (hospital_entries ++ [en], manufacturer_entries)
    else if (raw_type =? "manufacturer")%string
    then OK (hospital_entries, manufacturer_entries ++ [en])
    else OK groups.

(** [max(e["emissions_kg"] for e in entries)] on a non-empty list: the
    first element, replaced by each later one that is greater. *)
Definition max_kg_of (e0 : entry) (rest : list entry) : float :=
  fold_left (fun m e => py_max m (emissions_kg e)) rest (emissions_kg e0).

Definition relative (max_kg : float) (e : entry) : entry :=
  let rel := ((max_kg - emissions_kg e) / max_kg * 100)%float in
  {| name := name e;
     emissions_kg := emissions_kg e;
     reduction_pct := rel;
     subsidy_pct := round1 (py_max 0 (py_min 40 rel));
     icon := icon e |}.

Definition finalize_group (entries : list entry) : list entry :=
  match entries with
  | [] => entries
  | e0 :: rest =>
      let max_kg := max_kg_of e0 rest in
      if (max_kg <=? 0)%float then entries
      else sort_by_kg (map (relative max_kg) entries)
  end.

Definition build_leaderboards_from_emissions (fs : stores)
  : result (list entry * list entry) :=
  let users_data := load_users fs in
  all_users <- py_get users_data "users" (VArr []) ;;
  us <- py_iter all_users ;;
  groups <- foldM (user_body fs) us ([], []) ;;
  OK (finalize_group (fst groups), finalize_group (snd groups)).

End Engine.

(** ** The statements about the leaderboards *)

(** [l] is in ascending order of [emissions_kg]. *)
Definition ascending (l : list entry) : Prop :=
  StronglySorted
    (fun a b => (emissions_kg a <=? emissions_kg b)%float = true) l.

(** [l] is one of the lists a builder returns. *)
Inductive returned (py : builtins) (l : list entry) : Prop :=
| returned_from_data data h m :
    build_leaderboards_from_data py data = OK (h, m) ->
    l = h \/ l = m -> returned py l
| returned_from_emissions fs h m :
    build_leaderboards_from_emissions py fs = OK (h, m) ->
    l = h \/ l = m -> returned py l.

(** [M] is the greatest [emissions_kg] of the group [g]: some entry has it
    and every entry is at most [M], so no [emissions_kg] of [g] is NaN. *)
Definition is_max_kg (M : float) (g : list entry) : Prop :=
  (exists e, In e g /\ emissions_kg e = M) /\
  (forall e, In e g -> (emissions_kg e <=? M)%float = true).

(** The users the loop of the logged-emissions builder visits. *)
Definition all_users (fs : stores) : result (list value) :=
  us <- py_get (load_users fs) "users" (VArr []) ;;
  py_iter us.

(** The entry the loop builds for the user [u]. *)
Definition entry_of_user (py : builtins) (fs : stores) (u : value) (en : entry)
  : Prop :=
  exists uid t n em,
    py_subscript u "id" = OK uid /\
    compute_totals_for_user py fs uid = OK t /\
    (total_kg_of t <=? 0)%float = false /\
    py_get u "name" VNull = OK n /\
    py_get u "email" VNull = OK em /\
    en = {| name := py_or n em;
            emissions_kg := total_kg_of t;
            reduction_pct := 0%float;
            subsidy_pct := 0%float;
            icon := medal |}.

(** The float is 0, a finite float above 0 or the positive infinity. *)
Definition nonnegative (x : float) : Prop := (0 <=? x)%float = true.

(** The spec float is a zero, an infinity or a finite float of the sign
    [s]. *)
Definition signed (s : bool) (x : spec_float) : Prop :=
  match x with
  | S754_zero s' | S754_infinity s' | S754_finite s' _ _ => s' = s
  | S754_nan => False
  end.

(** ** Examples *)

(** The builtins on the examples: their strings are ASCII, where [lower]
    and [strip] are [str.lower] and [str.strip], and none of their amounts
    is a string. *)
Definition ascii_builtins : builtins :=
  {| float_of_str := fun _ => None;
     str_lower := lower;
     str_strip := strip |}.

(** A user as [add_user] persists it and a record as [add_emission]
    persists it. *)
Definition user_value (id : Z) (name email user_type : string) : value :=
  VObj [("id", VInt id);
        ("email", VStr email);
        ("password_hash", VStr "");
        ("name", VStr name);
        ("user_type", VStr user_type);
        ("created_at", VStr "")].

Definition emission_value (id user_id : Z) (gas : string) (amount : float)
  (unit : string) : value :=
  VObj [("id", VInt id);
        ("user_id", VInt user_id);
        ("type", VStr gas);
        ("amount", VFloat amount);
        ("unit", VStr unit);
        ("created_at", VStr "")].

Definition logged (us es : list value) : stores :=
  {| users_file := Parsed (VObj [("users", VArr us)]);
     emissions_file := Parsed (VObj [("emissions", VArr es)]) |}.

(** A hospital with 200 kg and a user without a name with 100 kg. *)
Definition example_stores : stores :=
  logged [user_value 1 "Big" "big@example.org" "hospital";
          user_value 2 "" "small@example.org" "pending"]
         [emission_value 1 1 "co2" 200 "kg";
          emission_value 2 2 "co2" 100 "kg"].

Definition small_entry : entry :=
  {| name := VStr "small@example.org"; emissions_kg := 100;
     reduction_pct := 50; subsidy_pct := 40; icon := medal |}.

Definition big_entry : entry :=
  {| name := VStr "Big"; emissions_kg := 200;
     reduction_pct := 0; subsidy_pct := 0; icon := medal |}.




(** Three hospitals with 3 kg, an amount that is NaN and 1 kg: the form of
    [add_emission_route] accepts the amount "nan", [float] reads it and
    [json.dump] writes it as [NaN]. *)
Definition nan_stores : stores :=
  logged [user_value 1 "Three" "three@example.org" "hospital";
          user_value 2 "Nan" "nan@example.org" "hospital";
          user_value 3 "One" "one@example.org" "hospital"]
         [emission_value 1 1 "co2" 3 "kg";
          emission_value 2 2 "co2" nan "kg";
          emission_value 3 3 "co2" 1 "kg"].

Definition nan_three : entry :=
  {| name := VStr "Three"; emissions_kg := 3;
     reduction_pct := 0; subsidy_pct := 0; icon := medal |}.

Definition nan_nan : entry :=
  {| name := VStr "Nan"; emissions_kg := nan;
     reduction_pct := nan; subsidy_pct := 40; icon := medal |}.

Definition nan_one : entry :=
  {| name := VStr "One"; emissions_kg := 1;
     reduction_pct := 66.66666666666666; subsidy_pct := 40; icon := medal |}.

(** A dataset whose only item has -1 tonnes, and its hospital entry. *)
Definition negative_dataset : value :=
  VObj [("levers",
    VObj [("energy",
      VObj [("sub_levers",
        VObj [("offsets",
          VObj [("items",
            VObj [("credit",
              VObj [("carbon",
                VObj [("annual_co2e_tonnes", VInt (-1))])])])])])])])].

Definition negative_entry : entry :=
  {| name := VStr "Unknown Hospital"; emissions_kg := -1000;
     reduction_pct := 0; subsidy_pct := 0; icon := medal |}.

(** A dataset with two items of 3 and 1 tonnes, the first from the
    suppliers Acme and Bolt, the second from Bolt. *)
Definition example_dataset : value :=
  VObj [("hospital_profile", VObj [("name", VStr "General")]);
        ("levers",
    VObj [("energy",
      VObj [("sub_levers",
        VObj [("lighting",
          VObj [("items",
            VObj [("led",
              VObj [("carbon", VObj [("annual_co2e_tonnes", VInt 3)]);
                    ("costing",
                     VObj [("annual_cost_rupees", VInt 1000);
                           ("annual_alternative_cost_rupees", VInt 800)]);
                    ("sourcing",
                     VObj [("suppliers", VArr [VStr "Acme"; VStr "Bolt"])])]);
                  ("sensors",
              VObj [("carbon", VObj [("annual_co2e_tonnes", VFloat 1)]);
                    ("costing",
                     VObj [("annual_cost_rupees", VInt 1000);
                           ("annual_alternative_cost_rupees", VInt 800)]);
                    ("sourcing",
                     VObj [("suppliers", VArr [VStr "Bolt"])])])])])])])])].

Definition general_entry : entry :=
  {| name := VStr "General"; emissions_kg := 4000;
     reduction_pct := 20; subsidy_pct := 20; icon := medal |}.

Definition acme_entry : entry :=
  {| name := VStr "Acme"; emissions_kg := 3000;
     reduction_pct := 20; subsidy_pct := 20; icon := medal |}.

Definition bolt_entry : entry :=
  {| name := VStr "Bolt"; emissions_kg := 4000;
     reduction_pct := 20; subsidy_pct := 20; icon := medal |}.

End B64.

Section Aggregation.

(** [float(s)] on a string [s] is Python's own parser: [None] stands for
    [ValueError]. *)
Variable float_of_str : string -> option Q.

(** [float(x)] *)
Definition py_float (x : json) : result Q :=
  match x with
  | JNum q => OK q
  | JBool b => OK (if b then 1 else 0)
  | JStr s => match float_of_str s with Some q => OK q | None => Raise ValueError end
  | _ => Raise TypeError
  end.

(** ** User Emission Aggregator *)

(** The totals dict, keys in insertion order. *)
Definition totals : Type := list (string * Q).

Definition in_str_tuple (s : string) (t : list string) : bool :=
  existsb (String.eqb s) t.

(** [etype in totals] *)
Definition in_totals (etype : json) (t : totals) : result (option string) :=
  match etype with
  | JStr s => OK (if in_str_tuple s (map fst t) then Some s else None)
  | JArr _ | JObj _ => Raise TypeError
  | _ => OK None
  end.

(** [totals[k] += x] for a key [k] of [t] *)
Fixpoint add_to (k : string) (x : Q) (t : totals) : totals :=
  match t with
  | [] => []
  | (k', v) :: r =>
      if (k =? k')%string then (k', v + x) :: r else (k', v) :: add_to k x r
  end.

(** Lines 125-134: the amount of a record in kilograms. *)
Definition normalize (amount_field unit_field : json) : result Q :=
  amount <- py_float amount_field ;;
  unit <- py_lower (py_or unit_field (JStr "")) ;;
  if in_str_tuple unit ["tonne"; "tonnes"; "t"] then OK (amount * 1000)
  else if in_str_tuple unit ["g"; "gram"; "grams"] then OK (amount / 1000)
  else OK amount.

(** The body of the loop of [compute_totals_for_user]. *)
Definition accumulate (user_id : json) (t : totals) (e : json) : result totals :=
  uid <- py_subscript e "user_id" ;;
  if negb (py_eq uid user_id) then OK t
  else
    etype <- py_get e "type" JNull ;;
    tracked <- in_totals etype t ;;
    match tracked with
    | None => OK t
    | Some k =>
        a <- py_get e "amount" (JNum 0) ;;
        u <- py_get e "unit" JNull ;;
        amount_kg <- normalize a u ;;
        OK (add_to k amount_kg t)
    end.

Definition compute_totals_for_user (fs : stores) (user_id : json)
  : result totals :=
  let data := load_emissions fs in
  let t0 : totals := [("co2", 0); ("no2", 0); ("ch4", 0)] in
  es <- py_subscript data "emissions" ;;
  es <- py_iter es ;;
  foldM (accumulate user_id) es t0.

(** ** Dataset Leaderboard Builder *)

(** [for item in _iter_items(data): acc = body(acc, item)].  The generator
    is consumed lazily, so what it raises is interleaved with what the body
    raises. *)
Definition for_iter_items {A : Type} (body : A -> json -> result A)
  (data : json) (acc : A) : result A :=
  levers <- py_get data "levers" (JObj []) ;;
  ls <- py_values levers ;;
  foldM (fun acc lever =>
    subs <- py_get lever "sub_levers" (JObj []) ;;
    ss <- py_values subs ;;
    foldM (fun acc sub =>
      items <- py_get sub "items" (JObj []) ;;
      its <- py_values items ;;
      foldM body its acc) ss acc) ls acc.

(** Everything [_iter_items(data)] yields when it is run to its end. *)
Definition _iter_items (data : json) : result (list json) :=
  for_iter_items (fun acc item => OK (acc ++ [item])) data [].

(** The three numbers both loops read off an item:
    [annual_co2e_tonnes], [annual_cost_rupees],
    [annual_alternative_cost_rupees]. *)
Definition item_amounts (item : json) : result (Q * Q * Q) :=
  carbon <- py_get item "carbon" (JObj []) ;;
  costing <- py_get item "costing" (JObj []) ;;
  t <- py_get carbon "annual_co2e_tonnes" (JNum 0) ;;
  tonnes <- py_float t ;;
  c <- py_get costing "annual_cost_rupees" (JNum 0) ;;
  cost_cur <- py_float c ;;
  a <- py_get costing "annual_alternative_cost_rupees" (JNum 0) ;;
  cost_alt <- py_float a ;;
  OK (tonnes, cost_cur, cost_alt).

(** Lines 193-196 and 230-233: the cost-based reduction. *)
Definition cost_reduction_pct (cost_cur cost_alt : Q) : Q :=
  if Qltb 0 cost_cur then (cost_cur - cost_alt) / cost_cur * 100 else 0.

(** The accumulator of a manufacturer. *)
Record agg : Type := {
  tonnes : Q;
  cost_cur : Q;
  cost_alt : Q
}.

(** [m = manufacturers.setdefault(supplier, zeros)] followed by the three
    [+=]; a new supplier goes to the end of the dict. *)
Fixpoint add_supplier (supplier : json) (t c a : Q) (ms : list (json * agg))
  : list (json * agg) :=
  match ms with
  | [] => [(supplier, {| tonnes := 0 + t; cost_cur := 0 + c; cost_alt := 0 + a |})]
  | (k, g) :: r =>
      if py_eq k supplier
      then (k, {| tonnes := tonnes g + t;
                  cost_cur := cost_cur g + c;
                  cost_alt := cost_alt g + a |}) :: r
      else (k, g) :: add_supplier supplier t c a r
  end.

Definition hospital_body (acc : Q * Q * Q) (item : json) : result (Q * Q * Q) :=
  let '(total_tonnes, total_cost_current, total_cost_alt) := acc in
  x <- item_amounts item ;;
  let '(t, c, a) := x in
  OK (total_tonnes + t, total_cost_current + c, total_cost_alt + a).

Definition manufacturer_body (manufacturers : list (json * agg)) (item : json)
  : result (list (json * agg)) :=
  x <- item_amounts item ;;
  let '(t, c, a) := x in
  sourcing <- py_get item "sourcing" (JObj []) ;;
  sup <- py_get sourcing "suppliers" (JArr []) ;;
  suppliers <- py_iter sup ;;
  foldM (fun ms supplier =>
    if hashable supplier then OK (add_supplier supplier t c a ms)
    else Raise TypeError) suppliers manufacturers.

Definition subsidy_of (reduction : Q) : Q :=
  py_max 0 (py_min 40 (round1 reduction)).

Definition manufacturer_entry (p : json * agg) : entry :=
  let red_pct := cost_reduction_pct (cost_cur (snd p)) (cost_alt (snd p)) in
  {| name := fst p;
     emissions_kg := tonnes (snd p) * 1000;
     reduction_pct := red_pct;
     subsidy_pct := subsidy_of red_pct;
     icon := medal |}.

Definition build_leaderboards_from_data (data : json)
  : result (list entry * list entry) :=
  if negb (truthy data) then OK ([], [])
  else
    profile <- py_get data "hospital_profile" (JObj []) ;;
    hospital_name <- py_get profile "name" (JStr "Unknown Hospital") ;;
    sums <- for_iter_items hospital_body data (0, 0, 0) ;;
    let '(total_tonnes, total_cost_current, total_cost_alt) := sums in
    let reduction := cost_reduction_pct total_cost_current total_cost_alt in
    let leaders_hospitals :=
      [ {| name := hospital_name;
           emissions_kg := total_tonnes * 1000;
           reduction_pct := reduction;
           subsidy_pct := subsidy_of reduction;
           icon := medal |} ] in
    manufacturers <- for_iter_items manufacturer_body data [] ;;
    let leaders_manufacturers := map manufacturer_entry manufacturers in
    OK (sort_by_kg leaders_hospitals, sort_by_kg leaders_manufacturers).

(** ** Logged-Emissions Leaderboard Builder *)

(** [totals.get(k, 0.0)] *)
Definition totals_get (k : string) (t : totals) : Q :=
  match lookup k t with
  | Some v => v
  | None => 0
  end.

Definition total_kg_of (t : totals) : Q :=
  totals_get "co2" t + totals_get "no2" t + totals_get "ch4" t.

(** The body of the loop over the users (lines 270-294). *)
Definition user_body (fs : stores) (groups : list entry * list entry) (u : json)
  : result (list entry * list entry) :=
  let '(hospital_entries, manufacturer_entries) := groups in
  ut <- py_get u "user_type" JNull ;;
  low <- py_lower (py_or ut (JStr "")) ;;
  let raw_type := strip low in
  uid <- py_subscript u "id" ;;
  t <- compute_totals_for_user fs uid ;;
  let total_kg := total_kg_of t in
  if Qle_bool total_kg 0 then OK groups
  else
    let raw_type :=
      if negb (in_str_tuple raw_type ["hospital"; "manufacturer"])
      then "hospital" else raw_type in
    n <- py_get u "name" JNull ;;
    e <- py_get u "email" JNull ;;
    let en :=
      {| name := py_or n e;
         emissions_kg := total_kg;
         reduction_pct := 0;
         subsidy_pct := 0;
         icon := medal |} in
    if (raw_type =? "hospital")%string
    then OK (hospital_entries ++ [en], manufacturer_entries)
    else if (raw_type =? "manufacturer")%string
    then OK (hospital_entries, manufacturer_entries ++ [en])
    else OK groups.

(** [max(e["emissions_kg"] for e in entries)] on a non-empty list *)
Definition max_kg_of (e0 : entry) (rest : list entry) : Q :=
  fold_left (fun m e => py_max m (emissions_kg e)) rest (emissions_kg e0).

Definition relative (max_kg : Q) (e : entry) : entry :=
  let rel := (max_kg - emissions_kg e) / max_kg * 100 in
  {| name := name e;
     emissions_kg := emissions_kg e;
     reduction_pct := rel;
     subsidy_pct := round1 (py_max 0 (py_min 40 rel));
     icon := icon e |}.

Definition finalize_group (entries : list entry) : list entry :=
  match entries with
  | [] => entries
  | e0 :: rest =>
      let max_kg := max_kg_of e0 rest in
      if Qle_bool max_kg 0 then entries
      else sort_by_kg (map (relative max_kg) entries)
  end.

Definition build_leaderboards_from_emissions (fs : stores)
  : result (list entry * list entry) :=
  let users_data := load_users fs in
  all_users <- py_get users_data "users" (JArr []) ;;
  us <- py_iter all_users ;;
  groups <- foldM (user_body fs) us ([], []) ;;
  OK (finalize_group (fst groups), finalize_group (snd groups)).

(** ** The data model and the rules of the specification *)

(** An emission record as [add_emission] persists it. *)
Record EmissionRecord : Type := {
  rec_id : Z;
  rec_user_id : Z;
  rec_type : string;
  rec_amount : Q;
  rec_unit : string;
  rec_created_at : string
}.

Definition record_json (r : EmissionRecord) : json :=
  JObj [("id", JNum (inject_Z (rec_id r)));
        ("user_id", JNum (inject_Z (rec_user_id r)));
        ("type", JStr (rec_type r));
        ("amount", JNum (rec_amount r));
        ("unit", JStr (rec_unit r));
        ("created_at", JStr (rec_created_at r))].

Definition emissions_json (log : list EmissionRecord) : json :=
  JObj [("emissions", JArr (map record_json log))].






(** [clamp(x, lo, hi)] *)
Definition clamp (x lo hi : Q) : Q :=
  if Qltb x lo then lo else if Qltb hi x then hi else x.


(** An item of the reference dataset. *)
Record DatasetItem : Type := {
  annual_co2e_tonnes : Q;
  annual_cost_rupees : Q;
  annual_alternative_cost_rupees : Q;
  suppliers : list string
}.

Definition item_json (it : DatasetItem) : json :=
  JObj [("carbon", JObj [("annual_co2e_tonnes", JNum (annual_co2e_tonnes it))]);
        ("costing",
         JObj [("annual_cost_rupees", JNum (annual_cost_rupees it));
               ("annual_alternative_cost_rupees",
                JNum (annual_alternative_cost_rupees it))]);
        ("sourcing", JObj [("suppliers", JArr (map JStr (suppliers it)))])].

(** levers -> sub_levers -> items, each level keyed by an identifier. *)
Definition SubLever : Type := list (string * DatasetItem).
Definition Lever : Type := list (string * SubLever).
Definition Levers : Type := list (string * Lever).

Definition sub_json (s : SubLever) : json :=
  JObj [("items", JObj (map (fun p => (fst p, item_json (snd p))) s))].

Definition lever_json (l : Lever) : json :=
  JObj [("sub_levers", JObj (map (fun p => (fst p, sub_json (snd p))) l))].

Definition levers_json (ls : Levers) : json :=
  JObj (map (fun p => (fst p, lever_json (snd p))) ls).

(** The reference dataset; either top-level key may be missing. *)
Definition dataset_json (hospital : option string) (ls : option Levers) : json :=
  JObj (match hospital with
        | Some n => [("hospital_profile", JObj [("name", JStr n)])]
        | None => []
        end ++
        match ls with
        | Some l => [("levers", levers_json l)]
        | None => []
        end).

Definition items_of (ls : option Levers) : list DatasetItem :=
  match ls with
  | Some l => flat_map (fun lv => flat_map (fun sb => map snd (snd sb)) (snd lv)) l
  | None => []
  end.


(** The users of the registry, as the loop of
    [build_leaderboards_from_emissions] visits them. *)
Definition all_users (fs : stores) : result (list json) :=
  us <- py_get (load_users fs) "users" (JArr []) ;;
  py_iter us.



(** The records of the example of the specification, for the user 1. *)
Definition example_log : list EmissionRecord :=
  [ {| rec_id := 1; rec_user_id := 1; rec_type := "co2"; rec_amount := 5;
       rec_unit := "kg"; rec_created_at := "" |};
    {| rec_id := 2; rec_user_id := 1; rec_type := "co2"; rec_amount := 1;
       rec_unit := "t"; rec_created_at := "" |};
    {| rec_id := 3; rec_user_id := 1; rec_type := "ch4"; rec_amount := 500;
       rec_unit := "g"; rec_created_at := "" |} ].

Definition example_so2 : EmissionRecord :=
  {| rec_id := 4; rec_user_id := 1; rec_type := "so2"; rec_amount := 10;
     rec_unit := "kg"; rec_created_at := "" |}.

(** A user as [add_user] persists it. *)
Definition user_json (id : Z) (name email user_type : string) : json :=
  JObj [("id", JNum (inject_Z id));
        ("email", JStr email);
        ("password_hash", JStr "");
        ("name", JStr name);
        ("user_type", JStr user_type);
        ("created_at", JStr "")].

Definition emission (id user_id : Z) (gas : string) (amount : Q) (unit : string)
  : EmissionRecord :=
  {| rec_id := id; rec_user_id := user_id; rec_type := gas;
     rec_amount := amount; rec_unit := unit; rec_created_at := "" |}.

(** Example stores: a hospital with 200 kg, a user without a name and with
    the type "pending" with 100 kg, a manufacturer whose only record is
    0 kg. *)
Definition example_registry : list json :=
  [user_json 1 "Big" "big@example.org" "hospital";
   user_json 2 "" "small@example.org" "pending";
   user_json 3 "Idle" "idle@example.org" "manufacturer"].

Definition example_stores : stores :=
  {| users_file := Parsed (JObj [("users", JArr example_registry)]);
     emissions_file :=
       Parsed (emissions_json
                 [emission 1 1 "co2" 200 "kg";
                  emission 2 2 "co2" 100 "kg";
                  emission 3 3 "ch4" 0 "t"]);
     data_file := Missing |}.


(** [e] is an entry of a leaderboard one of the two builders returns. *)
Inductive produced (e : entry) : Prop :=
| produced_from_data data h m :
    build_leaderboards_from_data data = OK (h, m) ->
    In e (h ++ m) -> produced e
| produced_from_emissions fs h m :
    build_leaderboards_from_emissions fs = OK (h, m) ->
    In e (h ++ m) -> produced e.

(** [M] is the greatest [emissions_kg] of the group [g]. *)
Definition is_max_kg (M : Q) (g : list entry) : Prop :=
  (exists e, In e g /\ emissions_kg e == M) /\
  (forall e, In e g -> emissions_kg e <= M).

(** The entry the loop builds for the user [u]. *)
Definition entry_of_user (fs : stores) (u : json) (en : entry) : Prop :=
  exists uid t n em,
    py_subscript u "id" = OK uid /\
    compute_totals_for_user fs uid = OK t /\
    0 < total_kg_of t /\
    py_get u "name" JNull = OK n /\
    py_get u "email" JNull = OK em /\
    en = {| name := py_or n em;
            emissions_kg := total_kg_of t;
            reduction_pct := 0;
            subsidy_pct := 0;
            icon := medal |}.




(** The leaderboards of [example_stores]: the user without a name is listed
    under its email, first; the user without emissions is not listed. *)
Definition small_entry : entry :=
  {| name := JStr "small@example.org"; emissions_kg := 100;
     reduction_pct := 10000 # 200; subsidy_pct := 400 # 10; icon := medal |}.

Definition big_entry : entry :=
  {| name := JStr "Big"; emissions_kg := 200;
     reduction_pct := 0 # 200; subsidy_pct := 0 # 10; icon := medal |}.

(** ** The user and emissions stores *)

Fixpoint mapM {A B : Type} (f : A -> result B) (l : list A) : result (list B) :=
  match l with
  | [] => OK []
  | x :: r => y <- f x ;; ys <- mapM f r ;; OK (y :: ys)
  end.

(** [d[k] = v] on the items of a dict: a key already there keeps its place,
    a new key goes to the end. *)
Fixpoint set_key (k : string) (v : json) (kv : list (string * json))
  : list (string * json) :=
  match kv with
  | [] => [(k, v)]
  | (k', w) :: r =>
      if (k =? k')%string then (k', v) :: r else (k', w) :: set_key k v r
  end.

(** The dict [d] once the object under its key [k] has been mutated into
    [v]. *)
Definition mutated (d : json) (k : string) (v : json) : json :=
  match d with
  | JObj kv => JObj (set_key k v kv)
  | _ => d
  end.

(** [l.append(x)]; only lists have [append]. *)
Definition py_append (l x : json) : result json :=
  match l with
  | JArr xs => OK (JArr (xs ++ [x]))
  | _ => Raise AttributeError
  end.

(** A value [max] can compare with a number and [+ 1] can add to. *)
Definition py_number (x : json) : result Q :=
  match x with
  | JNum q => OK q
  | JBool b => OK (if b then 1 else 0)
  | _ => Raise TypeError
  end.

(** [max([x["id"] for x in items], default=0) + 1].  The ids are collected
    first.  Then either they are all numbers, or [max] raises [TypeError]
    on comparing a number with something else, or it returns something that
    is not a number and [+ 1] raises [TypeError]. *)
Definition next_id (items : list json) : result Q :=
  ids <- mapM (fun x => py_subscript x "id") items ;;
  nums <- mapM py_number ids ;;
  OK (match nums with
      | [] => 0
      | n :: r => fold_left py_max r n
      end + 1).

(** [json.dump(data, f)] into the users file; reading it back gives [data]. *)
Definition save_users (fs : stores) (data : json) : stores :=
  {| users_file := Parsed data;
     emissions_file := emissions_file fs;
     data_file := data_file fs |}.

Definition save_emissions (fs : stores) (data : json) : stores :=
  {| users_file := users_file fs;
     emissions_file := Parsed data;
     data_file := data_file fs |}.

(** [add_user(email, password_hash, name)], at the time [now]; returns the
    user and the stores after [save_users]. *)
Definition add_user (fs : stores) (now email password_hash name : string)
  : result (json * stores) :=
  let data := load_users fs in
  users <- py_subscript data "users" ;;
  us <- py_iter users ;;
  id <- next_id us ;;
  let user :=
    JObj [("id", JNum id);
          ("email", JStr email);
          ("password_hash", JStr password_hash);
          ("name", JStr name);
          ("user_type", JStr "pending");
          ("created_at", JStr now)] in
  users' <- py_append users user ;;
  OK (user, save_users fs (mutated data "users" users')).

(** The loop of [find_user_by_email]: it returns at the first match. *)
Fixpoint first_with_email (email : string) (us : list json) : result json :=
  match us with
  | [] => OK JNull
  | u :: r =>
      e <- py_subscript u "email" ;;
      if py_eq e (JStr email) then OK u else first_with_email email r
  end.

Definition find_user_by_email (fs : stores) (email : string) : result json :=
  let data := load_users fs in
  users <- py_subscript data "users" ;;
  us <- py_iter users ;;
  first_with_email email us.

(** The loop of [update_user_type]: the first user with the id, once its
    type is set, and the list with that user in place; [None] without a
    match. *)
Fixpoint retype_first (user_id user_type : json) (us : list json)
  : result (option (json * list json)) :=
  match us with
  | [] => OK None
  | u :: r =>
      i <- py_subscript u "id" ;;
      if py_eq i user_id then
        let u' := mutated u "user_type" user_type in
        OK (Some (u', u' :: r))
      else
        x <- retype_first user_id user_type r ;;
        OK (match x with
            | Some (u', r') => Some (u', u :: r')
            | None => None
            end)
  end.

(** [update_user_type(user_id, user_type)]: the user, or [None], and the
    stores, saved only on a match. *)
Definition update_user_type (fs : stores) (user_id user_type : json)
  : result (json * stores) :=
  let data := load_users fs in
  users <- py_subscript data "users" ;;
  us <- py_iter users ;;
  x <- retype_first user_id user_type us ;;
  match x with
  | Some (u', us') =>
      let users' := match users with JArr _ => JArr us' | _ => users end in
      OK (u', save_users fs (mutated data "users" users'))
  | None => OK (JNull, fs)
  end.

(** [add_emission(user_id, emission_type, amount, unit)], at the time
    [now]; returns the stores after [save_emissions]. *)
Definition add_emission (fs : stores) (now : string)
  (user_id emission_type amount unit : json) : result stores :=
  let data := load_emissions fs in
  emissions <- py_subscript data "emissions" ;;
  es <- py_iter emissions ;;
  id <- next_id es ;;
  a <- py_float amount ;;
  let record :=
    JObj [("id", JNum id);
          ("user_id", user_id);
          ("type", emission_type);
          ("amount", JNum a);
          ("unit", unit);
          ("created_at", JStr now)] in
  emissions' <- py_append emissions record ;;
  OK (save_emissions fs (mutated data "emissions" emissions')).

(** A user as [add_user] persists it. *)
Record UserRec : Type := {
  usr_id : Z;
  usr_email : string;
  usr_password_hash : string;
  usr_name : string;
  usr_type : string;
  usr_created_at : string
}.

Definition user_rec_json (u : UserRec) : json :=
  JObj [("id", JNum (inject_Z (usr_id u)));
        ("email", JStr (usr_email u));
        ("password_hash", JStr (usr_password_hash u));
        ("name", JStr (usr_name u));
        ("user_type", JStr (usr_type u));
        ("created_at", JStr (usr_created_at u))].

Definition users_json (us : list UserRec) : json :=
  JObj [("users", JArr (map user_rec_json us))].

(** The greatest of the ids, 0 without any. *)
Definition max_id (ids : list Z) : Z :=
  match ids with
  | [] => 0%Z
  | n :: r => fold_left Z.max r n
  end.

(** The stores with the registry [us] and the log [log]. *)
Definition stores_of (us : list UserRec) (log : list EmissionRecord) (d : file)
  : stores :=
  {| users_file := Parsed (users_json us);
     emissions_file := Parsed (emissions_json log);
     data_file := d |}.

(** The user [u] with the type [t]. *)
Definition with_type (t : string) (u : UserRec) : UserRec :=
  {| usr_id := usr_id u;
     usr_email := usr_email u;
     usr_password_hash := usr_password_hash u;
     usr_name := usr_name u;
     usr_type := t;
     usr_created_at := usr_created_at u |}.

(** The record [add_emission] builds. *)
Definition emission_json (id : Q) (user_id emission_type : json) (amount : Q)
  (unit : json) (now : string) : json :=
  JObj [("id", JNum id);
        ("user_id", user_id);
        ("type", emission_type);
        ("amount", JNum amount);
        ("unit", unit);
        ("created_at", JStr now)].






(** ** The routes *)

(** Two functions of the libraries are arguments of the views that call
    them: [check_password_hash(pwhash, password)] of werkzeug, and
    [flash(message, category)] of Flask, by what it does to the session. *)
Definition password_checker : Type := json -> json -> result bool.

(** [str.strip] and [str.lower] are the interpreter's, on Unicode strings:
    the views take the two methods as arguments. *)
Definition str_method : Type := string -> string.
Definition flasher : Type :=
  string -> string -> list (string * json) -> list (string * json).

(** What a view returns: [redirect(url_for(endpoint))] or
    [render_template(template, **context)]. *)
Inductive response : Type :=
| Redirect (endpoint : string)
| Render (template : string) (context : list (string * json)).

(** A request: its method, its form and the session it comes with. *)
Record request : Type := {
  method : string;
  form : list (string * string);
  session : list (string * json)
}.

(** [request.form.get(k)] and [session.get(k)] *)
Definition form_get (rq : request) (k : string) : json :=
  match lookup k (form rq) with
  | Some s => JStr s
  | None => JNull
  end.

Definition session_get (s : list (string * json)) (k : string) : json :=
  match lookup k s with
  | Some v => v
  | None => JNull
  end.

(** [k in session] *)
Definition has_key (s : list (string * json)) (k : string) : bool :=
  match lookup k s with
  | Some _ => true
  | None => false
  end.

(** [session.pop(k, None)] *)
Fixpoint pop_key (k : string) (s : list (string * json)) : list (string * json) :=
  match s with
  | [] => []
  | (k', v) :: r => if (k =? k')%string then r else (k', v) :: pop_key k r
  end.

(** The string of [x or ""] for a form value [x]. *)
Definition or_empty (x : json) : string :=
  match x with
  | JStr s => s
  | _ => ""
  end.

(** A totals dict and an entry as values of a template context. *)
Definition totals_json (t : totals) : json :=
  JObj (map (fun p => (fst p, JNum (snd p))) t).

Definition entry_json (e : entry) : json :=
  JObj [("name", name e);
        ("emissions_kg", JNum (emissions_kg e));
        ("reduction_pct", JNum (reduction_pct e));
        ("subsidy_pct", JNum (subsidy_pct e));
        ("icon", JStr (icon e))].

(** A view returns a response and a session, or raises; the stores it
    leaves are returned in both cases. *)
Definition view : Type := result (response * list (string * json)) * stores.

Definition home (rq : request) : response := Render "index.html" [].

Definition login (check_password_hash : password_checker) (flash : flasher)
  (str_strip str_lower : str_method)
  (fs : stores) (rq : request) : result (response * list (string * json)) :=
  if (method rq =? "POST")%string then
    match form_get rq "email" with
    | JStr raw =>
        let email := str_lower (str_strip raw) in
        let password := form_get rq "password" in
        user <- find_user_by_email fs email ;;
        ok <- (if truthy user
               then h <- py_subscript user "password_hash" ;;
                    check_password_hash h password
               else OK false) ;;
        if ok then
          id <- py_subscript user "id" ;;
          em <- py_subscript user "email" ;;
          ut <- py_subscript user "user_type" ;;
          OK (Redirect "dashboard",
              set_key "user_type" ut
                (set_key "user_email" em (set_key "user_id" id (session rq))))
        else
          OK (Redirect "login",
              flash "Invalid email or password." "error" (session rq))
    | _ => Raise AttributeError
    end
  else OK (Render "login.html" [("mode", JStr "auth")], session rq).

(** [signup], at the time [now]; [hashed] is what
    [generate_password_hash(password)] returns. *)
Definition signup (flash : flasher) (str_strip str_lower : str_method)
  (fs : stores) (rq : request) (now hashed : string) : view :=
  let email := str_lower (str_strip (or_empty (form_get rq "email"))) in
  let password := or_empty (form_get rq "password") in
  let name := str_strip (or_empty (form_get rq "name")) in
  if (email =? "")%string || (password =? "")%string || (name =? "")%string then
    (OK (Redirect "login",
         flash "Please fill in email, password, and name." "error" (session rq)),
     fs)
  else
    match find_user_by_email fs email with
    | Raise e => (Raise e, fs)
    | OK found =>
        if truthy found then
          (OK (Redirect "login",
               flash "Account already exists." "error" (session rq)), fs)
        else
          match add_user fs now email hashed name with
          | Raise e => (Raise e, fs)
          | OK (new_user, fs') =>
              (id <- py_subscript new_user "id" ;;
               em <- py_subscript new_user "email" ;;
               OK (Redirect "identify",
                   set_key "pending_user_email" em
                     (set_key "pending_user_id" id (session rq))),
               fs')
          end
    end.

Definition identify (rq : request) : response :=
  if negb (has_key (session rq) "pending_user_id") then Redirect "login"
  else Render "login.html" [("mode", JStr "identify")].

Definition set_identity (fs : stores) (rq : request) : view :=
  let user_type := form_get rq "user_type" in
  let uid := session_get (session rq) "pending_user_id" in
  match update_user_type fs uid user_type with
  | Raise e => (Raise e, fs)
  | OK (_, fs') =>
      let s1 := set_key "user_id" uid (session rq) in
      (match lookup "pending_user_email" s1 with
       | None => Raise KeyError
       | Some em =>
           let s2 := set_key "user_email" em s1 in
           let s3 := set_key "user_type" user_type s2 in
           OK (Redirect "dashboard",
               pop_key "pending_user_email" (pop_key "pending_user_id" s3))
       end,
       fs')
  end.

Definition dashboard (fs : stores) (rq : request)
  : result (response * list (string * json)) :=
  if negb (has_key (session rq) "user_id") then OK (Redirect "login", session rq)
  else
    t <- compute_totals_for_user fs (session_get (session rq) "user_id") ;;
    OK (Render "dashboard.html"
          [("totals", totals_json t);
           ("user_email", session_get (session rq) "user_email")],
        session rq).

Definition add_emission_route (fs : stores) (rq : request) (now : string) : view :=
  if negb (has_key (session rq) "user_id") then
    (OK (Redirect "login", session rq), fs)
  else
    let emission_type := form_get rq "emission_type" in
    let amount := form_get rq "amount" in
    let unit := form_get rq "unit" in
    match add_emission fs now (session_get (session rq) "user_id")
            emission_type amount unit with
    | Raise e => (Raise e, fs)
    | OK fs' => (OK (Redirect "dashboard", session rq), fs')
    end.

Definition marketplace (fs : stores) (rq : request)
  : result (response * list (string * json)) :=
  leaders <- build_leaderboards_from_emissions fs ;;
  OK (Render "marketplace.html"
        [("leaders_hospitals", JArr (map entry_json (fst leaders)));
         ("leaders_manufacturers", JArr (map entry_json (snd leaders)))],
      session rq).

Definition logout (rq : request) : response * list (string * json) :=
  (Redirect "home", []).

(** [flash] as Flask does it: the pair of the category and the message goes
    to the end of the list under the key [_flashes] of the session. *)
Definition flask_flash : flasher :=
  fun message category s =>
    set_key "_flashes"
      (JArr (match lookup "_flashes" s with
             | Some (JArr l) => l
             | _ => []
             end ++ [JArr [JStr category; JStr message]])) s.

(** The user [signup] adds. *)
Definition signed_up (us : list UserRec) (now email hashed name : string)
  : UserRec :=
  {| usr_id := max_id (map usr_id us) + 1;
     usr_email := email;
     usr_password_hash := hashed;
     usr_name := name;
     usr_type := "pending";
     usr_created_at := now |}.

(** A registry of the data model for the examples, the user a signup adds
    to it and the record an emission adds to [example_log]. *)
Definition example_users : list UserRec :=
  [ {| usr_id := 1; usr_email := "big@example.org";
       usr_password_hash := "hash-1"; usr_name := "Big";
       usr_type := "hospital"; usr_created_at := "2024-01-01T00:00:00" |};
    {| usr_id := 2; usr_email := "small@example.org";
       usr_password_hash := "hash-2"; usr_name := "";
       usr_type := "pending"; usr_created_at := "2024-01-02T00:00:00" |} ].

Definition example_new : UserRec :=
  signed_up example_users "2024-02-01T00:00:00" "new@example.org" "hash-3" "New".

Definition example_record : EmissionRecord :=
  {| rec_id := 4; rec_user_id := 1; rec_type := "co2"; rec_amount := 5;
     rec_unit := "kg"; rec_created_at := "2024-02-01T00:00:00" |}.

Definition example_signup : request :=
  {| method := "POST";
     form := [("email", " New@Example.org "); ("password", "secret");
              ("name", " New ")];
     session := [] |}.

Definition example_login : request :=
  {| method := "POST";
     form := [("email", " New@Example.org "); ("password", "secret")];
     session := [] |}.

(** A checker for the examples that accepts every password. *)
Definition accept_all : password_checker := fun _ _ => OK true.

(** ** Comparisons and rounding *)

Lemma Qltb_lt (x y : Q) : Qltb x y = true <-> x < y.
Proof.
  unfold Qltb. rewrite negb_true_iff. split; intro H.
  - apply Qnot_le_lt. intro L. apply Qle_bool_iff in L. congruence.
  - destruct (Qle_bool y x) eqn:E; [|reflexivity].
    apply Qle_bool_iff in E. exfalso. apply (Qlt_not_le _ _ H E).
Qed.

Lemma Qltb_ge (x y : Q) : Qltb x y = false <-> y <= x.
Proof.
  unfold Qltb. rewrite negb_false_iff. apply Qle_bool_iff.
Qed.

Lemma Qle_bool_gt (x y : Q) : Qle_bool x y = false <-> y < x.
Proof.
  rewrite <- Qltb_lt. unfold Qltb. rewrite negb_true_iff. reflexivity.
Qed.

(** Rounding to an integer never crosses an integer. *)
Lemma round_half_even_le (n : Q) (k : Z) :
  n <= inject_Z k -> (round_half_even n <= k)%Z.
Proof.
  intro H. unfold round_half_even.
  pose proof (Qfloor_le n) as Hf.
  assert (Hk : (Qfloor n <= k)%Z).
  { rewrite Zle_Qle. eapply Qle_trans; eassumption. }
  assert (Hup : 0 < n - inject_Z (Qfloor n) -> (Qfloor n + 1 <= k)%Z).
  { intro Hd. assert (Hlt : (Qfloor n < k)%Z); [|lia].
    rewrite Zlt_Qlt. lra. }
  destruct (Qcompare (n - inject_Z (Qfloor n)) (1 # 2)) eqn:E.
  - apply Qeq_alt in E. destruct (Z.even (Qfloor n)); [assumption|].
    apply Hup. lra.
  - assumption.
  - apply Qgt_alt in E. apply Hup. lra.
Qed.

Lemma round_half_even_ge (n : Q) (k : Z) :
  inject_Z k <= n -> (k <= round_half_even n)%Z.
Proof.
  intro H. unfold round_half_even.
  assert (Hk : (k <= Qfloor n)%Z).
  { rewrite <- (Qfloor_Z k). apply Qfloor_resp_le. assumption. }
  destruct (Qcompare (n - inject_Z (Qfloor n)) (1 # 2));
    [destruct (Z.even (Qfloor n))| |]; lia.
Qed.

Lemma round1_le_0 (x : Q) : x <= 0 -> round1 x <= 0.
Proof.
  intro H. unfold round1.
  assert (Hr : (round_half_even (x * 10) <= 0)%Z).
  { apply round_half_even_le. change (inject_Z 0) with 0. lra. }
  rewrite Zle_Qle in Hr. change (inject_Z 0) with 0 in Hr.
  apply Qle_shift_div_r; lra.
Qed.

Lemma round1_ge_0 (x : Q) : 0 <= x -> 0 <= round1 x.
Proof.
  intro H. unfold round1.
  assert (Hr : (0 <= round_half_even (x * 10))%Z).
  { apply round_half_even_ge. change (inject_Z 0) with 0. lra. }
  rewrite Zle_Qle in Hr. change (inject_Z 0) with 0 in Hr.
  apply Qle_shift_div_l; lra.
Qed.

Lemma round1_le_40 (x : Q) : x <= 40 -> round1 x <= 40.
Proof.
  intro H. unfold round1.
  assert (Hr : (round_half_even (x * 10) <= 400)%Z).
  { apply round_half_even_le. change (inject_Z 400) with 400. lra. }
  rewrite Zle_Qle in Hr. change (inject_Z 400) with 400 in Hr.
  apply Qle_shift_div_r; lra.
Qed.

Lemma round1_ge_40 (x : Q) : 40 <= x -> 40 <= round1 x.
Proof.
  intro H. unfold round1.
  assert (Hr : (400 <= round_half_even (x * 10))%Z).
  { apply round_half_even_ge. change (inject_Z 400) with 400. lra. }
  rewrite Zle_Qle in Hr. change (inject_Z 400) with 400 in Hr.
  apply Qle_shift_div_l; lra.
Qed.

(** Line 199: clamping the rounded reduction. *)
Lemma subsidy_of_clamp (x : Q) : subsidy_of x == clamp (round1 x) 0 40.
Proof.
  unfold subsidy_of, clamp, py_max, py_min.
  destruct (Qltb (round1 x) 40) eqn:E1; destruct (Qltb (round1 x) 0) eqn:E2;
    destruct (Qltb 40 (round1 x)) eqn:E3;
    repeat match goal with
    | H : Qltb _ _ = true |- _ => apply Qltb_lt in H
    | H : Qltb _ _ = false |- _ => apply Qltb_ge in H
    end;
    repeat match goal with
    | |- context [Qltb ?a ?b] =>
        let E := fresh "E" in
        destruct (Qltb a b) eqn:E;
        [apply Qltb_lt in E | apply Qltb_ge in E]
    end; lra.
Qed.

(** Line 308: rounding the clamped reduction gives the same number. *)
Lemma round_clamped (x : Q) :
  round1 (py_max 0 (py_min 40 x)) == clamp (round1 x) 0 40.
Proof.
  pose proof (round1_le_0 x) as L0. pose proof (round1_ge_0 x) as G0.
  pose proof (round1_le_40 x) as L40. pose proof (round1_ge_40 x) as G40.
  assert (R0 : round1 0 == 0) by reflexivity.
  assert (R40 : round1 40 == 40) by reflexivity.
  unfold clamp, py_max, py_min.
  destruct (Qltb x 40) eqn:E1;
    [apply Qltb_lt in E1 | apply Qltb_ge in E1].
  - destruct (Qltb 0 x) eqn:E2;
      [apply Qltb_lt in E2 | apply Qltb_ge in E2];
      destruct (Qltb (round1 x) 0) eqn:E3;
      [apply Qltb_lt in E3 | apply Qltb_ge in E3
      |apply Qltb_lt in E3 | apply Qltb_ge in E3];
      try (destruct (Qltb 40 (round1 x)) eqn:E4;
           [apply Qltb_lt in E4 | apply Qltb_ge in E4]); lra.
  - assert (E2 : Qltb 0 40 = true) by reflexivity. rewrite E2.
    destruct (Qltb (round1 x) 0) eqn:E3;
      [apply Qltb_lt in E3 | apply Qltb_ge in E3];
      try (destruct (Qltb 40 (round1 x)) eqn:E4;
           [apply Qltb_lt in E4 | apply Qltb_ge in E4]); lra.
Qed.


(** ** Loops and sorting *)

Lemma bind_OK {A B : Type} (m : result A) (k : A -> result B) (b : B) :
  bind m k = OK b -> exists a, m = OK a /\ k a = OK b.
Proof.
  destruct m as [a|e]; simpl; intro H; [eauto | discriminate].
Qed.

Ltac bind_inv H :=
  let a := fresh "a" in
  let E := fresh "E" in
  apply bind_OK in H; destruct H as (a & E & H).

Lemma foldM_app {A B : Type} (f : A -> B -> result A) (l1 l2 : list B) (a : A) :
  foldM f (l1 ++ l2) a = (a' <- foldM f l1 a ;; foldM f l2 a').
Proof.
  revert a. induction l1 as [|x l1 IH]; intro a; simpl; [reflexivity|].
  destruct (f a x); simpl; [apply IH | reflexivity].
Qed.

(** A property the body keeps holds when the loop ends. *)
Lemma foldM_inv {A B : Type} (P : A -> Prop) (f : A -> B -> result A)
  (l : list B) :
  (forall a x a', In x l -> P a -> f a x = OK a' -> P a') ->
  forall a r, P a -> foldM f l a = OK r -> P r.
Proof.
  induction l as [|x l IH]; intros Hf a r Ha H; simpl in H.
  - injection H as <-. assumption.
  - bind_inv H. apply (IH (fun a x a' Hx => Hf a x a' (or_intror Hx)) a0 r);
      [|assumption].
    apply (Hf a x a0); [left; reflexivity | assumption | assumption].
Qed.

Lemma insert_by_kg_perm (x : entry) (l : list entry) :
  Permutation (x :: l) (insert_by_kg x l).
Proof.
  induction l as [|y l IH]; simpl; [reflexivity|].
  destruct (Qltb (emissions_kg y) (emissions_kg x)); [|reflexivity].
  rewrite perm_swap. apply perm_skip. assumption.
Qed.

Lemma sort_by_kg_perm (l : list entry) : Permutation l (sort_by_kg l).
Proof.
  induction l as [|x l IH]; simpl; [reflexivity|].
  rewrite <- insert_by_kg_perm. apply perm_skip. assumption.
Qed.

Lemma sort_by_kg_In (e : entry) (l : list entry) :
  In e (sort_by_kg l) <-> In e l.
Proof.
  split; apply Permutation_in;
    [symmetry|]; apply sort_by_kg_perm.
Qed.

(** ** The loop over the users *)

Lemma user_body_inv (fs : stores) (h m h' m' : list entry) (u : json) :
  user_body fs (h, m) u = OK (h', m') ->
  (h' = h /\ m' = m) \/
  exists en, entry_of_user fs u en /\
    ((h' = h ++ [en] /\ m' = m) \/ (h' = h /\ m' = m ++ [en])).
Proof.
  unfold user_body. intro H.
  bind_inv H. bind_inv H. bind_inv H. bind_inv H.
  destruct (Qle_bool (total_kg_of a2) 0) eqn:Et.
  - injection H as <- <-. left. split; reflexivity.
  - apply Qle_bool_gt in Et. bind_inv H. bind_inv H.
    match type of H with
    | (if (?r =? _)%string then _ else _) = _ =>
        destruct (r =? "hospital")%string;
        [|destruct (r =? "manufacturer")%string]
    end; injection H as <- <-.
    + right. eexists. split; [|left; split; reflexivity].
      exists a1, a2, a3, a4. repeat split; assumption.
    + right. eexists. split; [|right; split; reflexivity].
      exists a1, a2, a3, a4. repeat split; assumption.
    + left. split; reflexivity.
Qed.

Lemma user_loop_entries (fs : stores) (us : list json) :
  forall h0 m0 h m,
    foldM (user_body fs) us (h0, m0) = OK (h, m) ->
    forall e, In e (h ++ m) ->
      In e (h0 ++ m0) \/ exists u, In u us /\ entry_of_user fs u e.
Proof.
  induction us as [|u us IH]; intros h0 m0 h m H e He; simpl in H.
  - injection H as <- <-. left. assumption.
  - bind_inv H. destruct a as [h1 m1].
    destruct (IH _ _ _ _ H e He) as [Hin|(u' & Hu' & Hen)].
    + apply user_body_inv in E.
      destruct E as [[-> ->]|(en & Hen & [[-> ->]|[-> ->]])].
      * left. assumption.
      * rewrite !in_app_iff in Hin. simpl in Hin.
        destruct Hin as [[Hin|[<-|[]]]|Hin].
        -- left. apply in_or_app. left. assumption.
        -- right. exists u. split; [left; reflexivity | assumption].
        -- left. apply in_or_app. right. assumption.
      * rewrite !in_app_iff in Hin. simpl in Hin.
        destruct Hin as [Hin|[Hin|[<-|[]]]].
        -- left. apply in_or_app. left. assumption.
        -- left. apply in_or_app. right. assumption.
        -- right. exists u. split; [left; reflexivity | assumption].
    + right. exists u'. split; [right; assumption | assumption].
Qed.

(** ** Groups *)

Lemma py_max_cases (a b : Q) :
  (py_max a b = a /\ b <= a) \/ (py_max a b = b /\ a < b).
Proof.
  unfold py_max. destruct (Qltb a b) eqn:E.
  - right. apply Qltb_lt in E. split; [reflexivity | assumption].
  - left. apply Qltb_ge in E. split; [reflexivity | assumption].
Qed.

Lemma fold_max_ge (rest : list entry) (m0 : Q) :
  m0 <= fold_left (fun m e => py_max m (emissions_kg e)) rest m0 /\
  forall e, In e rest ->
    emissions_kg e <= fold_left (fun m e => py_max m (emissions_kg e)) rest m0.
Proof.
  revert m0. induction rest as [|x rest IH]; intro m0; simpl.
  - split; [lra | intros e []].
  - destruct (IH (py_max m0 (emissions_kg x))) as [H1 H2].
    destruct (py_max_cases m0 (emissions_kg x)) as [[Hm Hle]|[Hm Hlt]];
      rewrite Hm in *.
    + split; [assumption|]. intros e [<-|He]; [lra | apply H2, He].
    + split; [lra|]. intros e [<-|He]; [assumption | apply H2, He].
Qed.

Lemma fold_max_attained (rest : list entry) (m0 : Q) :
  fold_left (fun m e => py_max m (emissions_kg e)) rest m0 = m0 \/
  exists e, In e rest /\
    emissions_kg e = fold_left (fun m e => py_max m (emissions_kg e)) rest m0.
Proof.
  revert m0. induction rest as [|x rest IH]; intro m0; simpl.
  - left. reflexivity.
  - destruct (IH (py_max m0 (emissions_kg x))) as [H|(e & He & H)].
    + rewrite H.
      destruct (py_max_cases m0 (emissions_kg x)) as [[Hm _]|[Hm _]];
        rewrite Hm; [left; reflexivity|].
      right. exists x. split; [left; reflexivity | reflexivity].
    + right. exists e. split; [right; assumption | assumption].
Qed.

Lemma max_kg_of_is_max (e0 : entry) (rest : list entry) :
  is_max_kg (max_kg_of e0 rest) (e0 :: rest).
Proof.
  unfold max_kg_of. split.
  - destruct (fold_max_attained rest (emissions_kg e0)) as [H|(e & He & H)].
    + exists e0. split; [left; reflexivity | rewrite H; reflexivity].
    + exists e. split; [right; assumption | rewrite H; reflexivity].
  - destruct (fold_max_ge rest (emissions_kg e0)) as [H1 H2].
    intros e [<-|He]; [assumption | apply H2, He].
Qed.

(** A group of positive emitters goes through the relative computation. *)
Lemma finalize_group_positive (g0 : list entry) :
  Forall (fun e => 0 < emissions_kg e) g0 ->
  g0 = [] /\ finalize_group g0 = [] \/
  exists M, is_max_kg M g0 /\ 0 < M /\
    finalize_group g0 = sort_by_kg (map (relative M) g0).
Proof.
  intro Hpos. destruct g0 as [|e0 rest]; [left; split; reflexivity|].
  right. exists (max_kg_of e0 rest).
  pose proof (max_kg_of_is_max e0 rest) as Hmax.
  assert (HM : 0 < max_kg_of e0 rest).
  { destruct Hmax as [_ Hle]. inversion Hpos as [|? ? H0 _]; subst.
    specialize (Hle e0 (or_introl eq_refl)). lra. }
  split; [assumption|]. split; [assumption|].
  unfold finalize_group. apply Qle_bool_gt in HM. rewrite HM. reflexivity.
Qed.

Lemma entry_of_user_positive (fs : stores) (u : json) (e : entry) :
  entry_of_user fs u e ->
  0 < emissions_kg e /\ reduction_pct e = 0 /\ subsidy_pct e = 0.
Proof.
  intros (uid & t & n & em & _ & _ & Hpos & _ & _ & ->). simpl.
  repeat split. assumption.
Qed.

(** What the builder returns, in terms of the two groups of the loop. *)
Lemma emissions_builder_inv (fs : stores) (h m : list entry) :
  build_leaderboards_from_emissions fs = OK (h, m) ->
  exists us h0 m0,
    all_users fs = OK us /\
    foldM (user_body fs) us ([], []) = OK (h0, m0) /\
    h = finalize_group h0 /\ m = finalize_group m0 /\
    forall e, In e (h0 ++ m0) -> exists u, In u us /\ entry_of_user fs u e.
Proof.
  unfold build_leaderboards_from_emissions, all_users. intro H.
  bind_inv H. bind_inv H. bind_inv H. destruct a1 as [h0 m0].
  injection H as <- <-. exists a0, h0, m0. rewrite E. simpl.
  repeat split; try assumption.
  intros e He.
  destruct (user_loop_entries fs a0 [] [] h0 m0 E1 e He) as [[]|Hu].
  assumption.
Qed.

Lemma groups_positive (fs : stores) (us : list json) (g : list entry) :
  (forall e, In e g -> exists u, In u us /\ entry_of_user fs u e) ->
  Forall (fun e => 0 < emissions_kg e) g.
Proof.
  intro H. rewrite Forall_forall. intros e He.
  destruct (H e He) as (u & _ & Hu).
  apply entry_of_user_positive in Hu. tauto.
Qed.

(** An entry of a returned group is an entry of the loop, with the
    reduction and the subsidy of lines 306-308. *)
Lemma finalized_entry (fs : stores) (us : list json) (g0 : list entry) :
  (forall e, In e g0 -> exists u, In u us /\ entry_of_user fs u e) ->
  forall e, In e (finalize_group g0) ->
  exists M e0, is_max_kg M g0 /\ 0 < M /\ In e0 g0 /\ e = relative M e0.
Proof.
  intros Hg e He.
  destruct (finalize_group_positive g0 (groups_positive fs us g0 Hg))
    as [[_ Hnil]|(M & HM & Hpos & Hfin)].
  - rewrite Hnil in He. destruct He.
  - rewrite Hfin in He. apply (proj1 (sort_by_kg_In _ _)) in He.
    apply in_map_iff in He. destruct He as (e0 & <- & He0).
    exists M, e0. repeat split; try assumption; apply HM.
Qed.

(** ** The dataset builder, case by case *)

Lemma data_builder_inv (data : json) (h m : list entry) :
  build_leaderboards_from_data data = OK (h, m) ->
  (truthy data = false /\ h = [] /\ m = []) \/
  (truthy data = true /\
   exists profile hospital_name total_tonnes total_cost_current total_cost_alt
          manufacturers,
     py_get data "hospital_profile" (JObj []) = OK profile /\
     py_get profile "name" (JStr "Unknown Hospital") = OK hospital_name /\
     for_iter_items hospital_body data (0, 0, 0)
       = OK (total_tonnes, total_cost_current, total_cost_alt) /\
     for_iter_items manufacturer_body data [] = OK manufacturers /\
     h = [ {| name := hospital_name;
              emissions_kg := total_tonnes * 1000;
              reduction_pct :=
                cost_reduction_pct total_cost_current total_cost_alt;
              subsidy_pct :=
                subsidy_of (cost_reduction_pct total_cost_current total_cost_alt);
              icon := medal |} ] /\
     m = sort_by_kg (map manufacturer_entry manufacturers)).
Proof.
  unfold build_leaderboards_from_data. intro H.
  destruct (truthy data).
  - right. split; [reflexivity|]. simpl in H.
    bind_inv H. bind_inv H. bind_inv H. destruct a1 as [[tt tc] ta].
    bind_inv H. injection H as <- <-.
    exists a, a0, tt, tc, ta, a1. repeat split; assumption.
  - left. simpl in H. injection H as <- <-. repeat split.
Qed.

Lemma data_builder_subsidy (data : json) (h m : list entry) (e : entry) :
  build_leaderboards_from_data data = OK (h, m) ->
  In e (h ++ m) ->
  subsidy_pct e = subsidy_of (reduction_pct e).
Proof.
  intros H He. apply data_builder_inv in H.
  destruct H as [(_ & -> & ->)|(_ & p & n & tt & tc & ta & ms & _ & _ & _ & _ & -> & ->)].
  - destruct He.
  - apply in_app_or in He. destruct He as [[<-|[]]|He]; [reflexivity|].
    apply (proj1 (sort_by_kg_In _ _)) in He. apply in_map_iff in He.
    destruct He as (q & <- & _). reflexivity.
Qed.

(** ** Properties of the leaderboards *)

(** The subsidy of a reduction of 1000, of -50 and of 12.34, by either
    order of rounding and clamping. *)
Lemma subsidy_examples :
  subsidy_of 1000 == 40 /\ subsidy_of (-50) == 0 /\ subsidy_of 12.34 == 12.3 /\
  round1 (py_max 0 (py_min 40 1000)) == 40 /\
  round1 (py_max 0 (py_min 40 (-50))) == 0 /\
  round1 (py_max 0 (py_min 40 12.34)) == 12.3.
Proof. repeat split. Qed.


(** C10. Every entry of the logged-emissions builder is the entry of a user
    of the registry: it carries the totals of that user, and its name is the
    [name] field of the user, or the [email] field when the name is missing
    or empty: a name that is a non-empty string is the name of the entry, a
    name that is missing, [null] or the empty string gives the email; the
    name is never missing when the user has an email. *)
Theorem entry_name_or_email (fs : stores) (h m : list entry) (e : entry) :
  build_leaderboards_from_emissions fs = OK (h, m) ->
  In e (h ++ m) ->
  exists us u uid t n em,
    all_users fs = OK us /\ In u us /\
    py_subscript u "id" = OK uid /\
    compute_totals_for_user fs uid = OK t /\
    emissions_kg e = total_kg_of t /\
    py_get u "name" JNull = OK n /\
    py_get u "email" JNull = OK em /\
    name e = (if truthy n then n else em) /\
    (forall s, n = JStr s -> s <> "" -> name e = JStr s) /\
    (n = JNull \/ n = JStr "" -> name e = em) /\
    (em <> JNull -> name e <> JNull).
Proof.
  intros H He. apply emissions_builder_inv in H.
  destruct H as (us & h0 & m0 & Hus & _ & -> & -> & Hu).
  assert (Hg : forall g0, (forall x, In x g0 -> In x (h0 ++ m0)) ->
    In e (finalize_group g0) -> exists u, In u us /\ exists e0,
      entry_of_user fs u e0 /\ name e = name e0 /\
      emissions_kg e = emissions_kg e0).
  { intros g0 Hsub Hin.
    assert (Hin0 : forall x, In x g0 -> exists u, In u us /\ entry_of_user fs u x).
    { intros x Hx. apply Hu, Hsub, Hx. }
    apply (finalized_entry fs us g0 Hin0) in Hin.
    destruct Hin as (M & e0 & _ & _ & He0 & ->).
    destruct (Hin0 e0 He0) as (u & Hu0 & Hen).
    exists u. split; [assumption|]. exists e0.
    split; [assumption | split; reflexivity]. }
  assert (Hex : exists u, In u us /\ exists e0,
    entry_of_user fs u e0 /\ name e = name e0 /\
    emissions_kg e = emissions_kg e0).
  { apply in_app_or in He. destruct He as [He|He].
    - apply (Hg h0); [|assumption]. intros x Hx. apply in_or_app. left. assumption.
    - apply (Hg m0); [|assumption]. intros x Hx. apply in_or_app. right. assumption. }
  destruct Hex as (u & Hin & e0 &
    (uid & t & n & em & Hid & Ht & _ & Hn & Hem & ->) & Hname & Hkg).
  exists us, u, uid, t, n, em. simpl in Hname, Hkg. unfold py_or in Hname.
  repeat split; try assumption.
  - intros s -> Hs. rewrite Hname. simpl.
    apply String.eqb_neq in Hs. rewrite Hs. reflexivity.
  - intros [-> | ->]; assumption.
  - intros Hnull. rewrite Hname. destruct (truthy n) eqn:T; [|assumption].
    intros ->. discriminate T.
Qed.

(** ** Units and totals *)




Lemma py_eq_ids (a b : Z) :
  py_eq (JNum (inject_Z a)) (JNum (inject_Z b)) = (a =? b)%Z.
Proof.
  simpl. unfold Qeq_bool. simpl. rewrite !Z.mul_1_r. reflexivity.
Qed.





(** ** Users without emissions *)




(** ** The dataset builder on a well-formed dataset *)

Lemma sub_items (A : Type) (body : A -> json -> result A) (s : SubLever) (acc : A) :
  (items <- py_get (sub_json s) "items" (JObj []) ;;
   its <- py_values items ;;
   foldM body its acc)
  = foldM body (map item_json (map snd s)) acc.
Proof.
  unfold sub_json. cbn [py_get lookup String.eqb Ascii.eqb Bool.eqb andb bind py_values].
  rewrite !map_map. reflexivity.
Qed.

Lemma lever_items (A : Type) (body : A -> json -> result A) (l : Lever) :
  forall acc,
    (subs <- py_get (lever_json l) "sub_levers" (JObj []) ;;
     ss <- py_values subs ;;
     foldM (fun acc sub =>
       items <- py_get sub "items" (JObj []) ;;
       its <- py_values items ;;
       foldM body its acc) ss acc)
    = foldM body (map item_json (flat_map (fun sb => map snd (snd sb)) l)) acc.
Proof.
  unfold lever_json.
  cbn [py_get lookup String.eqb Ascii.eqb Bool.eqb andb bind py_values].
  induction l as [|[k s] l IH]; intro acc; [reflexivity|].
  cbn [map foldM flat_map snd fst]. rewrite sub_items, map_app, foldM_app.
  destruct (foldM body (map item_json (map snd s)) acc); cbn [bind];
    [apply IH | reflexivity].
Qed.

Lemma levers_items (A : Type) (body : A -> json -> result A) (ls : Levers) :
  forall acc,
    foldM (fun acc lever =>
      subs <- py_get lever "sub_levers" (JObj []) ;;
      ss <- py_values subs ;;
      foldM (fun acc sub =>
        items <- py_get sub "items" (JObj []) ;;
        its <- py_values items ;;
        foldM body its acc) ss acc)
      (map snd (map (fun p => (fst p, lever_json (snd p))) ls)) acc
    = foldM body (map item_json (items_of (Some ls))) acc.
Proof.
  induction ls as [|[k l] ls IH]; intro acc; [reflexivity|].
  cbn [map foldM flat_map snd fst items_of] in *.
  rewrite lever_items, map_app, foldM_app.
  destruct (foldM body
    (map item_json (flat_map (fun sb => map snd (snd sb)) l)) acc);
    cbn [bind]; [apply IH | reflexivity].
Qed.

(** On a dataset of the data model the loop visits the items in order. *)
Lemma for_iter_items_dataset (A : Type) (body : A -> json -> result A)
  (hospital : option string) (ls : option Levers) (acc : A) :
  for_iter_items body (dataset_json hospital ls) acc
  = foldM body (map item_json (items_of ls)) acc.
Proof.
  unfold for_iter_items, dataset_json.
  destruct hospital as [n|], ls as [l|];
    cbn [app py_get lookup String.eqb Ascii.eqb Bool.eqb andb bind py_values
         levers_json];
    try reflexivity; apply levers_items.
Qed.








(** ** Sums over the items *)





(** C6. What the loaders and the aggregation functions do on a malformed
    dataset file, on an emissions file without the [emissions] key, on a
    users file without the [users] key and on an item whose cost is null. *)
Theorem exceptions_propagate :
  load_market_data
    {| users_file := Missing; emissions_file := Missing;
       data_file := Malformed |}
  = Raise JSONDecodeError /\
  load_users
    {| users_file := Parsed (JObj []); emissions_file := Missing;
       data_file := Missing |}
  = empty_users /\
  load_emissions
    {| users_file := Missing; emissions_file := Parsed (JObj []);
       data_file := Missing |}
  = JObj [] /\
  compute_totals_for_user
    {| users_file := Missing; emissions_file := Parsed (JObj []);
       data_file := Missing |} (JNum 1)
  = Raise KeyError /\
  build_leaderboards_from_emissions
    {| users_file := Parsed (JObj [("users", JArr [JObj [("id", JNum 1)]])]);
       emissions_file := Parsed (JObj []);
       data_file := Missing |}
  = Raise KeyError /\
  build_leaderboards_from_data
    (JObj [("levers", JObj [("l", JObj [("sub_levers",
       JObj [("s", JObj [("items",
         JObj [("i", JObj [("costing",
           JObj [("annual_cost_rupees", JNull)])])])])])])])])
  = Raise TypeError.
Proof. repeat split. Qed.

(** ** Dicts, lists of ids *)

Lemma lookup_set_key_same (k : string) (v : json) (kv : list (string * json)) :
  lookup k (set_key k v kv) = Some v.
Proof.
  induction kv as [|[k' w] kv IH]; simpl.
  - rewrite String.eqb_refl. reflexivity.
  - destruct (k =? k')%string eqn:E; simpl; rewrite E; [reflexivity | exact IH].
Qed.

Lemma lookup_set_key_other (k k' : string) (v : json) (kv : list (string * json)) :
  k' <> k -> lookup k' (set_key k v kv) = lookup k' kv.
Proof.
  intro Hne. induction kv as [|[k0 w] kv IH]; simpl.
  - apply String.eqb_neq in Hne. rewrite Hne. reflexivity.
  - destruct (k =? k0)%string eqn:E; simpl.
    + apply String.eqb_eq in E. subst k0.
      apply String.eqb_neq in Hne. rewrite Hne. reflexivity.
    + rewrite IH. reflexivity.
Qed.

Lemma mapM_OK {A B : Type} (f : A -> result B) (l : list A) (ys : list B) :
  mapM f l = OK ys -> Forall2 (fun x y => f x = OK y) l ys.
Proof.
  revert ys. induction l as [|x l IH]; intros ys H; simpl in H.
  - injection H as <-. constructor.
  - bind_inv H. bind_inv H. injection H as <-. constructor; [assumption|].
    apply IH. assumption.
Qed.

Lemma mapM_map {A B C : Type} (f : B -> result C) (g : A -> B) (h : A -> C)
  (l : list A) :
  (forall x, f (g x) = OK (h x)) -> mapM f (map g l) = OK (map h l).
Proof.
  intro H. induction l as [|x l IH]; simpl; [reflexivity|].
  rewrite H. cbn [bind]. rewrite IH. reflexivity.
Qed.

Lemma fold_py_max_ge (r : list Q) (n : Q) :
  n <= fold_left py_max r n /\
  forall q, In q r -> q <= fold_left py_max r n.
Proof.
  revert n. induction r as [|x r IH]; intro n; simpl.
  - split; [lra | intros q []].
  - destruct (IH (py_max n x)) as [H1 H2].
    destruct (py_max_cases n x) as [[Hm Hle]|[Hm Hlt]]; rewrite Hm in *.
    + split; [assumption|]. intros q [<-|Hq]; [lra | apply H2, Hq].
    + split; [lra|]. intros q [<-|Hq]; [assumption | apply H2, Hq].
Qed.

Lemma py_max_inject_Z (a b : Z) :
  py_max (inject_Z a) (inject_Z b) = inject_Z (Z.max a b).
Proof.
  destruct (py_max_cases (inject_Z a) (inject_Z b)) as [[-> H]|[-> H]].
  - rewrite <- Zle_Qle in H. rewrite Z.max_l by assumption. reflexivity.
  - rewrite <- Zlt_Qlt in H. rewrite Z.max_r by lia. reflexivity.
Qed.

Lemma fold_py_max_inject_Z (r : list Z) (n : Z) :
  fold_left py_max (map inject_Z r) (inject_Z n) = inject_Z (fold_left Z.max r n).
Proof.
  revert n. induction r as [|x r IH]; intro n; simpl; [reflexivity|].
  rewrite py_max_inject_Z. apply IH.
Qed.

Lemma inject_Z_succ (m : Z) : inject_Z m + 1 = inject_Z (m + 1).
Proof.
  unfold Qplus, inject_Z. simpl. f_equal. lia.
Qed.

(** The next id over items whose ids are the integers [ids]. *)
Lemma next_id_integers (items : list json) (ids : list Z) :
  mapM (fun x => py_subscript x "id") items
  = OK (map (fun i => JNum (inject_Z i)) ids) ->
  next_id items = OK (inject_Z (max_id ids + 1)).
Proof.
  intro H. unfold next_id. rewrite H. cbn [bind].
  rewrite (mapM_map py_number (fun i => JNum (inject_Z i)) inject_Z)
    by reflexivity.
  cbn [bind]. f_equal. rewrite <- inject_Z_succ. f_equal.
  destruct ids as [|n r]; [reflexivity|]. simpl.
  apply fold_py_max_inject_Z.
Qed.

(** The next id is greater than every id there is. *)
Lemma next_id_greater (items : list json) (n : Q) :
  next_id items = OK n ->
  forall x i, In x items -> py_subscript x "id" = OK i ->
    exists q, py_number i = OK q /\ q < n.
Proof.
  unfold next_id. intros H x i Hx Hi.
  bind_inv H. bind_inv H. injection H as <-.
  apply mapM_OK in E. apply mapM_OK in E0.
  assert (Hq : exists q, py_number i = OK q /\ In q a0).
  { clear - E E0 Hx Hi. revert a0 E0.
    induction E as [|y j items a Hy _ IH]; intros nums E0; [destruct Hx|].
    inversion E0 as [|? q ? nums' Hq Hrest]; subst.
    destruct Hx as [<-|Hx].
    - rewrite Hi in Hy. injection Hy as <-. exists q.
      split; [assumption | left; reflexivity].
    - destruct (IH Hx nums' Hrest) as (q' & Hq' & Hin).
      exists q'. split; [assumption | right; assumption]. }
  destruct Hq as (q & Hq & Hin). exists q. split; [assumption|].
  destruct a0 as [|n0 r]; [destruct Hin|].
  destruct (fold_py_max_ge r n0) as [H1 H2].
  destruct Hin as [<-|Hin]; [lra|]. specialize (H2 q Hin). lra.
Qed.

Lemma next_id_fresh (items : list json) (n : Q) :
  next_id items = OK n ->
  forall x i, In x items -> py_subscript x "id" = OK i ->
    py_eq i (JNum n) = false.
Proof.
  intros H x i Hx Hi.
  destruct (next_id_greater items n H x i Hx Hi) as (q & Hq & Hlt).
  destruct i; simpl in Hq; try discriminate; injection Hq as <-; simpl;
    (destruct (Qeq_bool _ n) eqn:E; [|reflexivity]);
    apply Qeq_bool_iff in E; lra.
Qed.

(** ** The user store *)

Lemma load_users_saved (fs : stores) (kv : list (string * json)) (v : json) :
  lookup "users" kv = Some v ->
  load_users (save_users fs (JObj kv)) = JObj kv.
Proof.
  intro H. unfold load_users, save_users. cbn [users_file py_contains].
  rewrite H. reflexivity.
Qed.

Lemma all_users_of (fs : stores) (kv : list (string * json)) (us : list json) :
  load_users fs = JObj kv -> lookup "users" kv = Some (JArr us) ->
  all_users fs = OK us.
Proof.
  intros Hl Hk. unfold all_users. rewrite Hl. cbn [py_get]. rewrite Hk.
  reflexivity.
Qed.

Lemma add_user_inv (fs fs' : stores) (now email password_hash name : string)
  (user : json) :
  add_user fs now email password_hash name = OK (user, fs') ->
  exists kv us id,
    load_users fs = JObj kv /\
    lookup "users" kv = Some (JArr us) /\
    next_id us = OK id /\
    user = JObj [("id", JNum id);
                 ("email", JStr email);
                 ("password_hash", JStr password_hash);
                 ("name", JStr name);
                 ("user_type", JStr "pending");
                 ("created_at", JStr now)] /\
    fs' = save_users fs (JObj (set_key "users" (JArr (us ++ [user])) kv)).
Proof.
  unfold add_user. intro H.
  destruct (load_users fs) as [| | | | |kv] eqn:Hl; try discriminate H.
  cbn [py_subscript] in H.
  destruct (lookup "users" kv) as [users|] eqn:Hk; [|discriminate H].
  cbn [bind] in H. bind_inv H. bind_inv H. bind_inv H.
  destruct users as [| | | |us|]; try discriminate E1.
  injection E as <-. injection E1 as <-. injection H as <- <-.
  exists kv, us, a0. repeat split; assumption.
Qed.

(** X2. [add_user] appends the user to the registry, with a number for its
    id, the given email, hash and name and the type "pending", and touches
    neither the emissions nor the dataset. *)
Theorem add_user_appends (fs fs' : stores)
  (now email password_hash name : string) (user : json) :
  add_user fs now email password_hash name = OK (user, fs') ->
  exists us id,
    all_users fs = OK us /\
    all_users fs' = OK (us ++ [user]) /\
    user = JObj [("id", JNum id);
                 ("email", JStr email);
                 ("password_hash", JStr password_hash);
                 ("name", JStr name);
                 ("user_type", JStr "pending");
                 ("created_at", JStr now)] /\
    emissions_file fs' = emissions_file fs /\
    data_file fs' = data_file fs.
Proof.
  intro H. apply add_user_inv in H.
  destruct H as (kv & us & id & Hl & Hk & Hid & Hu & ->).
  exists us, id. split; [apply (all_users_of fs kv us Hl Hk)|].
  split.
  { apply (all_users_of _ (set_key "users" (JArr (us ++ [user])) kv)).
    - apply (load_users_saved fs _ (JArr (us ++ [user]))).
      apply lookup_set_key_same.
    - apply lookup_set_key_same. }
  split; [assumption|]. split; reflexivity.
Qed.

Lemma user_ids (us : list UserRec) :
  mapM (fun x => py_subscript x "id") (map user_rec_json us)
  = OK (map (fun i => JNum (inject_Z i)) (map usr_id us)).
Proof.
  rewrite map_map. apply mapM_map. reflexivity.
Qed.

Lemma add_user_on_registry (us : list UserRec) (log : list EmissionRecord)
  (d : file) (now email password_hash name : string) :
  let new := {| usr_id := max_id (map usr_id us) + 1;
                usr_email := email;
                usr_password_hash := password_hash;
                usr_name := name;
                usr_type := "pending";
                usr_created_at := now |} in
  add_user (stores_of us log d) now email password_hash name
  = OK (user_rec_json new, stores_of (us ++ [new]) log d).
Proof.
  intro new. unfold add_user, stores_of, load_users, users_json.
  cbn [users_file py_contains lookup String.eqb Ascii.eqb Bool.eqb andb
       py_subscript bind py_iter].
  rewrite (next_id_integers _ _ (user_ids us)). cbn [bind py_append].
  unfold save_users, mutated.
  cbn [set_key String.eqb Ascii.eqb Bool.eqb andb emissions_file data_file].
  rewrite map_app. reflexivity.
Qed.

(** X1. On a registry of the data model [add_user] returns, with the greatest
    id plus one (1 in an empty registry), and leaves a registry of the data
    model. *)
Theorem add_user_registry (us : list UserRec) (log : list EmissionRecord)
  (d : file) (now email password_hash name : string) :
  let new := {| usr_id := max_id (map usr_id us) + 1;
                usr_email := email;
                usr_password_hash := password_hash;
                usr_name := name;
                usr_type := "pending";
                usr_created_at := now |} in
  add_user (stores_of us log d) now email password_hash name
  = OK (user_rec_json new, stores_of (us ++ [new]) log d).
Proof.
  exact (add_user_on_registry us log d now email password_hash name).
Qed.

(** ** Finding a user *)

Lemma first_with_email_none (email : string) (us l : list json) :
  first_with_email email us = OK JNull ->
  first_with_email email (us ++ l) = first_with_email email l.
Proof.
  induction us as [|u us IH]; intro H; simpl in *; [reflexivity|].
  destruct (py_subscript u "email") as [e|] eqn:E; [|discriminate H].
  cbn [bind] in *. destruct (py_eq e (JStr email)).
  - injection H as ->. discriminate E.
  - apply IH. assumption.
Qed.

Lemma first_with_email_other (email email' : string) (us : list json) (user : json) :
  py_subscript user "email" = OK (JStr email) ->
  email' <> email ->
  first_with_email email' (us ++ [user]) = first_with_email email' us.
Proof.
  intros Hu Hne. induction us as [|u us IH]; simpl.
  - rewrite Hu. cbn [bind py_eq].
    assert (E : (email =? email')%string = false).
    { apply String.eqb_neq. congruence. }
    rewrite E. reflexivity.
  - destruct (py_subscript u "email") as [e|]; [|reflexivity].
    cbn [bind]. destruct (py_eq e (JStr email')); [reflexivity | exact IH].
Qed.

Lemma find_user_of (fs : stores) (kv : list (string * json)) (us : list json)
  (email : string) :
  load_users fs = JObj kv -> lookup "users" kv = Some (JArr us) ->
  find_user_by_email fs email = first_with_email email us.
Proof.
  intros Hl Hk. unfold find_user_by_email. rewrite Hl. cbn [py_subscript].
  rewrite Hk. reflexivity.
Qed.

(** X5. After [add_user], [find_user_by_email] finds the new user under its
    email if it found nobody before, and finds under every other email what
    it found before. *)
Theorem find_after_add_user (fs fs' : stores)
  (now email password_hash name : string) (user : json) :
  add_user fs now email password_hash name = OK (user, fs') ->
  (find_user_by_email fs email = OK JNull ->
   find_user_by_email fs' email = OK user) /\
  (forall email', email' <> email ->
   find_user_by_email fs' email' = find_user_by_email fs email').
Proof.
  intro H. apply add_user_inv in H.
  destruct H as (kv & us & id & Hl & Hk & Hid & Hu & ->).
  assert (Hf : forall e, find_user_by_email fs e = first_with_email e us).
  { intro e. apply (find_user_of fs kv us e Hl Hk). }
  assert (Hf' : forall e,
    find_user_by_email
      (save_users fs (JObj (set_key "users" (JArr (us ++ [user])) kv))) e
    = first_with_email e (us ++ [user])).
  { intro e. apply (find_user_of _ (set_key "users" (JArr (us ++ [user])) kv)).
    - apply (load_users_saved fs _ (JArr (us ++ [user]))).
      apply lookup_set_key_same.
    - apply lookup_set_key_same. }
  assert (He : py_subscript user "email" = OK (JStr email)).
  { rewrite Hu. reflexivity. }
  split.
  - rewrite Hf, Hf'. intro Hnone.
    rewrite (first_with_email_none email us [user] Hnone).
    cbn [first_with_email]. rewrite He. cbn [bind py_eq].
    rewrite String.eqb_refl. reflexivity.
  - intros email' Hne. rewrite Hf, Hf'.
    apply (first_with_email_other email email' us user He Hne).
Qed.

Lemma find_user_on_registry (us : list UserRec)
  (log : list EmissionRecord) (d : file) (email : string) :
  find_user_by_email (stores_of us log d) email
  = OK (match find (fun u => (usr_email u =? email)%string) us with
        | Some u => user_rec_json u
        | None => JNull
        end).
Proof.
  unfold find_user_by_email, stores_of, load_users, users_json.
  cbn [users_file py_contains lookup String.eqb Ascii.eqb Bool.eqb andb
       py_subscript bind py_iter].
  induction us as [|u us IH]; [reflexivity|].
  cbn [map first_with_email find]. unfold user_rec_json at 1.
  cbn [py_subscript lookup String.eqb Ascii.eqb Bool.eqb andb bind py_eq].
  destruct (usr_email u =? email)%string; [reflexivity | exact IH].
Qed.

(** X4. On a registry of the data model [find_user_by_email] returns the first
    user with the email, and [None] when there is none. *)
Theorem find_user_by_email_first (us : list UserRec)
  (log : list EmissionRecord) (d : file) (email : string) :
  find_user_by_email (stores_of us log d) email
  = OK (match find (fun u => (usr_email u =? email)%string) us with
        | Some u => user_rec_json u
        | None => JNull
        end).
Proof.
  exact (find_user_on_registry us log d email).
Qed.

(** ** Setting the type of a user *)

Lemma py_eq_ids_false (a b : Z) :
  a <> b -> py_eq (JNum (inject_Z a)) (JNum (inject_Z b)) = false.
Proof.
  intro H. rewrite py_eq_ids. apply Z.eqb_neq. assumption.
Qed.

Lemma retype_first_unknown (user_id : Z) (user_type : json) (us : list UserRec) :
  Forall (fun v => usr_id v <> user_id) us ->
  retype_first (JNum (inject_Z user_id)) user_type (map user_rec_json us)
  = OK None.
Proof.
  induction 1 as [|v us Hv _ IH]; [reflexivity|].
  cbn [map retype_first]. unfold user_rec_json at 1.
  cbn [py_subscript lookup String.eqb Ascii.eqb Bool.eqb andb bind].
  rewrite (py_eq_ids_false _ _ Hv), IH. reflexivity.
Qed.

Lemma retype_first_known (t : string) (us1 us2 : list UserRec) (u : UserRec) :
  Forall (fun v => usr_id v <> usr_id u) us1 ->
  retype_first (JNum (inject_Z (usr_id u))) (JStr t)
    (map user_rec_json (us1 ++ u :: us2))
  = OK (Some (user_rec_json (with_type t u),
              map user_rec_json (us1 ++ with_type t u :: us2))).
Proof.
  induction 1 as [|v us1 Hv _ IH].
  - cbn [app map retype_first]. unfold user_rec_json at 1.
    cbn [py_subscript lookup String.eqb Ascii.eqb Bool.eqb andb bind].
    rewrite py_eq_ids, Z.eqb_refl. reflexivity.
  - cbn [app map retype_first]. unfold user_rec_json at 1.
    cbn [py_subscript lookup String.eqb Ascii.eqb Bool.eqb andb bind].
    rewrite (py_eq_ids_false _ _ Hv), IH. reflexivity.
Qed.

Lemma update_user_type_on_registry (us1 us2 : list UserRec) (u : UserRec)
  (log : list EmissionRecord) (d : file) (t : string) :
  Forall (fun v => usr_id v <> usr_id u) us1 ->
  update_user_type (stores_of (us1 ++ u :: us2) log d)
    (JNum (inject_Z (usr_id u))) (JStr t)
  = OK (user_rec_json (with_type t u),
        stores_of (us1 ++ with_type t u :: us2) log d).
Proof.
  intro H. unfold update_user_type, stores_of, load_users, users_json.
  cbn [users_file py_contains lookup String.eqb Ascii.eqb Bool.eqb andb
       py_subscript bind py_iter].
  rewrite (retype_first_known t us1 us2 u H). reflexivity.
Qed.

(** X6. [update_user_type] sets the type of the first user with the id, returns
    that user and changes nothing else in the registry. *)
Theorem update_user_type_first (us1 us2 : list UserRec) (u : UserRec)
  (log : list EmissionRecord) (d : file) (t : string) :
  Forall (fun v => usr_id v <> usr_id u) us1 ->
  update_user_type (stores_of (us1 ++ u :: us2) log d)
    (JNum (inject_Z (usr_id u))) (JStr t)
  = OK (user_rec_json (with_type t u),
        stores_of (us1 ++ with_type t u :: us2) log d).
Proof.
  exact (update_user_type_on_registry us1 us2 u log d t).
Qed.

(** X7. Without a user with the id, [update_user_type] returns [None] and
    saves nothing. *)
Theorem update_user_type_unknown (us : list UserRec)
  (log : list EmissionRecord) (d : file) (user_id : Z) (user_type : json) :
  Forall (fun v => usr_id v <> user_id) us ->
  update_user_type (stores_of us log d) (JNum (inject_Z user_id)) user_type
  = OK (JNull, stores_of us log d).
Proof.
  intro H. unfold update_user_type, stores_of, load_users, users_json.
  cbn [users_file py_contains lookup String.eqb Ascii.eqb Bool.eqb andb
       py_subscript bind py_iter].
  rewrite (retype_first_unknown user_id user_type us H). reflexivity.
Qed.

Lemma fold_Z_max_ge (r : list Z) (n : Z) :
  (n <= fold_left Z.max r n)%Z /\
  forall i, In i r -> (i <= fold_left Z.max r n)%Z.
Proof.
  revert n. induction r as [|x r IH]; intro n; simpl.
  - split; [lia | intros i []].
  - destruct (IH (Z.max n x)) as [H1 H2]. split; [lia|].
    intros i [<-|Hi]; [lia | apply H2, Hi].
Qed.

Lemma max_id_ge (ids : list Z) (i : Z) : In i ids -> (i <= max_id ids)%Z.
Proof.
  destruct ids as [|n r]; [intros []|]. simpl.
  destruct (fold_Z_max_ge r n) as [H1 H2].
  intros [<-|Hi]; [assumption | apply H2, Hi].
Qed.

(** X8. Signing up and then choosing an identity: [add_user] followed by
    [update_user_type] on the id of the user it returned leaves the registry
    with the new user, of the chosen type, at its end. *)
Theorem add_user_then_update_user_type (us : list UserRec)
  (log : list EmissionRecord) (d : file)
  (now email password_hash name t : string) :
  let new := {| usr_id := max_id (map usr_id us) + 1;
                usr_email := email;
                usr_password_hash := password_hash;
                usr_name := name;
                usr_type := t;
                usr_created_at := now |} in
  (x <- add_user (stores_of us log d) now email password_hash name ;;
   id <- py_subscript (fst x) "id" ;;
   update_user_type (snd x) id (JStr t))
  = OK (user_rec_json new, stores_of (us ++ [new]) log d).
Proof.
  intro new. rewrite add_user_on_registry.
  cbn [bind fst snd user_rec_json py_subscript lookup String.eqb Ascii.eqb
       Bool.eqb andb usr_id].
  apply (update_user_type_on_registry us [] (with_type "pending" new) log d t).
  rewrite Forall_forall. intros v Hv. cbn [with_type usr_id new].
  assert (Hle : (usr_id v <= max_id (map usr_id us))%Z).
  { apply max_id_ge. apply in_map. assumption. }
  lia.
Qed.

(** ** Logging an emission *)

Lemma add_emission_inv (fs fs' : stores) (now : string)
  (user_id emission_type amount unit : json) :
  add_emission fs now user_id emission_type amount unit = OK fs' ->
  exists kv es id a,
    load_emissions fs = JObj kv /\
    lookup "emissions" kv = Some (JArr es) /\
    next_id es = OK id /\
    py_float amount = OK a /\
    fs' = save_emissions fs
            (JObj (set_key "emissions"
                     (JArr (es ++ [emission_json id user_id emission_type a
                                     unit now])) kv)).
Proof.
  unfold add_emission. intro H.
  destruct (load_emissions fs) as [| | | | |kv] eqn:Hl; try discriminate H.
  cbn [py_subscript] in H.
  destruct (lookup "emissions" kv) as [emissions|] eqn:Hk; [|discriminate H].
  cbn [bind] in H. bind_inv H. bind_inv H. bind_inv H. bind_inv H.
  destruct emissions as [| | | |es|]; try discriminate E2.
  injection E as <-. injection E2 as <-. injection H as <-.
  exists kv, es, a0, a1. repeat split; assumption.
Qed.

Lemma compute_totals_of (fs : stores) (kv : list (string * json))
  (es : list json) (u : json) :
  load_emissions fs = JObj kv -> lookup "emissions" kv = Some (JArr es) ->
  compute_totals_for_user fs u
  = foldM (accumulate u) es [("co2", 0); ("no2", 0); ("ch4", 0)].
Proof.
  intros Hl Hk. unfold compute_totals_for_user. rewrite Hl.
  cbn [py_subscript]. rewrite Hk. reflexivity.
Qed.

Lemma add_emission_totals_after (fs fs' : stores) (now : string)
  (user_id emission_type amount unit : json) :
  add_emission fs now user_id emission_type amount unit = OK fs' ->
  exists id a,
    py_float amount = OK a /\
    users_file fs' = users_file fs /\
    data_file fs' = data_file fs /\
    forall u,
      compute_totals_for_user fs' u
      = (t <- compute_totals_for_user fs u ;;
         accumulate u t (emission_json id user_id emission_type a unit now)).
Proof.
  intro H. apply add_emission_inv in H.
  destruct H as (kv & es & id & a & Hl & Hk & _ & Ha & ->).
  exists id, a. split; [assumption|]. split; [reflexivity|].
  split; [reflexivity|]. intro u.
  rewrite (compute_totals_of fs kv es u Hl Hk).
  rewrite (compute_totals_of _
             (set_key "emissions"
                (JArr (es ++ [emission_json id user_id emission_type a unit now]))
                kv)
             (es ++ [emission_json id user_id emission_type a unit now]) u);
    [|reflexivity | apply lookup_set_key_same].
  rewrite foldM_app.
  destruct (foldM (accumulate u) es [("co2", 0); ("no2", 0); ("ch4", 0)]);
    cbn [bind foldM]; [|reflexivity].
  destruct (accumulate u a0 _); reflexivity.
Qed.

(** X11. After [add_emission] the totals of every user are the totals before,
    with the new record accumulated last. *)
Theorem add_emission_then_totals (fs fs' : stores) (now : string)
  (user_id emission_type amount unit : json) :
  add_emission fs now user_id emission_type amount unit = OK fs' ->
  exists id a,
    py_float amount = OK a /\
    users_file fs' = users_file fs /\
    data_file fs' = data_file fs /\
    forall u,
      compute_totals_for_user fs' u
      = (t <- compute_totals_for_user fs u ;;
         accumulate u t (emission_json id user_id emission_type a unit now)).
Proof.
  exact (add_emission_totals_after fs fs' now user_id emission_type amount unit).
Qed.

Lemma add_emission_totals_other (fs fs' : stores) (now : string)
  (user_id emission_type amount unit u : json) :
  add_emission fs now user_id emission_type amount unit = OK fs' ->
  py_eq user_id u = false ->
  compute_totals_for_user fs' u = compute_totals_for_user fs u.
Proof.
  intros H Hne. apply add_emission_totals_after in H.
  destruct H as (id & a & _ & _ & _ & H). rewrite H.
  destruct (compute_totals_for_user fs u) as [t|]; cbn [bind]; [|reflexivity].
  unfold accumulate, emission_json.
  cbn [py_subscript lookup String.eqb Ascii.eqb Bool.eqb andb bind].
  rewrite Hne. reflexivity.
Qed.

(** X12. An emission logged for one user leaves the totals of every other user
    as they are. *)
Theorem add_emission_other_user (fs fs' : stores) (now : string)
  (user_id emission_type amount unit u : json) :
  add_emission fs now user_id emission_type amount unit = OK fs' ->
  py_eq user_id u = false ->
  compute_totals_for_user fs' u = compute_totals_for_user fs u.
Proof.
  exact (add_emission_totals_other fs fs' now user_id emission_type amount unit u).
Qed.

Lemma add_to_keys (k : string) (x : Q) (t : totals) :
  map fst (add_to k x t) = map fst t.
Proof.
  induction t as [|[k' v] t IH]; simpl; [reflexivity|].
  destruct (k =? k')%string; simpl; [reflexivity | rewrite IH; reflexivity].
Qed.

Lemma accumulate_keys (u : json) (t t' : totals) (e : json) :
  accumulate u t e = OK t' -> map fst t' = map fst t.
Proof.
  unfold accumulate. intro H. bind_inv H.
  destruct (negb (py_eq a u)); [injection H as <-; reflexivity|].
  bind_inv H. bind_inv H. destruct a1 as [k|].
  - bind_inv H. bind_inv H. bind_inv H. injection H as <-. apply add_to_keys.
  - injection H as <-. reflexivity.
Qed.

Lemma totals_keys_kept (fs : stores) (u : json) (t : totals) :
  compute_totals_for_user fs u = OK t ->
  map fst t = ["co2"; "no2"; "ch4"].
Proof.
  unfold compute_totals_for_user. intro H. bind_inv H. bind_inv H.
  apply (foldM_inv (fun t => map fst t = ["co2"; "no2"; "ch4"])
           (accumulate u) a0) with (a := [("co2", 0); ("no2", 0); ("ch4", 0)]);
    [|reflexivity | assumption].
  intros t0 e t1 _ Ht0 Hacc. rewrite (accumulate_keys u t0 t1 e Hacc).
  assumption.
Qed.

(** X15. Whenever [compute_totals_for_user] returns, the totals have the keys
    co2, no2 and ch4, in this order, whatever the emissions file holds. *)
Theorem totals_keys (fs : stores) (u : json) (t : totals) :
  compute_totals_for_user fs u = OK t ->
  map fst t = ["co2"; "no2"; "ch4"].
Proof.
  exact (totals_keys_kept fs u t).
Qed.




(** X14. An emission of a gas that is not tracked changes no totals. *)
Theorem add_emission_untracked (fs fs' : stores) (now : string)
  (user_id amount unit u : json) (gas : string) :
  add_emission fs now user_id (JStr gas) amount unit = OK fs' ->
  ~ In gas ["co2"; "no2"; "ch4"] ->
  compute_totals_for_user fs' u = compute_totals_for_user fs u.
Proof.
  intros H Hgas. apply add_emission_totals_after in H.
  destruct H as (id & a & _ & _ & _ & H). rewrite H.
  destruct (compute_totals_for_user fs u) as [t|] eqn:Ht; cbn [bind];
    [|reflexivity].
  pose proof (totals_keys_kept fs u t Ht) as Hkeys.
  unfold accumulate, emission_json.
  cbn [py_subscript lookup String.eqb Ascii.eqb Bool.eqb andb bind py_get
       in_totals].
  destruct (negb (py_eq user_id u)); [reflexivity|].
  rewrite Hkeys.
  assert (Hin : in_str_tuple gas ["co2"; "no2"; "ch4"] = false).
  { unfold in_str_tuple. destruct (existsb _ _) eqn:E; [|reflexivity].
    apply existsb_exists in E. destruct E as (g & Hg & Heq).
    apply String.eqb_eq in Heq. subst g. contradiction. }
  rewrite Hin. reflexivity.
Qed.

Lemma record_ids (log : list EmissionRecord) :
  mapM (fun x => py_subscript x "id") (map record_json log)
  = OK (map (fun i => JNum (inject_Z i)) (map rec_id log)).
Proof.
  rewrite map_map. apply mapM_map. reflexivity.
Qed.

(** X9. On a log of the data model [add_emission] returns whenever [float]
    accepts the amount, with the greatest id plus one, and leaves a log of
    the data model. *)
Theorem add_emission_log (us : list UserRec) (log : list EmissionRecord)
  (d : file) (now : string) (user_id : Z) (gas unit : string)
  (amount : json) (a : Q) :
  py_float amount = OK a ->
  add_emission (stores_of us log d) now
    (JNum (inject_Z user_id)) (JStr gas) amount (JStr unit)
  = OK (stores_of us
          (log ++ [ {| rec_id := max_id (map rec_id log) + 1;
                       rec_user_id := user_id;
                       rec_type := gas;
                       rec_amount := a;
                       rec_unit := unit;
                       rec_created_at := now |} ]) d).
Proof.
  intro Ha. unfold add_emission, stores_of, load_emissions, emissions_json.
  cbn [emissions_file py_subscript lookup String.eqb Ascii.eqb Bool.eqb andb
       bind py_iter].
  rewrite (next_id_integers _ _ (record_ids log)). cbn [bind].
  rewrite Ha. cbn [bind py_append].
  unfold save_emissions, mutated.
  cbn [set_key String.eqb Ascii.eqb Bool.eqb andb users_file data_file].
  rewrite map_app. reflexivity.
Qed.

(** ** Stores that are missing or malformed *)

(** X3. With a missing or malformed users file [add_user] starts a registry:
    the user gets the id 1 and the file holds that user alone. *)
Theorem add_user_first (fs : stores) (now email password_hash name : string) :
  users_file fs = Missing \/ users_file fs = Malformed ->
  let user := JObj [("id", JNum 1);
                    ("email", JStr email);
                    ("password_hash", JStr password_hash);
                    ("name", JStr name);
                    ("user_type", JStr "pending");
                    ("created_at", JStr now)] in
  add_user fs now email password_hash name
  = OK (user, save_users fs (JObj [("users", JArr [user])])).
Proof.
  intros H user. unfold add_user, load_users.
  destruct H as [-> | ->]; reflexivity.
Qed.

(** X10. With a missing or malformed emissions file [add_emission] starts a
    log: the record gets the id 1 and the file holds that record alone. *)
Theorem add_emission_first (fs : stores) (now : string)
  (user_id emission_type amount unit : json) (a : Q) :
  emissions_file fs = Missing \/ emissions_file fs = Malformed ->
  py_float amount = OK a ->
  add_emission fs now user_id emission_type amount unit
  = OK (save_emissions fs
          (JObj [("emissions",
                  JArr [emission_json 1 user_id emission_type a unit now])])).
Proof.
  intros H Ha. unfold add_emission, load_emissions.
  destruct H as [-> | ->]; cbn [empty_emissions py_subscript lookup String.eqb
    Ascii.eqb Bool.eqb andb bind py_iter next_id mapM];
    rewrite Ha; reflexivity.
Qed.

(** ** Rounding, reduction and subsidy *)


Lemma round_half_even_mono (n m : Q) :
  n <= m -> (round_half_even n <= round_half_even m)%Z.
Proof.
  intro H. pose proof (Qfloor_resp_le n m H) as Hfl.
  unfold round_half_even.
  destruct (Z.eq_dec (Qfloor n) (Qfloor m)) as [Heq|Hneq].
  - rewrite <- Heq.
    destruct (Qcompare_spec (n - inject_Z (Qfloor n)) (1 # 2)) as [En|En|En];
      destruct (Qcompare_spec (m - inject_Z (Qfloor n)) (1 # 2)) as [Em|Em|Em];
      try (destruct (Z.even (Qfloor n))); try lia; exfalso; lra.
  - assert (Hlt : (Qfloor n + 1 <= Qfloor m)%Z) by lia.
    destruct (Qcompare (n - inject_Z (Qfloor n)) (1 # 2));
      destruct (Qcompare (m - inject_Z (Qfloor m)) (1 # 2));
      try (destruct (Z.even (Qfloor n))); try (destruct (Z.even (Qfloor m)));
      lia.
Qed.

Lemma round1_mono (x y : Q) : x <= y -> round1 x <= round1 y.
Proof.
  intro H. unfold round1.
  assert (Hr : (round_half_even (x * 10) <= round_half_even (y * 10))%Z).
  { apply round_half_even_mono. lra. }
  rewrite Zle_Qle in Hr.
  apply Qmult_le_compat_r; [assumption | discriminate].
Qed.


Lemma clamp_mono (x y : Q) : x <= y -> clamp x 0 40 <= clamp y 0 40.
Proof.
  intro H. unfold clamp.
  destruct (Qltb x 0) eqn:E1; [apply Qltb_lt in E1 | apply Qltb_ge in E1];
    destruct (Qltb y 0) eqn:E2; [apply Qltb_lt in E2 | apply Qltb_ge in E2
                                |apply Qltb_lt in E2 | apply Qltb_ge in E2];
    try (destruct (Qltb 40 x) eqn:E3;
         [apply Qltb_lt in E3 | apply Qltb_ge in E3]);
    try (destruct (Qltb 40 y) eqn:E4;
         [apply Qltb_lt in E4 | apply Qltb_ge in E4]);
    lra.
Qed.

(** The subsidy of an entry of either builder, from its reduction. *)
Lemma produced_subsidy (e : entry) :
  produced e -> subsidy_pct e == clamp (round1 (reduction_pct e)) 0 40.
Proof.
  intros [data h m H He | fs h m H He].
  - rewrite (data_builder_subsidy data h m e H He). apply subsidy_of_clamp.
  - apply emissions_builder_inv in H.
    destruct H as (us & h0 & m0 & _ & _ & -> & -> & Hu).
    assert (Hg : forall g0, (forall x, In x g0 -> In x (h0 ++ m0)) ->
      In e (finalize_group g0) ->
      subsidy_pct e == clamp (round1 (reduction_pct e)) 0 40).
    { intros g0 Hsub Hin.
      assert (Hin0 : forall x, In x g0 ->
        exists u, In u us /\ entry_of_user fs u x).
      { intros x Hx. apply Hu, Hsub, Hx. }
      apply (finalized_entry fs us g0 Hin0) in Hin.
      destruct Hin as (M & e0 & _ & _ & _ & ->). simpl. apply round_clamped. }
    apply in_app_or in He. destruct He as [He|He].
    + apply (Hg h0); [|assumption]. intros x Hx. apply in_or_app. left. assumption.
    + apply (Hg m0); [|assumption]. intros x Hx. apply in_or_app. right. assumption.
Qed.

(** X18. Between two entries of the builders, the one with the higher reduction
    never has the lower subsidy. *)
Theorem subsidy_monotone (e1 e2 : entry) :
  produced e1 -> produced e2 ->
  reduction_pct e1 <= reduction_pct e2 ->
  subsidy_pct e1 <= subsidy_pct e2.
Proof.
  intros P1 P2 H.
  rewrite (produced_subsidy e1 P1), (produced_subsidy e2 P2).
  apply clamp_mono, round1_mono, H.
Qed.


(** ** The manufacturers of the dataset builder *)
















(** X22. The relative computation and the sort of [finalize_group] lose no
    entry, add none, and change neither a name nor an [emissions_kg]. *)
Theorem finalize_group_keeps_entries (g : list entry) :
  Permutation
    (map (fun e => (name e, emissions_kg e)) (finalize_group g))
    (map (fun e => (name e, emissions_kg e)) g).
Proof.
  destruct g as [|e0 rest]; [reflexivity|]. unfold finalize_group.
  destruct (Qle_bool (max_kg_of e0 rest) 0); [reflexivity|].
  rewrite <- sort_by_kg_perm, map_map. reflexivity.
Qed.

(** ** The views *)

Lemma find_email_none (us : list UserRec) (email : string) :
  Forall (fun u => usr_email u <> email) us ->
  find (fun u => (usr_email u =? email)%string) us = None.
Proof.
  induction 1 as [|u us Hu _ IH]; [reflexivity|]. cbn [find].
  apply String.eqb_neq in Hu. rewrite Hu. exact IH.
Qed.

Lemma find_email_app (us : list UserRec) (new : UserRec) :
  Forall (fun u => usr_email u <> usr_email new) us ->
  find (fun u => (usr_email u =? usr_email new)%string) (us ++ [new])
  = Some new.
Proof.
  induction 1 as [|u us Hu _ IH].
  - cbn [app find]. rewrite String.eqb_refl. reflexivity.
  - cbn [app find]. apply String.eqb_neq in Hu. rewrite Hu. exact IH.
Qed.

Lemma signup_adds (flash : flasher) (str_strip str_lower : str_method)
  (us : list UserRec)
  (log : list EmissionRecord) (d : file) (rq : request) (now hashed : string) :
  let email := str_lower (str_strip (or_empty (form_get rq "email"))) in
  let password := or_empty (form_get rq "password") in
  let name := str_strip (or_empty (form_get rq "name")) in
  email <> "" -> password <> "" -> name <> "" ->
  Forall (fun u => usr_email u <> email) us ->
  signup flash str_strip str_lower (stores_of us log d) rq now hashed
  = (OK (Redirect "identify",
         set_key "pending_user_email" (JStr email)
           (set_key "pending_user_id"
              (JNum (inject_Z (max_id (map usr_id us) + 1))) (session rq))),
     stores_of (us ++ [signed_up us now email hashed name]) log d).
Proof.
  intros email password name He Hp Hn Hnew. unfold signup.
  fold email. fold password. fold name.
  apply String.eqb_neq in He, Hp, Hn. rewrite He, Hp, Hn. cbn [orb].
  rewrite find_user_on_registry, (find_email_none us email Hnew).
  cbn [truthy]. rewrite add_user_on_registry. reflexivity.
Qed.

(** X23. [signup] keeps the registry in the data model, adds at most one user,
    of the type "pending", and keeps the emails and the ids distinct. *)
Theorem signup_keeps_registry (flash : flasher)
  (str_strip str_lower : str_method) (us : list UserRec)
  (log : list EmissionRecord) (d : file) (rq : request) (now hashed : string) :
  exists us',
    snd (signup flash str_strip str_lower (stores_of us log d) rq now hashed)
    = stores_of us' log d /\
    (us' = us \/
     us' = us ++ [signed_up us now
                    (str_lower (str_strip (or_empty (form_get rq "email"))))
                    hashed (str_strip (or_empty (form_get rq "name")))]) /\
    (NoDup (map usr_email us) -> NoDup (map usr_email us')) /\
    (NoDup (map usr_id us) -> NoDup (map usr_id us')).
Proof.
  set (email := str_lower (str_strip (or_empty (form_get rq "email")))).
  set (password := or_empty (form_get rq "password")).
  set (name := str_strip (or_empty (form_get rq "name"))).
  assert (Hsame : exists us',
    stores_of us log d = stores_of us' log d /\
    (us' = us \/ us' = us ++ [signed_up us now email hashed name]) /\
    (NoDup (map usr_email us) -> NoDup (map usr_email us')) /\
    (NoDup (map usr_id us) -> NoDup (map usr_id us'))).
  { exists us. repeat split; try (left; reflexivity); intro H; exact H. }
  unfold signup. fold email. fold password. fold name.
  destruct ((email =? "")%string || (password =? "")%string
            || (name =? "")%string); [exact Hsame|].
  rewrite find_user_on_registry.
  destruct (find (fun u => (usr_email u =? email)%string) us) as [u|] eqn:Ef;
    [exact Hsame|].
  cbn [truthy]. rewrite add_user_on_registry. cbn [snd].
  exists (us ++ [signed_up us now email hashed name]).
  split; [reflexivity|]. split; [right; reflexivity|].
  split; intro Hnd; rewrite map_app; cbn [map].
  - apply NoDup_app; [assumption | constructor; [intros [] | constructor]|].
    intros e He [<-|[]]. apply in_map_iff in He. destruct He as (u & Hu & Hin).
    pose proof (find_none _ _ Ef u Hin) as Hf. cbn beta in Hf.
    apply String.eqb_neq in Hf. contradiction.
  - apply NoDup_app; [assumption | constructor; [intros [] | constructor]|].
    intros i Hi [<-|[]]. apply max_id_ge in Hi. cbn [signed_up usr_id] in Hi. lia.
Qed.

(** ** Sessions *)

Lemma lookup_pop_key_other (k k' : string) (s : list (string * json)) :
  k <> k' -> lookup k (pop_key k' s) = lookup k s.
Proof.
  intro Hne. induction s as [|[k0 v] s IH]; simpl; [reflexivity|].
  destruct (k' =? k0)%string eqn:E; simpl.
  - apply String.eqb_eq in E. subst k0.
    apply String.eqb_neq in Hne. rewrite Hne. reflexivity.
  - rewrite IH. reflexivity.
Qed.

Lemma lookup_absent (k : string) (s : list (string * json)) :
  ~ In k (map fst s) -> lookup k s = None.
Proof.
  induction s as [|[k0 v] s IH]; simpl; intro H; [reflexivity|].
  destruct (k =? k0)%string eqn:E.
  - apply String.eqb_eq in E. exfalso. apply H. left. congruence.
  - apply IH. intro Hin. apply H. right. assumption.
Qed.

Lemma lookup_pop_key_same (k : string) (s : list (string * json)) :
  NoDup (map fst s) -> lookup k (pop_key k s) = None.
Proof.
  induction s as [|[k0 v] s IH]; simpl; intro H; [reflexivity|].
  inversion H as [|? ? Hk0 Hs]; subst.
  destruct (k =? k0)%string eqn:E.
  - apply String.eqb_eq in E. subst k0. apply lookup_absent. assumption.
  - simpl. rewrite E. apply IH. assumption.
Qed.

Lemma pop_key_keys (k x : string) (s : list (string * json)) :
  In x (map fst (pop_key k s)) -> In x (map fst s).
Proof.
  induction s as [|[k0 v] s IH]; simpl; [intros []|].
  destruct (k =? k0)%string; simpl.
  - intro H. right. assumption.
  - intros [H|H]; [left; assumption | right; apply IH; assumption].
Qed.

Lemma pop_key_NoDup (k : string) (s : list (string * json)) :
  NoDup (map fst s) -> NoDup (map fst (pop_key k s)).
Proof.
  induction s as [|[k0 v] s IH]; simpl; intro H; [constructor|].
  inversion H as [|? ? Hk0 Hs]; subst.
  destruct (k =? k0)%string; simpl; [assumption|].
  constructor; [|apply IH; assumption].
  intro Hin. apply Hk0. apply (pop_key_keys k k0 s Hin).
Qed.

Lemma set_key_keys (k x : string) (v : json) (s : list (string * json)) :
  In x (map fst (set_key k v s)) -> x = k \/ In x (map fst s).
Proof.
  induction s as [|[k0 w] s IH]; simpl.
  - intros [H|[]]. left. congruence.
  - destruct (k =? k0)%string; simpl.
    + intros [H|H]; right; [left | right]; assumption.
    + intros [H|H]; [right; left; assumption|].
      destruct (IH H) as [Hx|Hx]; [left | right; right]; assumption.
Qed.

Lemma set_key_NoDup (k : string) (v : json) (s : list (string * json)) :
  NoDup (map fst s) -> NoDup (map fst (set_key k v s)).
Proof.
  induction s as [|[k0 w] s IH]; simpl; intro H.
  - constructor; [intros [] | constructor].
  - inversion H as [|? ? Hk0 Hs]; subst.
    destruct (k =? k0)%string eqn:E; simpl.
    + constructor; assumption.
    + constructor; [|apply IH; assumption].
      intro Hin. destruct (set_key_keys k k0 v s Hin) as [Hx|Hx].
      * apply String.eqb_neq in E. congruence.
      * contradiction.
Qed.

Ltac session_lookup :=
  repeat first
    [ rewrite lookup_set_key_same
    | rewrite lookup_pop_key_other by discriminate
    | rewrite lookup_set_key_other by discriminate ].

(** X24. Signing up with three filled fields and an email nobody has, then
    posting the identity [t] in the session signup left: the registry ends
    with the new user, of the type [t], and the session holds the id, the
    email and the type of that user and no pending signup. *)
Theorem signup_then_set_identity (flash : flasher)
  (str_strip str_lower : str_method) (us : list UserRec)
  (log : list EmissionRecord) (d : file) (rq : request)
  (now hashed t : string) (form2 : list (string * string)) :
  let email := str_lower (str_strip (or_empty (form_get rq "email"))) in
  let name := str_strip (or_empty (form_get rq "name")) in
  let id := JNum (inject_Z (max_id (map usr_id us) + 1)) in
  email <> "" -> or_empty (form_get rq "password") <> "" -> name <> "" ->
  Forall (fun u => usr_email u <> email) us ->
  NoDup (map fst (session rq)) ->
  lookup "user_type" form2 = Some t ->
  exists s1 fs1 s2,
    signup flash str_strip str_lower (stores_of us log d) rq now hashed
    = (OK (Redirect "identify", s1), fs1) /\
    set_identity fs1 {| method := "POST"; form := form2; session := s1 |}
    = (OK (Redirect "dashboard", s2),
       stores_of (us ++ [with_type t (signed_up us now email hashed name)])
         log d) /\
    lookup "user_id" s2 = Some id /\
    lookup "user_email" s2 = Some (JStr email) /\
    lookup "user_type" s2 = Some (JStr t) /\
    lookup "pending_user_id" s2 = None /\
    lookup "pending_user_email" s2 = None.
Proof.
  intros email name id He Hp Hn Hnew Hnd Ht.
  eexists. eexists. eexists.
  split; [apply signup_adds; assumption|].
  fold email. fold name. fold id.
  set (s1 := set_key "pending_user_email" (JStr email)
               (set_key "pending_user_id" id (session rq))).
  set (new := signed_up us now email hashed name).
  assert (Hs1 : NoDup (map fst s1)) by (unfold s1; repeat apply set_key_NoDup;
                                         assumption).
  assert (Hup : update_user_type (stores_of (us ++ [new]) log d) id (JStr t)
                = OK (user_rec_json (with_type t new),
                      stores_of (us ++ [with_type t new]) log d)).
  { apply (update_user_type_on_registry us [] new log d t).
    rewrite Forall_forall. intros v Hv. cbn [new signed_up usr_id].
    assert (Hle : (usr_id v <= max_id (map usr_id us))%Z).
    { apply max_id_ge. apply in_map. assumption. }
    lia. }
  split.
  - unfold set_identity, form_get, session_get. cbn [form session].
    rewrite Ht. unfold s1 at 1. session_lookup. rewrite Hup.
    unfold s1 at 1. session_lookup. reflexivity.
  - repeat split.
    + session_lookup. reflexivity.
    + session_lookup. reflexivity.
    + session_lookup. reflexivity.
    + session_lookup. apply lookup_pop_key_same.
      repeat apply set_key_NoDup. assumption.
    + apply lookup_pop_key_same. apply pop_key_NoDup.
      repeat apply set_key_NoDup. assumption.
Qed.

(** X25. [set_identity] in a session without a pending signup raises [KeyError]
    and leaves the registry as it is. *)
Theorem set_identity_without_signup (us : list UserRec)
  (log : list EmissionRecord) (d : file) (rq : request) :
  lookup "pending_user_id" (session rq) = None ->
  lookup "pending_user_email" (session rq) = None ->
  set_identity (stores_of us log d) rq = (Raise KeyError, stores_of us log d).
Proof.
  intros Hid Hem. unfold set_identity, session_get. rewrite Hid.
  assert (Hup : update_user_type (stores_of us log d) JNull
                  (form_get rq "user_type")
                = OK (JNull, stores_of us log d)).
  { unfold update_user_type, stores_of, load_users, users_json.
    cbn [users_file py_contains lookup String.eqb Ascii.eqb Bool.eqb andb
         py_subscript bind py_iter].
    assert (Hr : retype_first JNull (form_get rq "user_type")
                   (map user_rec_json us) = OK None).
    { induction us as [|u us IH]; [reflexivity|].
      cbn [map retype_first]. unfold user_rec_json at 1.
      cbn [py_subscript lookup String.eqb Ascii.eqb Bool.eqb andb bind py_eq].
      rewrite IH. reflexivity. }
    rewrite Hr. reflexivity. }
  rewrite Hup. session_lookup. rewrite Hem. reflexivity.
Qed.

(** X28. [add_emission_route] changes the totals of no user but the one of the
    session, and of nobody without a session; it never touches the
    registry. *)
Theorem add_emission_route_own_totals (fs : stores) (rq : request)
  (now : string) (u : json) :
  has_key (session rq) "user_id" = false \/
  py_eq (session_get (session rq) "user_id") u = false ->
  compute_totals_for_user (snd (add_emission_route fs rq now)) u
  = compute_totals_for_user fs u /\
  users_file (snd (add_emission_route fs rq now)) = users_file fs.
Proof.
  intro H. unfold add_emission_route.
  destruct (has_key (session rq) "user_id") eqn:Hk; cbn [negb];
    [|split; reflexivity].
  destruct H as [H|H]; [discriminate H|].
  destruct (add_emission fs now (session_get (session rq) "user_id")
              (form_get rq "emission_type") (form_get rq "amount")
              (form_get rq "unit")) as [fs'|e] eqn:Ea; cbn [snd];
    [|split; reflexivity].
  split.
  - apply (add_emission_totals_other fs fs' now _ _ _ _ u Ea H).
  - apply add_emission_totals_after in Ea.
    destruct Ea as (id & a & _ & Hu & _). assumption.
Qed.

(** X26. Whoever [login] sends to the dashboard is the first user of the
    registry with the email of the form, stripped and in lower case;
    [check_password_hash] accepted the password against the hash of that
    user, and the session holds the id and the type of that user. *)
Theorem login_authenticates (check_password_hash : password_checker)
  (flash : flasher) (str_strip str_lower : str_method) (us : list UserRec)
  (log : list EmissionRecord) (d : file) (rq : request)
  (s : list (string * json)) :
  login check_password_hash flash str_strip str_lower (stores_of us log d) rq
  = OK (Redirect "dashboard", s) ->
  exists raw u,
    form_get rq "email" = JStr raw /\
    find (fun u => (usr_email u =? str_lower (str_strip raw))%string) us
    = Some u /\
    check_password_hash (JStr (usr_password_hash u)) (form_get rq "password")
    = OK true /\
    lookup "user_id" s = Some (JNum (inject_Z (usr_id u))) /\
    lookup "user_email" s = Some (JStr (usr_email u)) /\
    lookup "user_type" s = Some (JStr (usr_type u)).
Proof.
  unfold login. intro H.
  destruct (method rq =? "POST")%string; [|discriminate H].
  destruct (form_get rq "email") as [| | |raw| |] eqn:Ef; try discriminate H.
  rewrite find_user_on_registry in H. cbn [bind] in H.
  destruct (find (fun u => (usr_email u =? str_lower (str_strip raw))%string) us)
    as [u|] eqn:Eu.
  - unfold user_rec_json in H at 1. cbn [truthy] in H.
    unfold user_rec_json in H at 1.
    cbn [py_subscript lookup String.eqb Ascii.eqb Bool.eqb andb bind] in H.
    destruct (check_password_hash (JStr (usr_password_hash u))
                (form_get rq "password")) as [[|]|] eqn:Ec;
      cbn [bind] in H; try discriminate H.
    unfold user_rec_json in H.
    cbn [py_subscript lookup String.eqb Ascii.eqb Bool.eqb andb bind] in H.
    injection H as <-. exists raw, u.
    repeat split; try assumption; session_lookup; reflexivity.
  - cbn [truthy bind] in H. discriminate H.
Qed.

(** X27. After a signup that added a user, [login] with the same email field and
    a password [check_password_hash] accepts against the stored hash sends
    to the dashboard, in a session of the new user. *)
Theorem login_after_signup (check_password_hash : password_checker)
  (flash : flasher) (str_strip str_lower : str_method) (us : list UserRec)
  (log : list EmissionRecord) (d : file) (rq rq2 : request)
  (now hashed raw : string) :
  let email := str_lower (str_strip raw) in
  let name := str_strip (or_empty (form_get rq "name")) in
  form_get rq "email" = JStr raw ->
  email <> "" -> or_empty (form_get rq "password") <> "" -> name <> "" ->
  Forall (fun u => usr_email u <> email) us ->
  method rq2 = "POST" ->
  form_get rq2 "email" = form_get rq "email" ->
  check_password_hash (JStr hashed) (form_get rq2 "password") = OK true ->
  exists s,
    login check_password_hash flash str_strip str_lower
      (snd (signup flash str_strip str_lower (stores_of us log d) rq now hashed))
      rq2
    = OK (Redirect "dashboard", s) /\
    lookup "user_id" s = Some (JNum (inject_Z (max_id (map usr_id us) + 1))) /\
    lookup "user_type" s = Some (JStr "pending").
Proof.
  intros email name Ef He Hp Hn Hnew Hm Hf Hc.
  assert (Hemail : str_lower (str_strip (or_empty (form_get rq "email"))) = email).
  { rewrite Ef. reflexivity. }
  rewrite (signup_adds flash str_strip str_lower us log d rq now hashed);
    rewrite ?Hemail; try assumption.
  cbn [snd]. fold name.
  set (new := signed_up us now email hashed name).
  unfold login. rewrite Hm. cbn [String.eqb Ascii.eqb Bool.eqb andb].
  rewrite Hf, Ef.
  change (str_lower (str_strip raw)) with email.
  rewrite find_user_on_registry.
  assert (Hfind : find (fun u => (usr_email u =? email)%string) (us ++ [new])
                  = Some new).
  { apply (find_email_app us new). exact Hnew. }
  rewrite Hfind. cbn [bind]. unfold user_rec_json.
  cbn [truthy py_subscript lookup String.eqb Ascii.eqb Bool.eqb andb bind new
       signed_up usr_password_hash usr_id usr_email usr_type].
  rewrite Hc. cbn [bind].
  eexists. split; [reflexivity|]. split; session_lookup; reflexivity.
Qed.

(** ** The items of a dataset *)

Lemma foldM_collect (l acc : list json) :
  foldM (fun acc item => OK (acc ++ [item])) l acc = OK (acc ++ l).
Proof.
  revert acc. induction l as [|x l IH]; intro acc; cbn [foldM bind].
  - rewrite app_nil_r. reflexivity.
  - rewrite IH, <- app_assoc. reflexivity.
Qed.

(** X29. On a dataset of the data model [_iter_items] yields every item
    once, lever after lever, sub-lever after sub-lever, in the order of the
    file; without the key [levers] it yields nothing. *)
Theorem iter_items_in_order (hospital : option string) (ls : option Levers) :
  _iter_items (dataset_json hospital ls) = OK (map item_json (items_of ls)) /\
  _iter_items (dataset_json hospital None) = OK [].
Proof.
  unfold _iter_items. rewrite !for_iter_items_dataset, !foldM_collect.
  split; reflexivity.
Qed.

End Aggregation.

(** ** The properties on the examples *)

Lemma example_leaderboards :
  build_leaderboards_from_emissions no_float example_stores
  = OK ([small_entry; big_entry], []).
Proof. reflexivity. Qed.


(** The user "Big" is listed under its name, the user whose name is the
    empty string under its email. *)
Lemma entry_name_or_email_witness :
  build_leaderboards_from_emissions no_float example_stores
  = OK ([small_entry; big_entry], []) /\
  name big_entry = JStr "Big" /\
  name small_entry = JStr "small@example.org" /\
  (exists us u uid t n em,
    all_users example_stores = OK us /\ In u us /\
    py_subscript u "id" = OK uid /\
    compute_totals_for_user no_float example_stores uid = OK t /\
    emissions_kg big_entry = total_kg_of t /\
    py_get u "name" JNull = OK n /\
    py_get u "email" JNull = OK em /\
    name big_entry = (if truthy n then n else em) /\
    (forall s, n = JStr s -> s <> "" -> name big_entry = JStr s) /\
    (n = JNull \/ n = JStr "" -> name big_entry = em) /\
    (em <> JNull -> name big_entry <> JNull)) /\
  (exists us u uid t n em,
    all_users example_stores = OK us /\ In u us /\
    py_subscript u "id" = OK uid /\
    compute_totals_for_user no_float example_stores uid = OK t /\
    emissions_kg small_entry = total_kg_of t /\
    py_get u "name" JNull = OK n /\
    py_get u "email" JNull = OK em /\
    name small_entry = (if truthy n then n else em) /\
    (forall s, n = JStr s -> s <> "" -> name small_entry = JStr s) /\
    (n = JNull \/ n = JStr "" -> name small_entry = em) /\
    (em <> JNull -> name small_entry <> JNull)).
Proof.
  split; [reflexivity|]. split; [reflexivity|]. split; [reflexivity|].
  split.
  - apply (entry_name_or_email no_float example_stores
             [small_entry; big_entry] [] big_entry);
      [reflexivity | right; left; reflexivity].
  - apply (entry_name_or_email no_float example_stores
             [small_entry; big_entry] [] small_entry);
      [reflexivity | left; reflexivity].
Defined.




(** An item with negative tonnes gives the hospital a negative
    [emissions_kg]. *)

(** ** The stores and the views on the examples *)

Lemma add_user_appends_witness :
  add_user (stores_of example_users example_log Missing)
    "2024-02-01T00:00:00" "new@example.org" "hash-3" "New"
  = OK (user_rec_json example_new,
        stores_of (example_users ++ [example_new]) example_log Missing) /\
  exists us id,
    all_users (stores_of example_users example_log Missing) = OK us /\
    all_users (stores_of (example_users ++ [example_new]) example_log Missing)
    = OK (us ++ [user_rec_json example_new]) /\
    py_subscript (user_rec_json example_new) "id" = OK (JNum id) /\
    py_subscript (user_rec_json example_new) "user_type" = OK (JStr "pending").
Proof.
  split; [reflexivity|].
  destruct (add_user_appends (stores_of example_users example_log Missing)
              (stores_of (example_users ++ [example_new]) example_log Missing)
              "2024-02-01T00:00:00" "new@example.org" "hash-3" "New"
              (user_rec_json example_new) eq_refl)
    as (us & id & H1 & H2 & H3 & _).
  exists us, id. repeat split; try assumption; rewrite H3; reflexivity.
Defined.

Lemma find_after_add_user_witness :
  find_user_by_email (stores_of example_users example_log Missing)
    "new@example.org" = OK JNull /\
  find_user_by_email
    (stores_of (example_users ++ [example_new]) example_log Missing)
    "new@example.org" = OK (user_rec_json example_new).
Proof.
  split; [reflexivity|].
  apply (proj1 (find_after_add_user
                  (stores_of example_users example_log Missing)
                  (stores_of (example_users ++ [example_new]) example_log Missing)
                  "2024-02-01T00:00:00" "new@example.org" "hash-3" "New"
                  (user_rec_json example_new) eq_refl)).
  reflexivity.
Defined.

Lemma update_user_type_first_witness :
  update_user_type
    (stores_of (example_users ++ example_new :: []) example_log Missing)
    (JNum 3) (JStr "manufacturer")
  = OK (user_rec_json (with_type "manufacturer" example_new),
        stores_of (example_users ++ with_type "manufacturer" example_new :: [])
          example_log Missing).
Proof.
  apply (update_user_type_first example_users [] example_new example_log
           Missing "manufacturer").
  repeat constructor; discriminate.
Defined.

Lemma update_user_type_unknown_witness :
  update_user_type (stores_of example_users example_log Missing)
    (JNum 7) (JStr "hospital")
  = OK (JNull, stores_of example_users example_log Missing).
Proof.
  apply (update_user_type_unknown example_users example_log Missing 7
           (JStr "hospital")).
  repeat constructor; discriminate.
Defined.

Lemma add_emission_log_witness :
  py_float five_float (JStr "5") = OK 5 /\
  add_emission five_float (stores_of example_users example_log Missing)
    "2024-02-01T00:00:00" (JNum 1) (JStr "co2") (JStr "5") (JStr "kg")
  = OK (stores_of example_users (example_log ++ [example_record]) Missing).
Proof.
  split; [reflexivity|].
  apply (add_emission_log five_float example_users example_log Missing
           "2024-02-01T00:00:00" 1 "co2" "kg" (JStr "5") 5).
  reflexivity.
Defined.

Lemma add_user_first_witness :
  add_user
    {| users_file := Malformed; emissions_file := Missing; data_file := Missing |}
    "2024-02-01T00:00:00" "new@example.org" "hash-3" "New"
  = OK (JObj [("id", JNum 1);
              ("email", JStr "new@example.org");
              ("password_hash", JStr "hash-3");
              ("name", JStr "New");
              ("user_type", JStr "pending");
              ("created_at", JStr "2024-02-01T00:00:00")],
        {| users_file :=
             Parsed (JObj [("users",
                            JArr [JObj [("id", JNum 1);
                                        ("email", JStr "new@example.org");
                                        ("password_hash", JStr "hash-3");
                                        ("name", JStr "New");
                                        ("user_type", JStr "pending");
                                        ("created_at",
                                         JStr "2024-02-01T00:00:00")]])]);
           emissions_file := Missing;
           data_file := Missing |}).
Proof.
  apply (add_user_first
           {| users_file := Malformed; emissions_file := Missing;
              data_file := Missing |}
           "2024-02-01T00:00:00" "new@example.org" "hash-3" "New").
  right. reflexivity.
Defined.

Lemma add_emission_first_witness :
  add_emission no_float
    {| users_file := Missing; emissions_file := Missing; data_file := Missing |}
    "2024-02-01T00:00:00" (JNum 1) (JStr "co2") (JNum 5) (JStr "kg")
  = OK {| users_file := Missing;
          emissions_file :=
            Parsed (JObj [("emissions",
                           JArr [emission_json 1 (JNum 1) (JStr "co2") 5
                                   (JStr "kg") "2024-02-01T00:00:00"])]);
          data_file := Missing |}.
Proof.
  apply (add_emission_first no_float
           {| users_file := Missing; emissions_file := Missing;
              data_file := Missing |}
           "2024-02-01T00:00:00" (JNum 1) (JStr "co2") (JNum 5) (JStr "kg") 5).
  - left. reflexivity.
  - reflexivity.
Defined.

Lemma add_emission_then_totals_witness :
  exists id a,
    py_float no_float (JNum 5) = OK a /\
    forall u,
      compute_totals_for_user no_float
        (stores_of example_users (example_log ++ [example_record]) Missing) u
      = (t <- compute_totals_for_user no_float
                (stores_of example_users example_log Missing) u ;;
         accumulate no_float u t
           (emission_json id (JNum 1) (JStr "co2") a (JStr "kg")
              "2024-02-01T00:00:00")).
Proof.
  destruct (add_emission_then_totals no_float
              (stores_of example_users example_log Missing)
              (stores_of example_users (example_log ++ [example_record]) Missing)
              "2024-02-01T00:00:00" (JNum 1) (JStr "co2") (JNum 5) (JStr "kg")
              eq_refl)
    as (id & a & Ha & _ & _ & H).
  exists id, a. split; assumption.
Defined.

Lemma add_emission_other_user_witness :
  compute_totals_for_user no_float
    (stores_of example_users (example_log ++ [example_record]) Missing) (JNum 2)
  = compute_totals_for_user no_float
      (stores_of example_users example_log Missing) (JNum 2).
Proof.
  apply (add_emission_other_user no_float
           (stores_of example_users example_log Missing)
           (stores_of example_users (example_log ++ [example_record]) Missing)
           "2024-02-01T00:00:00" (JNum 1) (JStr "co2") (JNum 5) (JStr "kg")
           (JNum 2));
    reflexivity.
Defined.


Lemma add_emission_untracked_witness :
  compute_totals_for_user no_float
    (stores_of example_users (example_log ++ [example_so2]) Missing) (JNum 1)
  = compute_totals_for_user no_float
      (stores_of example_users example_log Missing) (JNum 1).
Proof.
  apply (add_emission_untracked no_float
           (stores_of example_users example_log Missing)
           (stores_of example_users (example_log ++ [example_so2]) Missing)
           "" (JNum 1) (JNum 10) (JStr "kg") (JNum 1) "so2").
  - reflexivity.
  - intros [H|[H|[H|[]]]]; discriminate H.
Defined.

Lemma totals_keys_witness :
  map fst [("co2", 1005); ("no2", 0); ("ch4", 500 # 1000)]
  = ["co2"; "no2"; "ch4"].
Proof.
  apply (totals_keys no_float (stores_of example_users example_log Missing)
           (JNum 1) [("co2", 1005); ("no2", 0); ("ch4", 500 # 1000)]).
  reflexivity.
Defined.

Lemma subsidy_monotone_witness :
  reduction_pct big_entry <= reduction_pct small_entry /\
  subsidy_pct big_entry <= subsidy_pct small_entry.
Proof.
  assert (H : reduction_pct big_entry <= reduction_pct small_entry).
  { vm_compute. discriminate. }
  split; [exact H|].
  apply (subsidy_monotone no_float big_entry small_entry); [| |exact H].
  - apply (produced_from_emissions no_float big_entry example_stores
             [small_entry; big_entry] []);
      [reflexivity | right; left; reflexivity].
  - apply (produced_from_emissions no_float small_entry example_stores
             [small_entry; big_entry] []);
      [reflexivity | left; reflexivity].
Defined.


Lemma signup_then_set_identity_witness :
  exists s1 fs1 s2,
    signup flask_flash strip lower
      (stores_of example_users example_log Missing)
      example_signup "2024-02-01T00:00:00" "hash-3"
    = (OK (Redirect "identify", s1), fs1) /\
    set_identity fs1
      {| method := "POST"; form := [("user_type", "manufacturer")];
         session := s1 |}
    = (OK (Redirect "dashboard", s2),
       stores_of (example_users ++ [with_type "manufacturer" example_new])
         example_log Missing) /\
    lookup "user_id" s2 = Some (JNum 3) /\
    lookup "user_email" s2 = Some (JStr "new@example.org") /\
    lookup "user_type" s2 = Some (JStr "manufacturer") /\
    lookup "pending_user_id" s2 = None /\
    lookup "pending_user_email" s2 = None.
Proof.
  apply (signup_then_set_identity flask_flash strip lower example_users
           example_log Missing example_signup "2024-02-01T00:00:00" "hash-3" "manufacturer"
           [("user_type", "manufacturer")]).
  - discriminate.
  - discriminate.
  - discriminate.
  - repeat constructor; discriminate.
  - constructor.
  - reflexivity.
Defined.

Lemma set_identity_without_signup_witness :
  set_identity (stores_of example_users example_log Missing)
    {| method := "POST"; form := [("user_type", "hospital")]; session := [] |}
  = (Raise KeyError, stores_of example_users example_log Missing).
Proof.
  apply (set_identity_without_signup example_users example_log Missing
           {| method := "POST"; form := [("user_type", "hospital")];
              session := [] |});
    reflexivity.
Defined.

Lemma login_authenticates_witness :
  exists raw u,
    form_get example_login "email" = JStr raw /\
    find (fun u => (usr_email u =? lower (strip raw))%string)
      (example_users ++ [example_new]) = Some u /\
    accept_all (JStr (usr_password_hash u)) (form_get example_login "password")
    = OK true /\
    lookup "user_id"
      [("user_id", JNum 3); ("user_email", JStr "new@example.org");
       ("user_type", JStr "pending")]
    = Some (JNum (inject_Z (usr_id u))) /\
    lookup "user_email"
      [("user_id", JNum 3); ("user_email", JStr "new@example.org");
       ("user_type", JStr "pending")]
    = Some (JStr (usr_email u)) /\
    lookup "user_type"
      [("user_id", JNum 3); ("user_email", JStr "new@example.org");
       ("user_type", JStr "pending")]
    = Some (JStr (usr_type u)).
Proof.
  apply (login_authenticates accept_all flask_flash strip lower
           (example_users ++ [example_new]) example_log Missing example_login).
  reflexivity.
Defined.

Lemma login_after_signup_witness :
  exists s,
    login accept_all flask_flash strip lower
      (snd (signup flask_flash strip lower
              (stores_of example_users example_log Missing)
              example_signup "2024-02-01T00:00:00" "hash-3"))
      example_login
    = OK (Redirect "dashboard", s) /\
    lookup "user_id" s = Some (JNum 3) /\
    lookup "user_type" s = Some (JStr "pending").
Proof.
  apply (login_after_signup accept_all flask_flash strip lower example_users
           example_log Missing example_signup example_login
           "2024-02-01T00:00:00" "hash-3" " New@Example.org ").
  - reflexivity.
  - discriminate.
  - discriminate.
  - discriminate.
  - repeat constructor; discriminate.
  - reflexivity.
  - reflexivity.
  - reflexivity.
Defined.

Lemma add_emission_route_own_totals_witness :
  compute_totals_for_user five_float
    (snd (add_emission_route five_float
            (stores_of example_users example_log Missing)
            {| method := "POST";
               form := [("emission_type", "co2"); ("amount", "5");
                        ("unit", "kg")];
               session := [("user_id", JNum 1)] |}
            "2024-02-01T00:00:00"))
    (JNum 2)
  = compute_totals_for_user five_float
      (stores_of example_users example_log Missing) (JNum 2) /\
  users_file
    (snd (add_emission_route five_float
            (stores_of example_users example_log Missing)
            {| method := "POST";
               form := [("emission_type", "co2"); ("amount", "5");
                        ("unit", "kg")];
               session := [("user_id", JNum 1)] |}
            "2024-02-01T00:00:00"))
  = users_file (stores_of example_users example_log Missing).
Proof.
  apply (add_emission_route_own_totals five_float
           (stores_of example_users example_log Missing)
           {| method := "POST";
              form := [("emission_type", "co2"); ("amount", "5");
                       ("unit", "kg")];
              session := [("user_id", JNum 1)] |}
           "2024-02-01T00:00:00" (JNum 2)).
  right. reflexivity.
Defined.

(** ** The order of the floats *)

Lemma SFcompare_cases (a b : spec_float) :
  SFleb a b = true \/ SFltb b a = true \/ a = S754_nan \/ b = S754_nan.
Proof.
  unfold SFleb, SFltb.
  destruct a as [sa|sa| |sa ma ea], b as [sb|sb| |sb mb eb]; auto;
    try destruct sa; try destruct sb; cbn; auto.
  - change (Pos.compare_cont Eq) with Pos.compare.
    rewrite (Z.compare_antisym ea eb), (Pos.compare_antisym ma mb).
    destruct (ea ?= eb)%Z; cbn; auto.
    destruct (ma ?= mb)%positive; cbn; auto.
  - change (Pos.compare_cont Eq) with Pos.compare.
    rewrite (Z.compare_antisym ea eb), (Pos.compare_antisym ma mb).
    destruct (ea ?= eb)%Z; cbn; auto.
    destruct (ma ?= mb)%positive; cbn; auto.
Qed.

Lemma SFltb_SFleb (a b : spec_float) : SFltb a b = true -> SFleb a b = true.
Proof.
  unfold SFltb, SFleb. destruct (SFcompare a b) as [[| |]|]; congruence.
Qed.

Lemma SFleb_trans (a b c : spec_float) :
  SFleb a b = true -> SFleb b c = true -> SFleb a c = true.
Proof.
  unfold SFleb.
  destruct a as [sa|sa| |sa ma ea], b as [sb|sb| |sb mb eb],
           c as [sc|sc| |sc mc ec];
    try destruct sa; try destruct sb; try destruct sc; cbn;
    try congruence;
    change (Pos.compare_cont Eq) with Pos.compare;
    destruct (Z.compare_spec ea eb), (Z.compare_spec eb ec),
             (Z.compare_spec ea ec);
    try congruence; try lia; subst;
    destruct (Pos.compare_spec ma mb), (Pos.compare_spec mb mc),
             (Pos.compare_spec ma mc);
    cbn; try congruence; try lia.
Qed.

Lemma SFleb_not_nan (a b : spec_float) :
  SFleb a b = true -> a <> S754_nan /\ b <> S754_nan.
Proof.
  unfold SFleb. destruct a, b; cbn; split; congruence.
Qed.

Lemma SFeqb_refl (a : spec_float) : a <> S754_nan -> SFeqb a a = true.
Proof.
  unfold SFeqb. destruct a as [s|s| |s m e]; cbn; try congruence.
  - destruct s; reflexivity.
  - intros _. rewrite Z.compare_refl, Pos.compare_cont_refl.
    destruct s; reflexivity.
Qed.

Lemma is_nan_spec (x : float) : is_nan x = false <-> Prim2SF x <> S754_nan.
Proof.
  unfold is_nan. rewrite eqb_spec, negb_false_iff. split.
  - intros H E. rewrite E in H. discriminate H.
  - apply SFeqb_refl.
Qed.

Lemma ltb_leb (x y : float) : (x <? y)%float = true -> (x <=? y)%float = true.
Proof. rewrite ltb_spec, leb_spec. apply SFltb_SFleb. Qed.

Lemma leb_total (x y : float) :
  is_nan x = false -> is_nan y = false ->
  (y <? x)%float = false -> (x <=? y)%float = true.
Proof.
  rewrite !is_nan_spec, ltb_spec, leb_spec. intros Hx Hy H.
  destruct (SFcompare_cases (Prim2SF x) (Prim2SF y)) as [L|[L|[L|L]]];
    congruence.
Qed.

Lemma leb_trans (x y z : float) :
  (x <=? y)%float = true -> (y <=? z)%float = true -> (x <=? z)%float = true.
Proof. rewrite !leb_spec. apply SFleb_trans. Qed.

Lemma leb_not_nan (x y : float) :
  (x <=? y)%float = true -> is_nan x = false /\ is_nan y = false.
Proof. rewrite leb_spec, !is_nan_spec. apply SFleb_not_nan. Qed.

Lemma leb_refl (x : float) : is_nan x = false -> (x <=? x)%float = true.
Proof.
  intro H. apply leb_total; try assumption.
  rewrite ltb_spec. apply is_nan_spec in H. unfold SFltb.
  pose proof (SFeqb_refl _ H) as E. unfold SFeqb in E.
  destruct (SFcompare (Prim2SF x) (Prim2SF x)) as [[| |]|]; congruence.
Qed.

Lemma Prim2SF_zero : Prim2SF 0 = S754_zero false.
Proof. reflexivity. Qed.

(** A float that is neither NaN nor at most 0 is greater than 0. *)
Lemma not_leb_0 (x : float) :
  (x <=? 0)%float = false -> is_nan x = false -> (0 <? x)%float = true.
Proof.
  rewrite leb_spec, ltb_spec, is_nan_spec, Prim2SF_zero.
  unfold SFleb, SFltb. destruct (Prim2SF x) as [s|s| |s m e]; cbn;
    try destruct s; congruence.
Qed.

Lemma ltb_0_not_leb (x : float) :
  (0 <? x)%float = true -> (x <=? 0)%float = false.
Proof.
  rewrite leb_spec, ltb_spec, Prim2SF_zero.
  unfold SFleb, SFltb. destruct (Prim2SF x) as [s|s| |s m e]; cbn;
    try destruct s; congruence.
Qed.


(** ** Sorting by a float key *)

Lemma b64_insert_by_kg_perm (x : B64.entry) (l : list B64.entry) :
  Permutation (x :: l) (B64.insert_by_kg x l).
Proof.
  induction l as [|y l IH]; simpl; [reflexivity|].
  destruct (B64.emissions_kg y <? B64.emissions_kg x)%float; [|reflexivity].
  rewrite perm_swap. apply perm_skip. assumption.
Qed.

Lemma b64_sort_by_kg_perm (l : list B64.entry) :
  Permutation l (B64.sort_by_kg l).
Proof.
  induction l as [|x l IH]; simpl; [reflexivity|].
  rewrite <- b64_insert_by_kg_perm. apply perm_skip. assumption.
Qed.

Lemma b64_sort_by_kg_In (e : B64.entry) (l : list B64.entry) :
  In e (B64.sort_by_kg l) <-> In e l.
Proof.
  split; apply Permutation_in; [symmetry|]; apply b64_sort_by_kg_perm.
Qed.

Lemma b64_insert_by_kg_ascending (x : B64.entry) (l : list B64.entry) :
  is_nan (B64.emissions_kg x) = false ->
  Forall (fun e => is_nan (B64.emissions_kg e) = false) l ->
  B64.ascending l -> B64.ascending (B64.insert_by_kg x l).
Proof.
  unfold B64.ascending. intros Hx Hl H.
  induction H as [|y l Hs IH Hy]; simpl.
  - constructor; constructor.
  - inversion Hl as [|? ? Hny Hl']; subst.
    destruct (B64.emissions_kg y <? B64.emissions_kg x)%float eqn:E.
    + constructor; [apply IH; assumption|].
      rewrite Forall_forall. intros z Hz.
      apply (Permutation_in _ (Permutation_sym (b64_insert_by_kg_perm x l)))
        in Hz.
      destruct Hz as [<-|Hz]; [apply ltb_leb; assumption|].
      rewrite Forall_forall in Hy. apply Hy. assumption.
    + assert (Hxy : (B64.emissions_kg x <=? B64.emissions_kg y)%float = true)
        by (apply leb_total; assumption).
      constructor; [constructor; assumption|].
      constructor; [assumption|].
      rewrite Forall_forall in Hy |- *. intros z Hz.
      apply leb_trans with (B64.emissions_kg y); [assumption | apply Hy, Hz].
Qed.

(** Without a NaN among the keys the sort returns an ascending list. *)
Lemma b64_sort_by_kg_ascending (l : list B64.entry) :
  Forall (fun e => is_nan (B64.emissions_kg e) = false) l ->
  B64.ascending (B64.sort_by_kg l).
Proof.
  induction 1 as [|x l Hx Hl IH]; simpl.
  - constructor.
  - apply b64_insert_by_kg_ascending; [assumption| |assumption].
    rewrite Forall_forall in Hl |- *. intros e He. apply Hl.
    apply (proj1 (b64_sort_by_kg_In e l)). assumption.
Qed.

(** A list with a NaN key and another entry is ascending in no order. *)
Lemma b64_nan_never_ascending (l : list B64.entry) (e : B64.entry) :
  In e l -> is_nan (B64.emissions_kg e) = true -> (2 <= List.length l)%nat ->
  ~ B64.ascending l.
Proof.
  unfold B64.ascending. intros He Hn Hlen Hs.
  assert (Hbad : forall x, (B64.emissions_kg e <=? B64.emissions_kg x)%float <> true
                        /\ (B64.emissions_kg x <=? B64.emissions_kg e)%float <> true).
  { intro x. split; intro L; apply leb_not_nan in L; destruct L; congruence. }
  induction Hs as [|y l Hs IH Hy].
  - destruct He.
  - destruct He as [->|He].
    + destruct l as [|z l]; [simpl in Hlen; lia|].
      inversion Hy as [|? ? Hz _]; subst. apply (proj1 (Hbad z)). assumption.
    + rewrite Forall_forall in Hy. apply (proj2 (Hbad y)). apply Hy. assumption.
Qed.

(** ** The loop over the users, on floats *)

(** The tactic of the section above, for the proofs below. *)
Ltac bind_inv H :=
  let a := fresh "a" in
  let E := fresh "E" in
  apply bind_OK in H; destruct H as (a & E & H).

Section Binary64.

Variable py : B64.builtins.

Lemma b64_user_body_inv (fs : B64.stores) (h m h' m' : list B64.entry)
  (u : B64.value) :
  B64.user_body py fs (h, m) u = OK (h', m') ->
  (h' = h /\ m' = m) \/
  exists en, B64.entry_of_user py fs u en /\
    ((h' = h ++ [en] /\ m' = m) \/ (h' = h /\ m' = m ++ [en])).
Proof.
  unfold B64.user_body. intro H.
  bind_inv H. bind_inv H. bind_inv H. bind_inv H.
  destruct (B64.total_kg_of a2 <=? 0)%float eqn:Et.
  - injection H as <- <-. left. split; reflexivity.
  - bind_inv H. bind_inv H.
    match type of H with
    | (if (?r =? _)%string then _ else _) = _ =>
        destruct (r =? "hospital")%string;
        [|destruct (r =? "manufacturer")%string]
    end; injection H as <- <-.
    + right. eexists. split; [|left; split; reflexivity].
      exists a1, a2, a3, a4. repeat split; assumption.
    + right. eexists. split; [|right; split; reflexivity].
      exists a1, a2, a3, a4. repeat split; assumption.
    + left. split; reflexivity.
Qed.

Lemma b64_user_loop_entries (fs : B64.stores) (us : list B64.value) :
  forall h0 m0 h m,
    foldM (B64.user_body py fs) us (h0, m0) = OK (h, m) ->
    forall e, In e (h ++ m) ->
      In e (h0 ++ m0) \/ exists u, In u us /\ B64.entry_of_user py fs u e.
Proof.
  induction us as [|u us IH]; intros h0 m0 h m H e He; simpl in H.
  - injection H as <- <-. left. assumption.
  - bind_inv H. destruct a as [h1 m1].
    destruct (IH _ _ _ _ H e He) as [Hin|(u' & Hu' & Hen)].
    + apply b64_user_body_inv in E.
      destruct E as [[-> ->]|(en & Hen & [[-> ->]|[-> ->]])].
      * left. assumption.
      * rewrite !in_app_iff in Hin. simpl in Hin.
        destruct Hin as [[Hin|[<-|[]]]|Hin].
        -- left. apply in_or_app. left. assumption.
        -- right. exists u. split; [left; reflexivity | assumption].
        -- left. apply in_or_app. right. assumption.
      * rewrite !in_app_iff in Hin. simpl in Hin.
        destruct Hin as [Hin|[Hin|[<-|[]]]].
        -- left. apply in_or_app. left. assumption.
        -- left. apply in_or_app. right. assumption.
        -- right. exists u. split; [left; reflexivity | assumption].
    + right. exists u'. split; [right; assumption | assumption].
Qed.

(** What the builder returns, in terms of the two groups of the loop. *)
Lemma b64_emissions_builder_inv (fs : B64.stores) (h m : list B64.entry) :
  B64.build_leaderboards_from_emissions py fs = OK (h, m) ->
  exists us h0 m0,
    B64.all_users fs = OK us /\
    h = B64.finalize_group h0 /\ m = B64.finalize_group m0 /\
    forall e, In e (h0 ++ m0) ->
      exists u, In u us /\ B64.entry_of_user py fs u e.
Proof.
  unfold B64.build_leaderboards_from_emissions, B64.all_users. intro H.
  bind_inv H. bind_inv H. bind_inv H. destruct a1 as [h0 m0].
  injection H as <- <-. exists a0, h0, m0. rewrite E. simpl.
  repeat split; try assumption.
  intros e He.
  destruct (b64_user_loop_entries fs a0 [] [] h0 m0 E1 e He) as [[]|Hu].
  assumption.
Qed.

(** ** Groups, on floats *)

Lemma b64_relative_kg (M : float) (e : B64.entry) :
  B64.emissions_kg (B64.relative M e) = B64.emissions_kg e.
Proof. reflexivity. Qed.

(** What [max] returns is the key of one of the entries. *)
Lemma b64_fold_max_attained (rest : list B64.entry) (m0 : float) :
  fold_left (fun m e => B64.py_max m (B64.emissions_kg e)) rest m0 = m0 \/
  exists e, In e rest /\
    B64.emissions_kg e
    = fold_left (fun m e => B64.py_max m (B64.emissions_kg e)) rest m0.
Proof.
  revert m0. induction rest as [|x rest IH]; intro m0; simpl.
  - left. reflexivity.
  - destruct (IH (B64.py_max m0 (B64.emissions_kg x))) as [H|(e & He & H)].
    + rewrite H. unfold B64.py_max.
      destruct (m0 <? B64.emissions_kg x)%float; [|left; reflexivity].
      right. exists x. split; [left; reflexivity | reflexivity].
    + right. exists e. split; [right; assumption | assumption].
Qed.

(** Without a NaN it is at least every key. *)
Lemma b64_fold_max_ge (rest : list B64.entry) (m0 : float) :
  is_nan m0 = false ->
  Forall (fun e => is_nan (B64.emissions_kg e) = false) rest ->
  (m0 <=? fold_left (fun m e => B64.py_max m (B64.emissions_kg e)) rest m0)%float
  = true /\
  forall e, In e rest ->
    (B64.emissions_kg e
     <=? fold_left (fun m e => B64.py_max m (B64.emissions_kg e)) rest m0)%float
    = true.
Proof.
  intros H0 Hr. revert m0 H0.
  induction Hr as [|x rest Hx Hr IH]; intros m0 H0; simpl.
  - split; [apply leb_refl; assumption | intros e []].
  - unfold B64.py_max at 2 4.
    destruct (m0 <? B64.emissions_kg x)%float eqn:E.
    + destruct (IH (B64.emissions_kg x) Hx) as [H1 H2].
      split; [apply leb_trans with (B64.emissions_kg x);
              [apply ltb_leb; assumption | assumption]|].
      intros e [<-|He]; [assumption | apply H2, He].
    + destruct (IH m0 H0) as [H1 H2].
      split; [assumption|].
      intros e [<-|He]; [|apply H2, He].
      apply leb_trans with m0; [|assumption].
      apply leb_total; assumption.
Qed.




(** A group of the loop goes through the relative computation: no entry of
    it is at most 0, so neither is what [max] returns. *)
Lemma b64_finalize_group_loop (g0 : list B64.entry) :
  Forall (fun e => (B64.emissions_kg e <=? 0)%float = false) g0 ->
  g0 = [] /\ B64.finalize_group g0 = [] \/
  exists e0 rest, g0 = e0 :: rest /\
    (B64.max_kg_of e0 rest <=? 0)%float = false /\
    (exists e, In e g0 /\ B64.emissions_kg e = B64.max_kg_of e0 rest) /\
    B64.finalize_group g0
    = B64.sort_by_kg (map (B64.relative (B64.max_kg_of e0 rest)) g0).
Proof.
  intro Hpos. destruct g0 as [|e0 rest]; [left; split; reflexivity|].
  right. exists e0, rest. split; [reflexivity|].
  assert (Hatt : exists e, In e (e0 :: rest) /\
                   B64.emissions_kg e = B64.max_kg_of e0 rest).
  { unfold B64.max_kg_of.
    destruct (b64_fold_max_attained rest (B64.emissions_kg e0))
      as [H|(e & He & H)].
    - exists e0. split; [left; reflexivity | rewrite H; reflexivity].
    - exists e. split; [right; assumption | assumption]. }
  assert (HM : (B64.max_kg_of e0 rest <=? 0)%float = false).
  { destruct Hatt as (e & He & <-). rewrite Forall_forall in Hpos.
    apply Hpos. assumption. }
  split; [assumption|]. split; [assumption|].
  unfold B64.finalize_group. rewrite HM. reflexivity.
Qed.

Lemma b64_entry_of_user_kg (fs : B64.stores) (u : B64.value) (e : B64.entry) :
  B64.entry_of_user py fs u e -> (B64.emissions_kg e <=? 0)%float = false.
Proof.
  intros (uid & t & n & em & _ & _ & Hpos & _ & _ & ->). exact Hpos.
Qed.

End Binary64.

(** ** The sign of a rounded result *)

Lemma shr_1_nonneg (mrs : shr_record) :
  (0 <= shr_m mrs)%Z -> (0 <= shr_m (shr_1 mrs))%Z.
Proof.
  destruct mrs as [m r s]. cbn [shr_m]. intro H. unfold shr_1.
  destruct m as [|[p|p|]|p]; cbn; lia.
Qed.

Lemma iter_shr_1_nonneg (p : positive) (mrs : shr_record) :
  (0 <= shr_m mrs)%Z -> (0 <= shr_m (iter_pos shr_1 p mrs))%Z.
Proof.
  revert mrs. induction p as [p IH|p IH|]; intros mrs H; cbn [iter_pos].
  - apply IH, IH, shr_1_nonneg, H.
  - apply IH, IH, H.
  - apply shr_1_nonneg, H.
Qed.

Lemma shr_fexp_nonneg (m e : Z) (l : location) :
  (0 <= m)%Z -> (0 <= shr_m (fst (shr_fexp prec emax m e l)))%Z.
Proof.
  intro H. unfold shr_fexp, shr.
  assert (H0 : (0 <= shr_m (shr_record_of_loc m l))%Z).
  { destruct l as [|[| |]]; exact H. }
  destruct (fexp prec emax (Zdigits2 m + e) - e)%Z; cbn [fst];
    [exact H0 | apply iter_shr_1_nonneg, H0 | exact H0].
Qed.

Lemma round_nearest_even_nonneg (m : Z) (l : location) :
  (0 <= m)%Z -> (0 <= round_nearest_even m l)%Z.
Proof.
  intro H. unfold round_nearest_even.
  destruct l as [|[| |]]; try destruct (Z.even m); lia.
Qed.

Lemma binary_round_aux_signed (s : bool) (m e : Z) (l : location) :
  (0 <= m)%Z -> B64.signed s (binary_round_aux prec emax s m e l).
Proof.
  intro H. unfold binary_round_aux.
  pose proof (shr_fexp_nonneg m e l H) as H1.
  destruct (shr_fexp prec emax m e l) as [mrs' e']. cbn [fst] in H1.
  pose proof (shr_fexp_nonneg
                (round_nearest_even (shr_m mrs') (loc_of_shr_record mrs'))
                e' loc_Exact (round_nearest_even_nonneg _ _ H1)) as H2.
  destruct (shr_fexp prec emax _ e' loc_Exact) as [mrs'' e'']. cbn [fst] in H2.
  destruct (shr_m mrs'') as [|p|p]; [reflexivity| |lia].
  destruct (e'' <=? emax - prec)%Z; reflexivity.
Qed.

Lemma binary_round_signed (s : bool) (m : positive) (e : Z) :
  B64.signed s (binary_round prec emax s m e).
Proof.
  unfold binary_round.
  destruct (shl_align m e (fexp prec emax (Z.pos (digits2_pos m) + e)))
    as [mz ez].
  apply binary_round_aux_signed. lia.
Qed.

Lemma nonnegative_spec (x : float) :
  B64.nonnegative x <->
  match Prim2SF x with
  | S754_zero _ | S754_infinity false | S754_finite false _ _ => True
  | _ => False
  end.
Proof.
  unfold B64.nonnegative. rewrite leb_spec, Prim2SF_zero. unfold SFleb.
  destruct (Prim2SF x) as [s|s| |s m e]; cbn; try destruct s;
    split; intro H; try reflexivity; try exact I;
    try discriminate H; try destruct H.
Qed.


(** A sum of floats that are at least 0 is at least 0, overflow to the
    infinity included. *)
Lemma add_nonnegative (x y : float) :
  B64.nonnegative x -> B64.nonnegative y -> B64.nonnegative (x + y).
Proof.
  rewrite !nonnegative_spec, add_spec. unfold SF64add, SFadd.
  destruct (Prim2SF x) as [sx|sx| |sx mx ex], (Prim2SF y) as [sy|sy| |sy my ey];
    try destruct sx; try destruct sy; intros Hx Hy;
    try destruct Hx; try destruct Hy; try exact I.
  cbn [cond_Zopp].
  match goal with
  | |- context [binary_normalize _ _ (Z.pos ?a + Z.pos ?b) ?e _] =>
      change (Z.pos a + Z.pos b)%Z with (Z.pos (a + b));
      pose proof (binary_round_signed false (a + b) e) as S
  end.
  cbn [binary_normalize].
  destruct (binary_round prec emax false _ _) as [s|s| |s m e];
    cbn in S; subst; exact I || destruct S.
Qed.

(** The product of a float that is at least 0 and a finite float above 0 is
    at least 0. *)
Lemma mul_nonnegative (x c : float) (mc : positive) (ec : Z) :
  Prim2SF c = S754_finite false mc ec ->
  B64.nonnegative x -> B64.nonnegative (x * c).
Proof.
  intro Hc. rewrite !nonnegative_spec, mul_spec, Hc. unfold SF64mul, SFmul.
  destruct (Prim2SF x) as [sx|sx| |sx mx ex]; try destruct sx; intro Hx;
    try destruct Hx; try exact I.
  cbn [xorb].
  pose proof (binary_round_aux_signed false (Z.pos (mx * mc)) (ex + ec)
                loc_Exact ltac:(lia)) as S.
  destruct (binary_round_aux prec emax false _ _ _) as [s|s| |s m e];
    cbn in S; subst; exact I || destruct S.
Qed.

Lemma Prim2SF_1000 : Prim2SF 1000 = S754_finite false 8796093022208000 (-43).
Proof. reflexivity. Qed.


(** ** Finite floats above 0 *)











(** ** The dataset builder, on floats *)

Section Binary64Dataset.

Variable py : B64.builtins.

Lemma b64_data_builder_inv (data : B64.value) (h m : list B64.entry) :
  B64.build_leaderboards_from_data py data = OK (h, m) ->
  (B64.truthy data = false /\ h = [] /\ m = []) \/
  (B64.truthy data = true /\
   exists hospital_name total_tonnes total_cost_current total_cost_alt
          manufacturers,
     B64.for_iter_items (B64.hospital_body py) data (0, 0, 0)%float
       = OK (total_tonnes, total_cost_current, total_cost_alt) /\
     B64.for_iter_items (B64.manufacturer_body py) data [] = OK manufacturers /\
     h = [ {| B64.name := hospital_name;
              B64.emissions_kg := (total_tonnes * 1000)%float;
              B64.reduction_pct :=
                B64.cost_reduction_pct total_cost_current total_cost_alt;
              B64.subsidy_pct :=
                B64.subsidy_of
                  (B64.cost_reduction_pct total_cost_current total_cost_alt);
              B64.icon := medal |} ] /\
     m = B64.sort_by_kg (map B64.manufacturer_entry manufacturers)).
Proof.
  unfold B64.build_leaderboards_from_data. intro H.
  destruct (B64.truthy data).
  - right. split; [reflexivity|]. simpl in H.
    bind_inv H. bind_inv H. bind_inv H. destruct a1 as [[tt tc] ta].
    bind_inv H. injection H as <- <-.
    exists a0, tt, tc, ta, a1. repeat split; assumption.
  - left. simpl in H. injection H as <- <-. repeat split.
Qed.

(** A loop over [_iter_items(data)] that ends has run its body on the items
    the generator yields, in their order. *)
Lemma b64_items_loop {A : Type} (body : A -> B64.value -> result A)
  (its : list B64.value) :
  forall (acc r : A) (l : list B64.value),
    foldM body its acc = OK r ->
    foldM (fun acc item => OK (acc ++ [item])) its l = OK (l ++ its).
Proof.
  induction its as [|x its IH]; intros acc r l H; cbn [foldM bind] in *.
  - rewrite app_nil_r. reflexivity.
  - bind_inv H. rewrite (IH _ _ (l ++ [x]) H), <- app_assoc. reflexivity.
Qed.

Lemma b64_subs_loop {A : Type} (body : A -> B64.value -> result A)
  (ss : list B64.value) :
  forall (acc r : A) (l : list B64.value),
    foldM (fun acc sub =>
      items <- B64.py_get sub "items" (B64.VObj []) ;;
      its <- B64.py_values items ;;
      foldM body its acc) ss acc = OK r ->
    exists items,
      foldM (fun acc sub =>
        items <- B64.py_get sub "items" (B64.VObj []) ;;
        its <- B64.py_values items ;;
        foldM (fun acc item => OK (acc ++ [item])) its acc) ss l
      = OK (l ++ items) /\
      foldM body items acc = OK r.
Proof.
  induction ss as [|s ss IH]; intros acc r l H; cbn [foldM] in *.
  - exists []. rewrite app_nil_r. split; [reflexivity | exact H].
  - bind_inv H. bind_inv E. bind_inv E.
    destruct (IH _ _ (l ++ a1) H) as (items & H1 & H2).
    exists (a1 ++ items). rewrite E0. cbn [bind]. rewrite E1. cbn [bind].
    rewrite (b64_items_loop body a1 acc a l E). cbn [bind].
    rewrite H1, <- app_assoc. split; [reflexivity|].
    rewrite foldM_app, E. exact H2.
Qed.

Lemma b64_levers_loop {A : Type} (body : A -> B64.value -> result A)
  (ls : list B64.value) :
  forall (acc r : A) (l : list B64.value),
    foldM (fun acc lever =>
      subs <- B64.py_get lever "sub_levers" (B64.VObj []) ;;
      ss <- B64.py_values subs ;;
      foldM (fun acc sub =>
        items <- B64.py_get sub "items" (B64.VObj []) ;;
        its <- B64.py_values items ;;
        foldM body its acc) ss acc) ls acc = OK r ->
    exists items,
      foldM (fun acc lever =>
        subs <- B64.py_get lever "sub_levers" (B64.VObj []) ;;
        ss <- B64.py_values subs ;;
        foldM (fun acc sub =>
          items <- B64.py_get sub "items" (B64.VObj []) ;;
          its <- B64.py_values items ;;
          foldM (fun acc item => OK (acc ++ [item])) its acc) ss acc) ls l
      = OK (l ++ items) /\
      foldM body items acc = OK r.
Proof.
  induction ls as [|v ls IH]; intros acc r l H; cbn [foldM] in *.
  - exists []. rewrite app_nil_r. split; [reflexivity | exact H].
  - bind_inv H. bind_inv E. bind_inv E.
    destruct (b64_subs_loop body a1 acc a l E) as (items1 & H1 & H2).
    destruct (IH _ _ (l ++ items1) H) as (items & H3 & H4).
    exists (items1 ++ items). rewrite E0. cbn [bind]. rewrite E1. cbn [bind].
    rewrite H1. cbn [bind]. rewrite H3, <- app_assoc.
    split; [reflexivity|]. rewrite foldM_app, H2. exact H4.
Qed.

Lemma b64_for_iter_items_loop {A : Type} (body : A -> B64.value -> result A)
  (data : B64.value) (acc r : A) :
  B64.for_iter_items body data acc = OK r ->
  exists items,
    B64._iter_items data = OK items /\ foldM body items acc = OK r.
Proof.
  unfold B64._iter_items, B64.for_iter_items. intro H.
  bind_inv H. bind_inv H.
  destruct (b64_levers_loop body a0 acc r [] H) as (items & H1 & H2).
  exists items. rewrite E. cbn [bind]. rewrite E0. cbn [bind].
  split; [exact H1 | exact H2].
Qed.

(** ** Sums of tonnes that are at least 0 *)

Lemma zero_nonnegative : B64.nonnegative 0.
Proof. reflexivity. Qed.

Lemma b64_hospital_loop_nonnegative (items : list B64.value)
  (tt tc ta : float) :
  (forall it t c a, In it items -> B64.item_amounts py it = OK (t, c, a) ->
     B64.nonnegative t) ->
  foldM (B64.hospital_body py) items (0, 0, 0)%float = OK (tt, tc, ta) ->
  B64.nonnegative tt.
Proof.
  intros Hit H.
  apply (foldM_inv (fun acc : float * float * float =>
                      B64.nonnegative (fst (fst acc)))
           (B64.hospital_body py) items) with (a := (0, 0, 0)%float)
                                             (r := (tt, tc, ta)) in H;
    [exact H| |exact zero_nonnegative].
  intros [[t0 c0] a0] x [[t1 c1] a1] Hx P Hb. unfold B64.hospital_body in Hb.
  bind_inv Hb. destruct a as [[t c] a]. injection Hb as <- <- <-. cbn [fst] in *.
  apply add_nonnegative; [assumption | apply (Hit x t c a); assumption].
Qed.

Lemma b64_add_supplier_nonnegative (k : B64.value) (t c a : float)
  (ms : list (B64.value * B64.agg)) :
  B64.nonnegative t ->
  Forall (fun p => B64.nonnegative (B64.tonnes (snd p))) ms ->
  Forall (fun p => B64.nonnegative (B64.tonnes (snd p)))
    (B64.add_supplier k t c a ms).
Proof.
  intros Ht H. induction H as [|[k0 g] ms Hg Hms IH]; cbn [B64.add_supplier].
  - constructor; [|constructor]. cbn [snd B64.tonnes].
    apply add_nonnegative; [exact zero_nonnegative | assumption].
  - destruct (B64.same k0 k).
    + constructor; [|assumption]. cbn [snd B64.tonnes] in *.
      apply add_nonnegative; assumption.
    + constructor; assumption.
Qed.

Lemma b64_manufacturer_loop_nonnegative (items : list B64.value)
  (ms : list (B64.value * B64.agg)) :
  (forall it t c a, In it items -> B64.item_amounts py it = OK (t, c, a) ->
     B64.nonnegative t) ->
  foldM (B64.manufacturer_body py) items [] = OK ms ->
  Forall (fun p => B64.nonnegative (B64.tonnes (snd p))) ms.
Proof.
  intros Hit H.
  apply (foldM_inv (fun ms => Forall (fun p => B64.nonnegative (B64.tonnes (snd p))) ms)
           (B64.manufacturer_body py) items) with (a := []) (r := ms) in H;
    [exact H| |constructor].
  intros ms0 x ms1 Hx P Hb. unfold B64.manufacturer_body in Hb.
  bind_inv Hb. destruct a as [[t c] a]. bind_inv Hb. bind_inv Hb. bind_inv Hb.
  assert (Ht : B64.nonnegative t) by (apply (Hit x t c a); assumption).
  apply (foldM_inv (fun ms => Forall (fun p => B64.nonnegative (B64.tonnes (snd p))) ms)
           _ a2) with (a := ms0) (r := ms1) in Hb; [exact Hb| |exact P].
  intros ms2 s ms3 _ P2 Hs. destruct (B64.hashable s); [|discriminate Hs].
  injection Hs as <-. apply b64_add_supplier_nonnegative; assumption.
Qed.

(** The entries of the dataset builder when no item has tonnes below 0. *)
Lemma b64_dataset_nonnegative (data : B64.value) (h m : list B64.entry)
  (items : list B64.value) (e : B64.entry) :
  B64.build_leaderboards_from_data py data = OK (h, m) ->
  B64._iter_items data = OK items ->
  (forall it t c a, In it items -> B64.item_amounts py it = OK (t, c, a) ->
     B64.nonnegative t) ->
  In e (h ++ m) -> B64.nonnegative (B64.emissions_kg e).
Proof.
  intros H Hitems Hit He. apply b64_data_builder_inv in H.
  destruct H as [(_ & -> & ->)|(_ & n & tt & tc & ta & ms & Hh & Hm & -> & ->)].
  - destruct He.
  - apply b64_for_iter_items_loop in Hh, Hm.
    destruct Hh as (items1 & E1 & Hh). destruct Hm as (items2 & E2 & Hm).
    rewrite Hitems in E1, E2. injection E1 as <-. injection E2 as <-.
    apply in_app_or in He. destruct He as [[<-|[]]|He].
    + cbn [B64.emissions_kg]. apply (mul_nonnegative _ _ _ _ Prim2SF_1000).
      apply (b64_hospital_loop_nonnegative items tt tc ta Hit Hh).
    + apply (proj1 (b64_sort_by_kg_In _ _)) in He. apply in_map_iff in He.
      destruct He as (p & <- & Hp). cbn [B64.manufacturer_entry B64.emissions_kg].
      apply (mul_nonnegative _ _ _ _ Prim2SF_1000).
      pose proof (b64_manufacturer_loop_nonnegative items ms Hit Hm) as F.
      rewrite Forall_forall in F. apply F. assumption.
Qed.

End Binary64Dataset.

(** ** The leaderboards, on floats *)

Section Binary64Leaderboards.

Variable py : B64.builtins.

(** An entry of a returned group is an entry of the loop with the reduction
    and the subsidy of lines 306-308, or the group is empty. *)
Lemma b64_finalized (fs : B64.stores) (us : list B64.value)
  (g0 : list B64.entry) :
  (forall e, In e g0 -> exists u, In u us /\ B64.entry_of_user py fs u e) ->
  B64.finalize_group g0 = [] \/
  exists M,
    (M <=? 0)%float = false /\
    (exists e, In e g0 /\ B64.emissions_kg e = M) /\
    (Forall (fun e => is_nan (B64.emissions_kg e) = false) g0 ->
     forall e, In e g0 -> (B64.emissions_kg e <=? M)%float = true) /\
    B64.finalize_group g0 = B64.sort_by_kg (map (B64.relative M) g0).
Proof.
  intro Hg.
  assert (Hpos : Forall (fun e => (B64.emissions_kg e <=? 0)%float = false) g0).
  { rewrite Forall_forall. intros e He. destruct (Hg e He) as (u & _ & Hu).
    apply (b64_entry_of_user_kg py fs u e Hu). }
  destruct (b64_finalize_group_loop g0 Hpos)
    as [[_ Hnil]|(e0 & rest & -> & HM & Hatt & Hfin)]; [left; assumption|].
  right. exists (B64.max_kg_of e0 rest).
  split; [assumption|]. split; [assumption|]. split; [|assumption].
  intros Hnan e He. inversion Hnan as [|? ? H0 Hr]; subst.
  destruct (b64_fold_max_ge rest (B64.emissions_kg e0) H0 Hr) as [H1 H2].
  destruct He as [<-|He]; [exact H1 | apply H2, He].
Qed.

Lemma b64_returned_group (fs : B64.stores) (h m g : list B64.entry) :
  B64.build_leaderboards_from_emissions py fs = OK (h, m) ->
  g = h \/ g = m ->
  exists us g0,
    g = B64.finalize_group g0 /\
    forall e, In e g0 -> exists u, In u us /\ B64.entry_of_user py fs u e.
Proof.
  intros H Hg. apply b64_emissions_builder_inv in H.
  destruct H as (us & h0 & m0 & _ & -> & -> & Hu).
  exists us. destruct Hg as [-> | ->]; [exists h0 | exists m0];
    (split; [reflexivity|]); intros x Hx; apply Hu, in_or_app;
    [left | right]; assumption.
Qed.

(** C9. Every list either builder returns is in ascending order of
    [emissions_kg] when no [emissions_kg] in it is NaN. *)
Theorem leaderboards_ascending (l : list B64.entry) :
  B64.returned py l ->
  (forall e, In e l -> is_nan (B64.emissions_kg e) = false) ->
  B64.ascending l.
Proof.
  intros [data h m H Hl | fs h m H Hl] Hnan.
  - apply b64_data_builder_inv in H.
    destruct H as [(_ & -> & ->)|(_ & n & tt & tc & ta & ms & _ & _ & -> & ->)].
    + destruct Hl as [-> | ->]; constructor.
    + destruct Hl as [-> | ->].
      * constructor; constructor.
      * apply b64_sort_by_kg_ascending. rewrite Forall_forall. intros e He.
        apply Hnan. apply (proj2 (b64_sort_by_kg_In _ _)). assumption.
  - destruct (b64_returned_group fs h m l H Hl) as (us & g0 & -> & Hg0).
    destruct (b64_finalized fs us g0 Hg0) as [Hnil|(M & _ & _ & _ & Hfin)].
    + rewrite Hnil. constructor.
    + rewrite Hfin in Hnan |- *.
      apply b64_sort_by_kg_ascending. rewrite Forall_forall. intros e He.
      apply Hnan. apply (proj2 (b64_sort_by_kg_In _ _)). assumption.
Qed.

(** C8. Every entry of the logged-emissions builder has an [emissions_kg]
    that is not at most 0: it is greater than 0 unless it is NaN.  Every
    entry of the dataset builder has an [emissions_kg] of at least 0 when
    no item of the dataset has [annual_co2e_tonnes] below 0 or NaN. *)
Theorem emissions_nonnegative :
  (forall fs h m e,
     B64.build_leaderboards_from_emissions py fs = OK (h, m) ->
     In e (h ++ m) ->
     (B64.emissions_kg e <=? 0)%float = false /\
     (is_nan (B64.emissions_kg e) = false ->
      (0 <? B64.emissions_kg e)%float = true)) /\
  (forall data h m items e,
     B64.build_leaderboards_from_data py data = OK (h, m) ->
     B64._iter_items data = OK items ->
     (forall it t c a, In it items ->
        B64.item_amounts py it = OK (t, c, a) -> (0 <=? t)%float = true) ->
     In e (h ++ m) ->
     (0 <=? B64.emissions_kg e)%float = true).
Proof.
  split.
  - intros fs h m e H He.
    assert (Hkg : (B64.emissions_kg e <=? 0)%float = false).
    { assert (Hg : exists g, (g = h \/ g = m) /\ In e g).
      { apply in_app_or in He. destruct He as [He|He];
          [exists h | exists m]; auto. }
      destruct Hg as (g & Hg & Hin).
      destruct (b64_returned_group fs h m g H Hg) as (us & g0 & -> & Hg0).
      destruct (b64_finalized fs us g0 Hg0) as [Hnil|(M & _ & _ & _ & Hfin)].
      - rewrite Hnil in Hin. destruct Hin.
      - rewrite Hfin in Hin. apply (proj1 (b64_sort_by_kg_In _ _)) in Hin.
        apply in_map_iff in Hin. destruct Hin as (e0 & <- & He0).
        rewrite b64_relative_kg. destruct (Hg0 e0 He0) as (u & _ & Hu).
        apply (b64_entry_of_user_kg py fs u e0 Hu). }
    split; [assumption | apply not_leb_0; assumption].
  - intros data h m items e H Hitems Hit He.
    apply (b64_dataset_nonnegative py data h m items e H Hitems Hit He).
Qed.


End Binary64Leaderboards.

(** ** The leaderboards on the float examples *)

Lemma b64_example_leaderboards :
  B64.build_leaderboards_from_emissions B64.ascii_builtins B64.example_stores
  = OK ([B64.small_entry; B64.big_entry], []).
Proof. reflexivity. Qed.


Lemma leaderboards_ascending_witness :
  B64.returned B64.ascii_builtins [B64.small_entry; B64.big_entry] /\
  (forall e, In e [B64.small_entry; B64.big_entry] ->
     is_nan (B64.emissions_kg e) = false) /\
  B64.ascending [B64.small_entry; B64.big_entry].
Proof.
  assert (R : B64.returned B64.ascii_builtins [B64.small_entry; B64.big_entry]).
  { apply (B64.returned_from_emissions B64.ascii_builtins _ B64.example_stores
             [B64.small_entry; B64.big_entry] []);
      [reflexivity | left; reflexivity]. }
  assert (N : forall e, In e [B64.small_entry; B64.big_entry] ->
                is_nan (B64.emissions_kg e) = false).
  { intros e [<-|[<-|[]]]; reflexivity. }
  split; [exact R|]. split; [exact N|].
  apply (leaderboards_ascending B64.ascii_builtins _ R N).
Defined.

(** The users with 3 kg, NaN and 1 kg are returned in that order, and no
    order of the three entries is ascending. *)
Lemma nan_leaderboard_unsorted :
  B64.build_leaderboards_from_emissions B64.ascii_builtins B64.nan_stores
  = OK ([B64.nan_three; B64.nan_nan; B64.nan_one], []) /\
  ~ B64.ascending [B64.nan_three; B64.nan_nan; B64.nan_one] /\
  forall l, Permutation [B64.nan_three; B64.nan_nan; B64.nan_one] l ->
    ~ B64.ascending l.
Proof.
  split; [reflexivity|].
  assert (P : forall l,
    Permutation [B64.nan_three; B64.nan_nan; B64.nan_one] l ->
    ~ B64.ascending l).
  { intros l Hp. apply (b64_nan_never_ascending l B64.nan_nan).
    - apply (Permutation_in _ Hp). right. left. reflexivity.
    - reflexivity.
    - rewrite <- (Permutation_length Hp). simpl. lia. }
  split; [apply P; reflexivity | exact P].
Qed.

Lemma emissions_nonnegative_witness :
  ((B64.emissions_kg B64.small_entry <=? 0)%float = false /\
   (is_nan (B64.emissions_kg B64.small_entry) = false ->
    (0 <? B64.emissions_kg B64.small_entry)%float = true)) /\
  (0 <=? B64.emissions_kg B64.acme_entry)%float = true.
Proof.
  destruct (emissions_nonnegative B64.ascii_builtins) as [L D]. split.
  - apply (L B64.example_stores [B64.small_entry; B64.big_entry] []);
      [reflexivity | left; reflexivity].
  - apply (D B64.example_dataset [B64.general_entry]
             [B64.acme_entry; B64.bolt_entry]
             (match B64._iter_items B64.example_dataset with
              | OK items => items
              | Raise _ => []
              end));
      [reflexivity | reflexivity | | right; left; reflexivity].
    intros it t c a [<-|[<-|[]]] Hit; vm_compute in Hit;
      injection Hit as <- _ _; reflexivity.
Defined.

(** An item with -1 tonnes gives the hospital -1000 kg, and a user whose
    logged amount is NaN is listed with an [emissions_kg] that is NaN. *)
Lemma negative_emissions_entry :
  B64.build_leaderboards_from_data B64.ascii_builtins B64.negative_dataset
  = OK ([B64.negative_entry], []) /\
  (B64.emissions_kg B64.negative_entry <? 0)%float = true /\
  (0 <=? B64.emissions_kg B64.negative_entry)%float = false /\
  B64.build_leaderboards_from_emissions B64.ascii_builtins B64.nan_stores
  = OK ([B64.nan_three; B64.nan_nan; B64.nan_one], []) /\
  is_nan (B64.emissions_kg B64.nan_nan) = true /\
  (0 <=? B64.emissions_kg B64.nan_nan)%float = false.
Proof. repeat split. Qed.



